(** * Dialect translation core of the new-api gateway

    A shallow embedding of the Go packages [relay/channel/openai_responses]
    and [relay/channel/claude] (request translators, stream handlers,
    non-streaming assemblers, smart routing), followed by the properties
    of the specification that were checked against them.

    Conventions.
    - A Go [string] is a Rocq [string]: a sequence of bytes ([ascii]).
    - A Go [int] is a [Z]; the one addition the handlers perform is
      written with its 64-bit wrap-around ([int_add]).
    - A Go pointer that may be [nil] is an [option].
    - A Go [(T, error)] result is a [result T]; an [error] is its message.
    - The JSON encoder, the tokenizer, the native Claude converters and
      the SSE scanner live outside these packages.  The encoder is a type
      class ([Marshaler]), the tokenizer a section variable, the native
      converters are recorded as calls, and the scanner is the list of
      the data lines it delivers. *)

From Stdlib Require Import ZArith String Ascii List Lia Bool PrimFloat.
From stdpp Require Import base gmap strings.
Import ListNotations.
Open Scope Z_scope.

(** ** Go basics *)

Definition int_wrap (z : Z) : Z := (z + 2 ^ 63) mod 2 ^ 64 - 2 ^ 63.

(** [a + b] on Go's 64-bit [int]. *)
Definition int_add (a b : Z) : Z := int_wrap (a + b).

(** [s] is not the empty string *)
Definition nonempty (s : string) : bool := negb (String.eqb s EmptyString).

(** An [error] value is represented by its message. *)
Definition error := string.

Inductive result (A : Type) : Type :=
| Ok (a : A)
| Err (e : error).
Arguments Ok {A} a.
Arguments Err {A} e.

Definition bind {A B : Type} (r : result A) (k : A -> result B) : result B :=
  match r with
  | Ok a => k a
  | Err e => Err e
  end.

(** [fmt.Errorf] wrapping [err] as [<msg>: %w] *)
Definition wrap_err {A : Type} (msg : string) (r : result A) : result A :=
  match r with
  | Ok a => Ok a
  | Err e => Err (msg +:+ ": " +:+ e)
  end.

Notation "'let*' x ':=' r 'in' k" := (bind r (fun x => k))
  (at level 10, x name, r at level 200, k at level 200).

(** [json.Marshal] is polymorphic in its argument; each Go type that the
    translators encode has an instance. *)
Class Marshaler (A : Type) := json_Marshal : A -> result string.

(** ** Package [dto]: the fields the translators read and write *)

Module Dto.

Module InputTokenDetails.
Record t := mk { CachedTokens : Z }.
End InputTokenDetails.

Module Usage.
Record t := mk {
  PromptTokens : Z;
  CompletionTokens : Z;
  TotalTokens : Z;
  PromptTokensDetails : InputTokenDetails.t;
  InputTokens : Z;
  OutputTokens : Z;
  InputTokensDetails : option InputTokenDetails.t
}.

(** [dto.Usage{}] *)
Definition zero : t := mk 0 0 0 (InputTokenDetails.mk 0) 0 0 None.

Definition set_PromptTokens (v : Z) (u : t) : t :=
  mk v (CompletionTokens u) (TotalTokens u) (PromptTokensDetails u)
     (InputTokens u) (OutputTokens u) (InputTokensDetails u).

Definition set_CompletionTokens (v : Z) (u : t) : t :=
  mk (PromptTokens u) v (TotalTokens u) (PromptTokensDetails u)
     (InputTokens u) (OutputTokens u) (InputTokensDetails u).

Definition set_TotalTokens (v : Z) (u : t) : t :=
  mk (PromptTokens u) (CompletionTokens u) v (PromptTokensDetails u)
     (InputTokens u) (OutputTokens u) (InputTokensDetails u).

Definition set_PromptCachedTokens (v : Z) (u : t) : t :=
  mk (PromptTokens u) (CompletionTokens u) (TotalTokens u)
     (InputTokenDetails.mk v)
     (InputTokens u) (OutputTokens u) (InputTokensDetails u).
End Usage.

Module ResponsesOutputContent.
Record t := mk { Type_ : string; Text : string }.
End ResponsesOutputContent.

Module ResponsesOutput.
Record t := mk {
  Type_ : string;
  Role : string;
  Content : list ResponsesOutputContent.t
}.
End ResponsesOutput.

Module OpenAIResponsesResponse.
Record t := mk {
  ID : string;
  Model : string;
  Status : string;
  CreatedAt : Z;
  Output : list ResponsesOutput.t;
  Usage : option Usage.t
}.
End OpenAIResponsesResponse.

Module ResponsesStreamResponse.
Record t := mk {
  Type_ : string;
  Response : option OpenAIResponsesResponse.t;
  Delta : string;
  Item : option ResponsesOutput.t
}.
End ResponsesStreamResponse.

Module ChatCompletionsStreamResponseChoiceDelta.
Record t := mk { Role : string; Content : option string }.
End ChatCompletionsStreamResponseChoiceDelta.

Module ChatCompletionsStreamResponseChoice.
Record t := mk {
  Index : Z;
  Delta : ChatCompletionsStreamResponseChoiceDelta.t;
  FinishReason : option string
}.
End ChatCompletionsStreamResponseChoice.

Module ChatCompletionsStreamResponse.
Record t := mk {
  Id : string;
  Object : string;
  Created : Z;
  Model : string;
  Choices : list ChatCompletionsStreamResponseChoice.t;
  Usage : option Usage.t
}.
End ChatCompletionsStreamResponse.

Module ClaudeUsage.
Record t := mk { InputTokens : Z; OutputTokens : Z }.
End ClaudeUsage.

Module ClaudeMediaMessage.
Record t := mk {
  Type_ : string;
  Id : string;
  Model : string;
  Role : string;
  Text : option string;
  StopReason : option string;
  Usage : option ClaudeUsage.t
}.

(** [dto.ClaudeMediaMessage{}] *)
Definition zero : t :=
  mk EmptyString EmptyString EmptyString EmptyString None None None.
End ClaudeMediaMessage.

Module ClaudeResponse.
Record t := mk {
  Id : string;
  Type_ : string;
  Role : string;
  Content : list ClaudeMediaMessage.t;
  Model : string;
  StopReason : string;
  Index : option Z;
  Message : option ClaudeMediaMessage.t;
  ContentBlock : option ClaudeMediaMessage.t;
  Delta : option ClaudeMediaMessage.t;
  Usage : option ClaudeUsage.t
}.

(** [dto.ClaudeResponse{Type: ty}] *)
Definition of_type (ty : string) : t :=
  mk EmptyString ty EmptyString [] EmptyString EmptyString
     None None None None None.
End ClaudeResponse.

(** A Go [any] holding a value decoded from JSON: [nil], a [bool], a
    [float64], a [string], a [[]interface{}] or a
    [map[string]interface{}]. *)
#[local] Set Warnings "-register-all".
Inductive any :=
| ANil
| ABool (b : bool)
| ANumber (f : float)
| AString (s : string)
| AArray (l : list any)
| AObject (m : gmap string any).

Module Message.
Record t := mk { Role : string; Content : any }.
End Message.

Module GeneralOpenAIRequest.
Record t := mk {
  Model : string;
  Messages : list Message.t;
  Stream : bool;
  MaxTokens : Z;
  MaxCompletionTokens : Z;
  ReasoningEffort : string;
  Temperature : option float;
  TopP : float;
  Tools : list any;
  ToolChoice : any;
  ParallelToolCalls : option bool;
  User : string
}.
End GeneralOpenAIRequest.

Module ClaudeMessage.
Record t := mk { Role : string; Content : any }.
End ClaudeMessage.

Module ClaudeRequest.
Record t := mk {
  Model : string;
  System : any;
  Messages : list ClaudeMessage.t;
  MaxTokens : Z;
  MaxTokensToSample : Z;
  StopSequences : list string;
  Temperature : option float;
  TopP : float;
  TopK : Z;
  Stream : bool;
  Tools : any;
  ToolChoice : any;
  Metadata : option string
}.
End ClaudeRequest.

Module Reasoning.
Record t := mk { Effort : string }.
End Reasoning.

Module Input.
Record t := mk {
  Type_ : string;
  Role : string;
  Content : option string
}.
End Input.

(** A [json.RawMessage] field is [None] while it is [nil]. *)
Module OpenAIResponsesRequest.
Record t := mk {
  Model : string;
  Input_ : option string;
  Instructions : option string;
  MaxOutputTokens : Z;
  Metadata : option string;
  ParallelToolCalls : option string;
  Reasoning_ : option Reasoning.t;
  Stream : bool;
  Temperature : float;
  ToolChoice : option string;
  Tools : option string;
  TopP : float;
  User : string
}.
End OpenAIResponsesRequest.

End Dto.
Import Dto.

(** ** Go's [unicode/utf8], [unicode] and [strings], as far as the
       translators call them *)

Module GoUtf8.

Definition byteZ (c : ascii) : Z := Z.of_N (N_of_ascii c).

(** [byte(z)] for [0 <= z < 256] *)
Definition mkbyte (z : Z) : ascii := ascii_of_N (Z.to_N z).

Definition RuneError : Z := 0xFFFD.
Definition MaxRune : Z := 0x10FFFF.
Definition surrogateMin : Z := 0xD800.
Definition surrogateMax : Z := 0xDFFF.

(** [utf8.ValidRune] *)
Definition ValidRune (r : Z) : bool :=
  if (0 <=? r) && (r <? surrogateMin) then true
  else if (surrogateMax <? r) && (r <=? MaxRune) then true
  else false.

(** What the leading byte announces: Go's [first] table together with
    [acceptRanges]. *)
Inductive lead :=
| LeadASCII
| LeadInvalid
| LeadMulti (sz : nat) (lo hi : Z).

Definition first (b0 : Z) : lead :=
  if b0 <? 0x80 then LeadASCII
  else if b0 <? 0xC2 then LeadInvalid
  else if b0 <=? 0xDF then LeadMulti 2 0x80 0xBF
  else if b0 =? 0xE0 then LeadMulti 3 0xA0 0xBF
  else if b0 <=? 0xEC then LeadMulti 3 0x80 0xBF
  else if b0 =? 0xED then LeadMulti 3 0x80 0x9F
  else if b0 <=? 0xEF then LeadMulti 3 0x80 0xBF
  else if b0 =? 0xF0 then LeadMulti 4 0x90 0xBF
  else if b0 <=? 0xF3 then LeadMulti 4 0x80 0xBF
  else if b0 =? 0xF4 then LeadMulti 4 0x80 0x8F
  else LeadInvalid.

(** [s[i]], with 0 past the end (the decoder never reads there) *)
Definition byte_at (s : string) (i : nat) : Z :=
  match String.get i s with
  | Some c => byteZ c
  | None => 0
  end.

Definition maskx : Z := 0x3F.
Definition mask2 : Z := 0x1F.
Definition mask3 : Z := 0x0F.
Definition mask4 : Z := 0x07.
Definition locb : Z := 0x80.
Definition hicb : Z := 0xBF.

(** [utf8.DecodeRuneInString]: the first rune of [s] and its width in
    bytes; [(RuneError, 1)] for an invalid encoding. *)
Definition DecodeRuneInString (s : string) : Z * nat :=
  let n := String.length s in
  if (n <? 1)%nat then (RuneError, 0%nat)
  else
    let s0 := byte_at s 0 in
    match first s0 with
    | LeadASCII => (s0, 1%nat)
    | LeadInvalid => (RuneError, 1%nat)
    | LeadMulti sz lo hi =>
        if (n <? sz)%nat then (RuneError, 1%nat)
        else
          let s1 := byte_at s 1 in
          if (s1 <? lo) || (hi <? s1) then (RuneError, 1%nat)
          else if (sz <=? 2)%nat then
            (Z.lor (Z.shiftl (Z.land s0 mask2) 6) (Z.land s1 maskx), 2%nat)
          else
            let s2 := byte_at s 2 in
            if (s2 <? locb) || (hicb <? s2) then (RuneError, 1%nat)
            else if (sz <=? 3)%nat then
              (Z.lor (Z.lor (Z.shiftl (Z.land s0 mask3) 12)
                            (Z.shiftl (Z.land s1 maskx) 6))
                     (Z.land s2 maskx), 3%nat)
            else
              let s3 := byte_at s 3 in
              if (s3 <? locb) || (hicb <? s3) then (RuneError, 1%nat)
              else
                (Z.lor (Z.lor (Z.lor (Z.shiftl (Z.land s0 mask4) 18)
                                     (Z.shiftl (Z.land s1 maskx) 12))
                              (Z.shiftl (Z.land s2 maskx) 6))
                       (Z.land s3 maskx), 4%nat)
    end.

(** The decoder reports an invalid encoding as [(RuneError, 1)]; the
    three-byte encoding of U+FFFD decodes to [(RuneError, 3)]. *)
Definition invalid_encoding (d : Z * nat) : bool :=
  (fst d =? RuneError) && (snd d =? 1)%nat.

(** [for _, r := range s]: the runes the loop variable takes, in order.
    [skip] counts the bytes of the current rune still to be passed. *)
Fixpoint range_from (skip : nat) (s : string) : list Z :=
  match s with
  | EmptyString => []
  | String _ rest =>
      match skip with
      | S k => range_from k rest
      | O =>
          let d := DecodeRuneInString s in
          fst d :: range_from (Nat.pred (snd d)) rest
      end
  end.

Definition range (s : string) : list Z := range_from 0 s.

(** [utf8.ValidString] and [utf8.Valid]: no position decodes to an
    invalid encoding. *)
Fixpoint ValidString_from (skip : nat) (s : string) : bool :=
  match s with
  | EmptyString => true
  | String _ rest =>
      match skip with
      | S k => ValidString_from k rest
      | O =>
          let d := DecodeRuneInString s in
          if invalid_encoding d then false
          else ValidString_from (Nat.pred (snd d)) rest
      end
  end.

Definition ValidString (s : string) : bool := ValidString_from 0 s.
Definition Valid (b : string) : bool := ValidString b.

(** [utf8.EncodeRune] / [utf8.AppendRune]: the UTF-8 bytes of [r]; a
    rune that is out of range or a surrogate is written as U+FFFD. *)
Definition EncodeRune (r : Z) : string :=
  let t2 := 0xC0 in let t3 := 0xE0 in let t4 := 0xF0 in let tx := 0x80 in
  let three (r : Z) :=
    String (mkbyte (Z.lor t3 (Z.shiftr r 12)))
      (String (mkbyte (Z.lor tx (Z.land (Z.shiftr r 6) maskx)))
        (String (mkbyte (Z.lor tx (Z.land r maskx))) EmptyString)) in
  if (0 <=? r) && (r <=? 0x7F) then String (mkbyte r) EmptyString
  else if (0 <=? r) && (r <=? 0x7FF) then
    String (mkbyte (Z.lor t2 (Z.shiftr r 6)))
      (String (mkbyte (Z.lor tx (Z.land r maskx))) EmptyString)
  else if (r <? 0) || (MaxRune <? r)
          || ((surrogateMin <=? r) && (r <=? surrogateMax)) then
    three RuneError
  else if r <=? 0xFFFF then three r
  else
    String (mkbyte (Z.lor t4 (Z.shiftr r 18)))
      (String (mkbyte (Z.lor tx (Z.land (Z.shiftr r 12) maskx)))
        (String (mkbyte (Z.lor tx (Z.land (Z.shiftr r 6) maskx)))
          (String (mkbyte (Z.lor tx (Z.land r maskx))) EmptyString))).

(** [WriteRune] of [strings.Builder], on the builder's contents *)
Definition WriteRune (b : string) (r : Z) : string := b +:+ EncodeRune r.

(** [unicode.IsControl]: category Cc, which lies within Latin-1 *)
Definition IsControl (r : Z) : bool :=
  if (0 <=? r) && (r <=? 0xFF) then
    (r <=? 0x1F) || ((0x7F <=? r) && (r <=? 0x9F))
  else false.

(** [strings.ContainsRune] *)
Definition ContainsRune (s : string) (r : Z) : bool :=
  ValidRune r && existsb (Z.eqb r) (range s).

(** [strings.ToValidUTF8] with an empty replacement: every invalid byte
    is dropped, the
    bytes of every well-formed rune are kept. *)
Fixpoint ToValidUTF8_from (keep : nat) (s : string) : string :=
  match s with
  | EmptyString => EmptyString
  | String c rest =>
      match keep with
      | S k => String c (ToValidUTF8_from k rest)
      | O =>
          let d := DecodeRuneInString s in
          if invalid_encoding d then ToValidUTF8_from 0 rest
          else String c (ToValidUTF8_from (Nat.pred (snd d)) rest)
      end
  end.

Definition ToValidUTF8 (s : string) : string := ToValidUTF8_from 0 s.

End GoUtf8.

(** ** Package [relaycommon] and the scanner, as the handlers use them *)

Inductive RelayMode :=
| RelayModeChatCompletions
| RelayModeResponses
| RelayModeOther (n : Z).

Module RelayInfo.
Record t := mk {
  UpstreamModelName : string;
  OriginModelName : string;
  PromptTokens : Z;
  RelayMode_ : RelayMode;
  IsStream : bool;
  ResponseBody : string;
  (** [ResponsesUsageInfo.BuiltInTools]: [None] when either pointer is
      [nil]; an entry holds the tool's [CallCount], or [None] for [nil]. *)
  BuiltInTools : option (gmap string (option Z))
}.

Definition set_ResponseBody (v : string) (i : t) : t :=
  mk (UpstreamModelName i) (OriginModelName i) (PromptTokens i)
     (RelayMode_ i) (IsStream i) v (BuiltInTools i).

Definition set_RelayMode (v : RelayMode) (i : t) : t :=
  mk (UpstreamModelName i) (OriginModelName i) (PromptTokens i)
     v (IsStream i) (ResponseBody i) (BuiltInTools i).

Definition set_BuiltInTools (v : option (gmap string (option Z))) (i : t) : t :=
  mk (UpstreamModelName i) (OriginModelName i) (PromptTokens i)
     (RelayMode_ i) (IsStream i) (ResponseBody i) v.
End RelayInfo.

(** One data line delivered by [helper.StreamScannerHandler], with the
    outcome of [common.UnmarshalJsonStr] on it. *)
Module Line.
Record t := mk {
  data : string;
  parsed : result ResponsesStreamResponse.t
}.
End Line.

Definition newline : string := String (ascii_of_nat 10) EmptyString.

(** The update of the running usage from a terminal event's usage, as
    every stream handler writes it. *)
Definition captureUsage (ru : Usage.t) (usage : Usage.t) : Usage.t :=
  let usage :=
    if negb (Usage.InputTokens ru =? 0)
    then Usage.set_PromptTokens (Usage.InputTokens ru) usage else usage in
  let usage :=
    if negb (Usage.OutputTokens ru =? 0)
    then Usage.set_CompletionTokens (Usage.OutputTokens ru) usage else usage in
  if negb (Usage.TotalTokens ru =? 0)
  then Usage.set_TotalTokens (Usage.TotalTokens ru) usage else usage.

(** ** The request context and what converters and handlers leave behind *)

(** A value stored in the request context with [c.Set]. *)
Inductive ctxValue :=
| CtxBool (b : bool)
| CtxChatRequest (r : GeneralOpenAIRequest.t)
| CtxClaudeRequest (r : ClaudeRequest.t).

(** The outcome of a converter: its result, the request context and the
    relay info as it leaves them. *)
Record routed (A : Type) := mkRouted {
  outcome : result A;
  context_after : gmap string ctxValue;
  relay_after : RelayInfo.t
}.
Arguments mkRouted {A}.
Arguments outcome {A}.
Arguments context_after {A}.
Arguments relay_after {A}.

(** What a stream handler leaves behind: the events written to the
    client, the relay info (with the collected response body) and the
    returned usage. *)
Record handled (frame : Type) := mkHandled {
  sent : list frame;
  info_after : RelayInfo.t;
  returned : Usage.t
}.
Arguments mkHandled {frame}.
Arguments sent {frame}.
Arguments info_after {frame}.
Arguments returned {frame}.

(** ** Non-streaming responses: the types of packages [dto], [types] and
       [net/http] that the handlers use *)

(** [dto.OpenAIResponsesResponse] as a non-streaming handler decodes it
    from a whole body: the fields of [OpenAIResponsesResponse.t] together
    with [Error] and [Tools], which only these handlers read. *)
Module ResponsesBody.
Record t := mk {
  Response : OpenAIResponsesResponse.t;
  Error : any;
  Tools : list (gmap string any)
}.
End ResponsesBody.

Module OpenAITextResponseChoice.
Record t := mk {
  Index : Z;
  Message_ : Message.t;
  FinishReason : string
}.
End OpenAITextResponseChoice.

(** [dto.OpenAITextResponse]; [Created] is [None] while the field is not
    set. *)
Module OpenAITextResponse.
Record t := mk {
  Id : string;
  Model : string;
  Object : string;
  Created : option Z;
  Choices : list OpenAITextResponseChoice.t;
  Error : any;
  Usage_ : Usage.t
}.
End OpenAITextResponse.

(** [types.OpenAIError], by the fields that are read here *)
Module OpenAIError.
Record t := mk { Message : string; Type_ : string }.
End OpenAIError.

Inductive ErrorCode :=
| ErrorCodeInvalidRequest
| ErrorCodeReadResponseBodyFailed
| ErrorCodeBadResponseBody
| ErrorCodeBadResponse
| ErrorCodeJsonMarshalFailed
| ErrorCodeConvertRequestFailed.

(** A [*types.NewAPIError], by the function of package [types] that
    builds it. *)
Inductive NewAPIError :=
| NewError (err : error) (errorCode : ErrorCode)
| NewErrorWithStatusCode (err : error) (errorCode : ErrorCode) (statusCode : Z)
| NewOpenAIError (err : error) (errorCode : ErrorCode) (statusCode : Z)
| WithOpenAIError (openAIError : OpenAIError.t) (statusCode : Z).

(** [http.StatusInternalServerError] *)
Definition StatusInternalServerError : Z := 500.

(** An upstream [*http.Response] that has a body: its status code, what
    [io.ReadAll] returns for the body, and the data lines that the stream
    scanner delivers for it. *)
Module HttpResponse.
Record t := mk {
  StatusCode : Z;
  ReadAll : result string;
  Lines : list Line.t
}.
End HttpResponse.

(** The fields of [relaycommon.RelayInfo] that only the builders of the
    request URL read. *)
Module RequestTarget.
Record t := mk {
  ChannelBaseUrl : string;
  RequestURLPath : string;
  IsClaudeBetaQuery : bool
}.
End RequestTarget.

(** What a non-streaming handler leaves behind: the usage or the error it
    returns, the bytes it has written to the client, and the relay info. *)
Record answered := mkAnswered {
  answer : NewAPIError + Usage.t;
  body_written : option string;
  info_left : RelayInfo.t
}.

(** ** Statements shared by the request translators *)

Section TranslatorBlocks.

Context {marshal_any : Marshaler any}.
Context {marshal_inputs : Marshaler (list Input.t)}.
Context {marshal_tools : Marshaler (list any)}.
Context {marshal_bool : Marshaler bool}.

(** The token limit, the reasoning directive and the pass-through fields
    are computed by the same statements in every request translator. *)
Definition maxOutputTokens (maxTokens fallback : Z) : Z :=
  if 0 <? maxTokens then maxTokens
  else if 0 <? fallback then fallback
  else 0.

Definition reasoningOf (effort : string) : option Reasoning.t :=
  if nonempty effort then Some (Reasoning.mk effort) else None.

Definition marshalInputs (inputs : list Input.t) : result (option string) :=
  if (0 <? length inputs)%nat then
    let* inputData := wrap_err "failed to marshal inputs" (json_Marshal inputs) in
    Ok (Some inputData)
  else Ok None.

Definition marshalTools (tools : list any) : result (option string) :=
  if (0 <? length tools)%nat then
    let* toolsData := wrap_err "failed to marshal tools" (json_Marshal tools) in
    Ok (Some toolsData)
  else Ok None.

Definition marshalToolChoice (toolChoice : any) : result (option string) :=
  match toolChoice with
  | ANil => Ok None
  | _ =>
      let* toolChoiceData :=
        wrap_err "failed to marshal tool_choice" (json_Marshal toolChoice) in
      Ok (Some toolChoiceData)
  end.

Definition marshalParallelToolCalls (p : option bool) : result (option string) :=
  match p with
  | None => Ok None
  | Some b =>
      let* parallelData :=
        wrap_err "failed to marshal parallel_tool_calls" (json_Marshal b) in
      Ok (Some parallelData)
  end.

End TranslatorBlocks.

(** The argument of [strings.ContainsRune] in both packages: CR, LF, TAB. *)
Definition CRLFTAB : string :=
  String (ascii_of_nat 13) (String (ascii_of_nat 10)
    (String (ascii_of_nat 9) EmptyString)).

(** ** Package [openai_responses] *)

Module OpenaiResponses.
Import GoUtf8.

(** *** convert.go *)

(** The body of the loop of [isValidUTF8String], over the runes that
    [range s] yields; [false] when the loop returns [false] early. *)
Fixpoint isValidUTF8String_loop (rs : list Z) : bool :=
  match rs with
  | [] => true
  | r :: rs' =>
      if negb (ValidRune r) then false
      else if IsControl r && negb (ContainsRune CRLFTAB r) then false
      else isValidUTF8String_loop rs'
  end.

Definition isValidUTF8String (s : string) : bool :=
  if isValidUTF8String_loop (range s) then ValidString s else false.

Definition isValidUTF8Bytes (b : string) : bool := Valid b.

(** The loop of [cleanInvalidUTF8Chars]; [result] is the builder. *)
Fixpoint cleanInvalidUTF8Chars_loop (rs : list Z) (result : string) : string :=
  match rs with
  | [] => result
  | r :: rs' =>
      if negb (ValidRune r) then cleanInvalidUTF8Chars_loop rs' result
      else if IsControl r && negb (ContainsRune CRLFTAB r) then
        cleanInvalidUTF8Chars_loop rs' result
      else cleanInvalidUTF8Chars_loop rs' (WriteRune result r)
  end.

Definition cleanInvalidUTF8Chars (s : string) : string :=
  cleanInvalidUTF8Chars_loop (range s) EmptyString.

Definition cleanInvalidUTF8Bytes (b : string) : string := ToValidUTF8 b.

(** The two loops of [extractContentFromOutput]. *)
Fixpoint extractContent_items (content : list ResponsesOutputContent.t)
  (contentBuilder : string) : string :=
  match content with
  | [] => contentBuilder
  | contentItem :: rest =>
      if (ResponsesOutputContent.Type_ contentItem =? "output_text")%string
      then extractContent_items rest
             (contentBuilder +:+ ResponsesOutputContent.Text contentItem)
      else extractContent_items rest contentBuilder
  end.

Fixpoint extractContent_output (output : list ResponsesOutput.t)
  (contentBuilder : string) : string :=
  match output with
  | [] => contentBuilder
  | item :: rest =>
      if (ResponsesOutput.Type_ item =? "message")%string
         && (ResponsesOutput.Role item =? "assistant")%string
      then extractContent_output rest
             (extractContent_items (ResponsesOutput.Content item) contentBuilder)
      else extractContent_output rest contentBuilder
  end.

Definition extractContentFromOutput (output : list ResponsesOutput.t) : string :=
  extractContent_output output EmptyString.

Definition extractFinishReason (status : string) : string :=
  if (status =? "completed")%string then "stop"
  else if (status =? "incomplete")%string then "length"
  else if (status =? "failed")%string then "error"
  else if (status =? "cancelled")%string then "stop"
  else "stop".

(** [ConvertResponsesStreamToChatStream]; the caller always passes the
    address of a parsed event, so the pointer is not [nil]. [None] is the
    [nil] result of an ignored event. *)
Definition ConvertResponsesStreamToChatStream
  (responsesStreamResp : ResponsesStreamResponse.t)
  (responseID : string) (model : string)
  : option ChatCompletionsStreamResponse.t :=
  let currentID :=
    match ResponsesStreamResponse.Response responsesStreamResp with
    | Some resp =>
        if nonempty (OpenAIResponsesResponse.ID resp)
        then OpenAIResponsesResponse.ID resp else responseID
    | None => responseID
    end in
  let created :=
    match ResponsesStreamResponse.Response responsesStreamResp with
    | Some resp => OpenAIResponsesResponse.CreatedAt resp
    | None => 0
    end in
  let chatStreamResp choices usage :=
    ChatCompletionsStreamResponse.mk currentID "chat.completion.chunk"
      created model choices usage in
  let ty := ResponsesStreamResponse.Type_ responsesStreamResp in
  if (ty =? "response.output_text.delta")%string then
    if nonempty (ResponsesStreamResponse.Delta responsesStreamResp) then
      let content := ResponsesStreamResponse.Delta responsesStreamResp in
      let choice :=
        ChatCompletionsStreamResponseChoice.mk 0
          (ChatCompletionsStreamResponseChoiceDelta.mk EmptyString (Some content))
          None in
      Some (chatStreamResp [choice] None)
    else None
  else if (ty =? "response.output_item.added")%string then
    match ResponsesStreamResponse.Item responsesStreamResp with
    | Some item =>
        if (ResponsesOutput.Role item =? "assistant")%string then
          let choice :=
            ChatCompletionsStreamResponseChoice.mk 0
              (ChatCompletionsStreamResponseChoiceDelta.mk "assistant"
                 (Some EmptyString))
              None in
          Some (chatStreamResp [choice] None)
        else None
    | None => None
    end
  else if (ty =? "response.done")%string then
    match ResponsesStreamResponse.Response responsesStreamResp with
    | Some resp =>
        let finishReason := extractFinishReason (OpenAIResponsesResponse.Status resp) in
        let choice :=
          ChatCompletionsStreamResponseChoice.mk 0
            (ChatCompletionsStreamResponseChoiceDelta.mk EmptyString None)
            (Some finishReason) in
        Some (chatStreamResp [choice] (OpenAIResponsesResponse.Usage resp))
    | None => None
    end
  else None.

(** *** claude_handler.go *)

Definition extractClaudeStopReason (status : string) : string :=
  if (status =? "completed")%string then "end_turn"
  else if (status =? "incomplete")%string then "max_tokens"
  else "end_turn".

(** The [send...] helpers build one [dto.ClaudeResponse] each and hand it
    to [sendClaudeStreamData], which writes it as one SSE event.  The
    definitions below are the values handed over. *)

Definition setIndex (index : Z) (r : ClaudeResponse.t) : ClaudeResponse.t :=
  ClaudeResponse.mk (ClaudeResponse.Id r) (ClaudeResponse.Type_ r)
    (ClaudeResponse.Role r) (ClaudeResponse.Content r) (ClaudeResponse.Model r)
    (ClaudeResponse.StopReason r) (Some index) (ClaudeResponse.Message r)
    (ClaudeResponse.ContentBlock r) (ClaudeResponse.Delta r)
    (ClaudeResponse.Usage r).

Definition sendClaudeMessageStart (id : string) (model : string) : ClaudeResponse.t :=
  let usage := ClaudeUsage.mk 0 0 in
  let message :=
    ClaudeMediaMessage.mk "message" EmptyString model "assistant"
      None None (Some usage) in
  ClaudeResponse.mk EmptyString "message_start" EmptyString [] EmptyString
    EmptyString None (Some message) None None (Some usage).

Definition sendClaudeContentBlockStart (index : Z) : ClaudeResponse.t :=
  let text := EmptyString in
  setIndex index
    (ClaudeResponse.mk EmptyString "content_block_start" EmptyString []
       EmptyString EmptyString None None
       (Some (ClaudeMediaMessage.mk "text" EmptyString EmptyString EmptyString
                (Some text) None None))
       None None).

Definition sendClaudeContentBlockDelta (index : Z) (delta : string) : ClaudeResponse.t :=
  setIndex index
    (ClaudeResponse.mk EmptyString "content_block_delta" EmptyString []
       EmptyString EmptyString None None None
       (Some (ClaudeMediaMessage.mk "text_delta" EmptyString EmptyString
                EmptyString (Some delta) None None))
       None).

Definition sendClaudeContentBlockStop (index : Z) : ClaudeResponse.t :=
  setIndex index (ClaudeResponse.of_type "content_block_stop").

Definition sendClaudeMessageDelta (stopReason : string) (usage : option Usage.t)
  : ClaudeResponse.t :=
  let outputTokens :=
    match usage with
    | Some u => Usage.OutputTokens u
    | None => 0
    end in
  ClaudeResponse.mk EmptyString "message_delta" EmptyString [] EmptyString
    EmptyString None None None
    (Some (ClaudeMediaMessage.mk EmptyString EmptyString EmptyString EmptyString
             None (Some stopReason) None))
    (Some (ClaudeUsage.mk 0 outputTokens)).

Definition sendClaudeMessageStop : ClaudeResponse.t :=
  ClaudeResponse.of_type "message_stop".

(** The local variables of [ResponsesToClaudeStreamHandler] that its
    scanner callback updates, and the events written so far. *)
Module ClaudeStream.
Record t := mk {
  usage : Usage.t;
  responseTextBuilder : string;
  fullStreamResponse : string;
  responseID : string;
  messageStartSent : bool;
  written : list ClaudeResponse.t
}.

Definition init : t :=
  mk Usage.zero EmptyString EmptyString EmptyString false [].
End ClaudeStream.

(** The scanner callback of [ResponsesToClaudeStreamHandler]. *)
Definition claudeStreamCallback (info : RelayInfo.t) (st : ClaudeStream.t)
  (line : Line.t) : ClaudeStream.t :=
  let full :=
    ClaudeStream.fullStreamResponse st +:+ Line.data line +:+ newline in
  match Line.parsed line with
  | Err _ =>
      ClaudeStream.mk (ClaudeStream.usage st)
        (ClaudeStream.responseTextBuilder st) full
        (ClaudeStream.responseID st) (ClaudeStream.messageStartSent st)
        (ClaudeStream.written st)
  | Ok streamResponse =>
      let responseID :=
        match ResponsesStreamResponse.Response streamResponse with
        | Some resp =>
            if nonempty (OpenAIResponsesResponse.ID resp)
            then OpenAIResponsesResponse.ID resp
            else ClaudeStream.responseID st
        | None => ClaudeStream.responseID st
        end in
      let start :=
        negb (ClaudeStream.messageStartSent st) && nonempty responseID in
      let written :=
        if start then
          ClaudeStream.written st
            ++ [sendClaudeMessageStart responseID (RelayInfo.UpstreamModelName info);
                sendClaudeContentBlockStart 0]
        else ClaudeStream.written st in
      let messageStartSent :=
        if start then true else ClaudeStream.messageStartSent st in
      let ty := ResponsesStreamResponse.Type_ streamResponse in
      let delta := ResponsesStreamResponse.Delta streamResponse in
      let isDelta := (ty =? "response.output_text.delta")%string && nonempty delta in
      let written :=
        if isDelta then written ++ [sendClaudeContentBlockDelta 0 delta]
        else written in
      let text :=
        if isDelta then ClaudeStream.responseTextBuilder st +:+ delta
        else ClaudeStream.responseTextBuilder st in
      match (ty =? "response.done")%string,
            ResponsesStreamResponse.Response streamResponse with
      | true, Some resp =>
          let written :=
            written ++ [sendClaudeContentBlockStop 0;
                        sendClaudeMessageDelta "end_turn"
                          (OpenAIResponsesResponse.Usage resp);
                        sendClaudeMessageStop] in
          let usage :=
            match OpenAIResponsesResponse.Usage resp with
            | Some ru => captureUsage ru (ClaudeStream.usage st)
            | None => ClaudeStream.usage st
            end in
          ClaudeStream.mk usage text full responseID messageStartSent written
      | _, _ =>
          ClaudeStream.mk (ClaudeStream.usage st) text full responseID
            messageStartSent written
      end
  end.

(** The local variables of [ResponsesToChatStreamHandler] that its
    scanner callback updates, the tool counters of the relay info, and the
    chunks written so far. *)
Module ChatStream.
Record t := mk {
  usage : Usage.t;
  responseTextBuilder : string;
  fullStreamResponse : string;
  responseID : string;
  tools : option (gmap string (option Z));
  written : list ChatCompletionsStreamResponse.t
}.

Definition init (info : RelayInfo.t) : t :=
  mk Usage.zero EmptyString EmptyString EmptyString
     (RelayInfo.BuiltInTools info) [].
End ChatStream.

Section StreamHandlers.

(** [service.CountTextToken(text, model)] *)
Variable CountTextToken : string -> string -> Z.

(** The closing block of both stream handlers: the fallback token count,
    the prompt-token fallback and the recomputed total. *)
Definition reconcileUsage (info : RelayInfo.t) (responseText : string)
  (usage : Usage.t) : Usage.t :=
  let usage :=
    if Usage.CompletionTokens usage =? 0 then
      let tempStr := responseText in
      if (0 <? String.length tempStr)%nat then
        let completionTokens :=
          CountTextToken tempStr (RelayInfo.UpstreamModelName info) in
        Usage.set_CompletionTokens completionTokens usage
      else usage
    else usage in
  let usage :=
    if (Usage.PromptTokens usage =? 0)
       && negb (Usage.CompletionTokens usage =? 0)
    then Usage.set_PromptTokens (RelayInfo.PromptTokens info) usage
    else usage in
  Usage.set_TotalTokens
    (int_add (Usage.PromptTokens usage) (Usage.CompletionTokens usage)) usage.

(** [ResponsesToClaudeStreamHandler]; [resp] is [None] when the response
    or its body is [nil], otherwise the lines the scanner delivers. *)
Definition ResponsesToClaudeStreamHandler (info : RelayInfo.t)
  (resp : option (list Line.t)) : result (handled ClaudeResponse.t) :=
  match resp with
  | None => Err "invalid response"
  | Some lines =>
      let st := fold_left (claudeStreamCallback info) lines ClaudeStream.init in
      let info := RelayInfo.set_ResponseBody (ClaudeStream.fullStreamResponse st) info in
      Ok (mkHandled (ClaudeStream.written st) info
            (reconcileUsage info (ClaudeStream.responseTextBuilder st)
               (ClaudeStream.usage st)))
  end.

(** *** The stream handler of the Chat-style target *)

(** [dto.ResponsesOutputTypeItemDone], [dto.BuildInCallWebSearchCall] and
    [dto.BuildInToolWebSearchPreview] are string constants of package
    [dto]. *)
Variable ResponsesOutputTypeItemDone : string.
Variable BuildInCallWebSearchCall : string.
Variable BuildInToolWebSearchPreview : string.

(** The nested [switch] on the finished item's type. *)
Definition countWebSearchCall (item : option ResponsesOutput.t)
  (tools : option (gmap string (option Z))) : option (gmap string (option Z)) :=
  match item with
  | Some it =>
      if (ResponsesOutput.Type_ it =? BuildInCallWebSearchCall)%string then
        match tools with
        | Some m =>
            match m !! BuildInToolWebSearchPreview with
            | Some (Some callCount) =>
                Some (<[BuildInToolWebSearchPreview := Some (int_add callCount 1)]> m)
            | _ => tools
            end
        | None => tools
        end
      else tools
  | None => tools
  end.

(** The scanner callback of [ResponsesToChatStreamHandler]. *)
Definition chatStreamCallback (info : RelayInfo.t) (st : ChatStream.t)
  (line : Line.t) : ChatStream.t :=
  let full :=
    if (0 <? String.length (Line.data line))%nat
    then ChatStream.fullStreamResponse st +:+ Line.data line +:+ newline
    else ChatStream.fullStreamResponse st in
  match Line.parsed line with
  | Err _ =>
      ChatStream.mk (ChatStream.usage st) (ChatStream.responseTextBuilder st)
        full (ChatStream.responseID st) (ChatStream.tools st)
        (ChatStream.written st)
  | Ok streamResponse =>
      let responseID :=
        match ResponsesStreamResponse.Response streamResponse with
        | Some resp =>
            if nonempty (OpenAIResponsesResponse.ID resp)
            then OpenAIResponsesResponse.ID resp
            else ChatStream.responseID st
        | None => ChatStream.responseID st
        end in
      let written :=
        match ConvertResponsesStreamToChatStream streamResponse responseID
                (RelayInfo.UpstreamModelName info) with
        | Some chatStreamResp => ChatStream.written st ++ [chatStreamResp]
        | None => ChatStream.written st
        end in
      let ty := ResponsesStreamResponse.Type_ streamResponse in
      if (ty =? "response.completed")%string then
        let usage :=
          match ResponsesStreamResponse.Response streamResponse with
          | Some resp =>
              match OpenAIResponsesResponse.Usage resp with
              | Some ru =>
                  let usage := captureUsage ru (ChatStream.usage st) in
                  match Usage.InputTokensDetails ru with
                  | Some d =>
                      Usage.set_PromptCachedTokens
                        (InputTokenDetails.CachedTokens d) usage
                  | None => usage
                  end
              | None => ChatStream.usage st
              end
          | None => ChatStream.usage st
          end in
        ChatStream.mk usage (ChatStream.responseTextBuilder st) full
          responseID (ChatStream.tools st) written
      else if (ty =? "response.output_text.delta")%string then
        ChatStream.mk (ChatStream.usage st)
          (ChatStream.responseTextBuilder st
             +:+ ResponsesStreamResponse.Delta streamResponse)
          full responseID (ChatStream.tools st) written
      else if (ty =? ResponsesOutputTypeItemDone)%string then
        ChatStream.mk (ChatStream.usage st) (ChatStream.responseTextBuilder st)
          full responseID
          (countWebSearchCall (ResponsesStreamResponse.Item streamResponse)
             (ChatStream.tools st))
          written
      else
        ChatStream.mk (ChatStream.usage st) (ChatStream.responseTextBuilder st)
          full responseID (ChatStream.tools st) written
  end.

(** [ResponsesToChatStreamHandler] *)
Definition ResponsesToChatStreamHandler (info : RelayInfo.t)
  (resp : option (list Line.t))
  : result (handled ChatCompletionsStreamResponse.t) :=
  match resp with
  | None => Err "invalid response"
  | Some lines =>
      let st := fold_left (chatStreamCallback info) lines (ChatStream.init info) in
      let info :=
        RelayInfo.set_BuiltInTools (ChatStream.tools st)
          (RelayInfo.set_ResponseBody (ChatStream.fullStreamResponse st) info) in
      Ok (mkHandled (ChatStream.written st) info
            (reconcileUsage info (ChatStream.responseTextBuilder st)
               (ChatStream.usage st)))
  end.

End StreamHandlers.

(** *** Request translation (convert.go and the Claude-request converter) *)

Section Translators.

Context {marshal_string : Marshaler string}.
Context {marshal_any : Marshaler any}.
Context {marshal_inputs : Marshaler (list Input.t)}.
Context {marshal_tools : Marshaler (list any)}.
Context {marshal_bool : Marshaler bool}.

(** [json.Unmarshal] of a text into an [interface{}] returns no error *)
Variable json_Valid : string -> bool.

Fixpoint extractSystemMessage (messages : list Message.t) : string :=
  match messages with
  | [] => EmptyString
  | message :: rest =>
      if (Message.Role message =? "system")%string then
        match Message.Content message with
        | AString str => str
        | content =>
            match json_Marshal content with
            | Ok contentBytes => contentBytes
            | Err _ => extractSystemMessage rest
            end
        end
      else extractSystemMessage rest
  end.

(** The loop of [convertMessagesToInputs]; [inputs] is the slice built
    so far. *)
Fixpoint convertMessagesToInputs_loop (messages : list Message.t)
  (inputs : list Input.t) : result (list Input.t) :=
  match messages with
  | [] => Ok inputs
  | message :: rest =>
      if (Message.Role message =? "system")%string then
        convertMessagesToInputs_loop rest inputs
      else
        let input content := Input.mk "message" (Message.Role message) content in
        match Message.Content message with
        | ANil => convertMessagesToInputs_loop rest (inputs ++ [input None])
        | AString str =>
            let str :=
              if negb (isValidUTF8String str) then cleanInvalidUTF8Chars str
              else str in
            let* contentBytes :=
              wrap_err "failed to marshal string content" (json_Marshal str) in
            convertMessagesToInputs_loop rest (inputs ++ [input (Some contentBytes)])
        | content =>
            let* contentBytes :=
              wrap_err "failed to marshal complex content" (json_Marshal content) in
            if negb (isValidUTF8Bytes contentBytes) then
              Err "generated JSON contains invalid UTF-8 characters"
            else
              convertMessagesToInputs_loop rest (inputs ++ [input (Some contentBytes)])
        end
  end.

Definition convertMessagesToInputs (messages : list Message.t)
  : result (list Input.t) :=
  convertMessagesToInputs_loop messages [].

(** [ChatCompletionsToResponsesRequest]; [None] is a [nil] request. *)
Definition ChatCompletionsToResponsesRequest
  (chatRequest : option GeneralOpenAIRequest.t) (info : RelayInfo.t)
  : result OpenAIResponsesRequest.t :=
  match chatRequest with
  | None => Err "chat request is nil"
  | Some chatRequest =>
      if negb (nonempty (GeneralOpenAIRequest.Model chatRequest)) then
        Err "model is required"
      else
        let temperature :=
          match GeneralOpenAIRequest.Temperature chatRequest with
          | Some t => t
          | None => 0%float
          end in
        let maxOut :=
          maxOutputTokens (GeneralOpenAIRequest.MaxTokens chatRequest)
            (GeneralOpenAIRequest.MaxCompletionTokens chatRequest) in
        let reasoning := reasoningOf (GeneralOpenAIRequest.ReasoningEffort chatRequest) in
        let systemMessage :=
          extractSystemMessage (GeneralOpenAIRequest.Messages chatRequest) in
        let* instructions :=
          if nonempty systemMessage then
            if json_Valid systemMessage then Ok (Some systemMessage)
            else
              let* encodedBytes :=
                wrap_err "failed to encode system message"
                  (json_Marshal systemMessage) in
              Ok (Some encodedBytes)
          else Ok None in
        let* inputs :=
          wrap_err "failed to convert messages to inputs"
            (convertMessagesToInputs (GeneralOpenAIRequest.Messages chatRequest)) in
        let* input := marshalInputs inputs in
        let* tools := marshalTools (GeneralOpenAIRequest.Tools chatRequest) in
        let* toolChoice :=
          marshalToolChoice (GeneralOpenAIRequest.ToolChoice chatRequest) in
        let* parallel :=
          marshalParallelToolCalls
            (GeneralOpenAIRequest.ParallelToolCalls chatRequest) in
        Ok (OpenAIResponsesRequest.mk (RelayInfo.UpstreamModelName info)
              input instructions maxOut None parallel reasoning
              (GeneralOpenAIRequest.Stream chatRequest) temperature
              toolChoice tools (GeneralOpenAIRequest.TopP chatRequest)
              (GeneralOpenAIRequest.User chatRequest))
  end.

(** The type-tag rewrite of one content block of
    [convertClaudeContentToResponses]. *)
Definition convertClaudeBlockType (itemMap : gmap string any) : gmap string any :=
  let newItem := itemMap in
  match newItem !! "type" with
  | Some (AString typeVal) =>
      if (typeVal =? "text")%string then <["type" := AString "input_text"]> newItem
      else if (typeVal =? "image")%string then <["type" := AString "input_image"]> newItem
      else newItem
  | _ => newItem
  end.

(** The loop of [convertClaudeContentToResponses]: [None] when an
    element is not an object, in which case the function gives the
    content back as it came. *)
Fixpoint convertClaudeContent_loop (contentArray : list any)
  (newContentArray : list any) : option (list any) :=
  match contentArray with
  | [] => Some newContentArray
  | AObject itemMap :: rest =>
      convertClaudeContent_loop rest
        (newContentArray ++ [AObject (convertClaudeBlockType itemMap)])
  | _ :: _ => None
  end.

(** [convertClaudeContentToResponses]; it never returns an error.  The
    slice it builds is [nil] when the array is empty, which encodes as
    the [nil] value does. *)
Definition convertClaudeContentToResponses (content : any) : result any :=
  match content with
  | AArray contentArray =>
      match convertClaudeContent_loop contentArray [] with
      | Some [] => Ok ANil
      | Some newContentArray => Ok (AArray newContentArray)
      | None => Ok content
      end
  | _ => Ok content
  end.

Definition extractClaudeSystemMessage (system : any) : result string :=
  match system with
  | ANil => Ok EmptyString
  | AString str =>
      Ok (if negb (isValidUTF8String str) then cleanInvalidUTF8Chars str else str)
  | _ =>
      let* systemBytes :=
        wrap_err "failed to marshal system message" (json_Marshal system) in
      Ok (if negb (isValidUTF8Bytes systemBytes)
          then cleanInvalidUTF8Bytes systemBytes else systemBytes)
  end.

Fixpoint convertClaudeMessagesToInputs_loop (messages : list ClaudeMessage.t)
  (inputs : list Input.t) : result (list Input.t) :=
  match messages with
  | [] => Ok inputs
  | message :: rest =>
      let input content := Input.mk "message" (ClaudeMessage.Role message) content in
      match ClaudeMessage.Content message with
      | ANil => convertClaudeMessagesToInputs_loop rest (inputs ++ [input None])
      | AString str =>
          let str :=
            if negb (isValidUTF8String str) then cleanInvalidUTF8Chars str
            else str in
          let* contentBytes :=
            wrap_err "failed to marshal string content" (json_Marshal str) in
          convertClaudeMessagesToInputs_loop rest
            (inputs ++ [input (Some contentBytes)])
      | content =>
          let* convertedContent :=
            wrap_err "failed to convert claude content to responses format"
              (convertClaudeContentToResponses content) in
          let* contentBytes :=
            wrap_err "failed to marshal converted content"
              (json_Marshal convertedContent) in
          if negb (isValidUTF8Bytes contentBytes) then
            Err "generated JSON contains invalid UTF-8 characters"
          else
            convertClaudeMessagesToInputs_loop rest
              (inputs ++ [input (Some contentBytes)])
      end
  end.

Definition convertClaudeMessagesToInputs (messages : list ClaudeMessage.t)
  : result (list Input.t) :=
  convertClaudeMessagesToInputs_loop messages [].

(** [ClaudeMessagesToResponsesRequest]; [None] is a [nil] request. *)
Definition ClaudeMessagesToResponsesRequest
  (claudeRequest : option ClaudeRequest.t) (info : RelayInfo.t)
  : result OpenAIResponsesRequest.t :=
  match claudeRequest with
  | None => Err "claude request is nil"
  | Some claudeRequest =>
      if negb (nonempty (ClaudeRequest.Model claudeRequest)) then
        Err "model is required"
      else
        let temperature :=
          match ClaudeRequest.Temperature claudeRequest with
          | Some t => t
          | None => 0%float
          end in
        let maxOut :=
          maxOutputTokens (ClaudeRequest.MaxTokens claudeRequest)
            (ClaudeRequest.MaxTokensToSample claudeRequest) in
        let* instructions :=
          match ClaudeRequest.System claudeRequest with
          | ANil => Ok None
          | system =>
              let* instructions :=
                wrap_err "failed to extract system message"
                  (extractClaudeSystemMessage system) in
              if nonempty instructions then
                let* instructionsBytes :=
                  wrap_err "failed to marshal instructions"
                    (json_Marshal instructions) in
                Ok (Some instructionsBytes)
              else Ok None
          end in
        let* inputs :=
          wrap_err "failed to convert claude messages to inputs"
            (convertClaudeMessagesToInputs (ClaudeRequest.Messages claudeRequest)) in
        let* input := marshalInputs inputs in
        let* tools :=
          match ClaudeRequest.Tools claudeRequest with
          | ANil => Ok None
          | t =>
              let* toolsData :=
                wrap_err "failed to marshal tools" (json_Marshal t) in
              Ok (Some toolsData)
          end in
        let* toolChoice := marshalToolChoice (ClaudeRequest.ToolChoice claudeRequest) in
        Ok (OpenAIResponsesRequest.mk (RelayInfo.UpstreamModelName info)
              input instructions maxOut (ClaudeRequest.Metadata claudeRequest)
              None None (ClaudeRequest.Stream claudeRequest) temperature
              toolChoice tools (ClaudeRequest.TopP claudeRequest) EmptyString)
  end.

(** *** The channel adaptor: smart routing of requests *)

(** What [ConvertOpenAIRequest] hands to the transport. *)
Inductive converted :=
| ConvertedToResponses (r : OpenAIResponsesRequest.t)
| Unconverted (r : GeneralOpenAIRequest.t).

(** [Adaptor.ConvertClaudeRequest] *)
Definition ConvertClaudeRequest (c : gmap string ctxValue) (info : RelayInfo.t)
  (request : option ClaudeRequest.t) : routed OpenAIResponsesRequest.t :=
  match request with
  | None => mkRouted (Err "claude request is nil") c info
  | Some req =>
      if negb (nonempty (ClaudeRequest.Model req)) then
        mkRouted (Err "model is required") c info
      else
        let c := <["converted_from_claude" := CtxBool true]> c in
        let c := <["original_claude_request" := CtxClaudeRequest req]> c in
        match ClaudeMessagesToResponsesRequest request info with
        | Err err =>
            mkRouted
              (Err ("failed to convert claude messages request: " +:+ err)) c info
        | Ok responsesReq =>
            mkRouted (Ok responsesReq) c
              (RelayInfo.set_RelayMode RelayModeResponses info)
        end
  end.

(** [Adaptor.ConvertOpenAIRequest] *)
Definition ConvertOpenAIRequest (c : gmap string ctxValue) (info : RelayInfo.t)
  (request : option GeneralOpenAIRequest.t) : routed converted :=
  match request with
  | None => mkRouted (Err "request is nil") c info
  | Some req =>
      match RelayInfo.RelayMode_ info with
      | RelayModeChatCompletions =>
          let c := <["converted_from_chat" := CtxBool true]> c in
          let c := <["original_chat_request" := CtxChatRequest req]> c in
          match ChatCompletionsToResponsesRequest request info with
          | Err err =>
              mkRouted
                (Err ("failed to convert chat completions request: " +:+ err))
                c info
          | Ok responsesReq =>
              mkRouted (Ok (ConvertedToResponses responsesReq)) c
                (RelayInfo.set_RelayMode RelayModeResponses info)
          end
      | RelayModeResponses => mkRouted (Ok (Unconverted req)) c info
      | RelayModeOther _ =>
          mkRouted (Err "OpenAI Responses 渠道仅支持 Chat Completions 和 Responses API 请求") c info
      end
  end.

End Translators.

(** *** claude_handler.go: the non-streaming path *)

(** [ResponsesToClaudeResponse]; [None] is a [nil] response.  The
    original request is not consulted. *)
Definition ResponsesToClaudeResponse (responsesResponse : option ResponsesBody.t)
  (originalRequest : option ClaudeRequest.t) : result ClaudeResponse.t :=
  match responsesResponse with
  | None => Err "responses response is nil"
  | Some body =>
      let responsesResponse := ResponsesBody.Response body in
      let content :=
        extractContentFromOutput (OpenAIResponsesResponse.Output responsesResponse) in
      let stopReason :=
        extractClaudeStopReason (OpenAIResponsesResponse.Status responsesResponse) in
      let contentList :=
        [ClaudeMediaMessage.mk "text" EmptyString EmptyString EmptyString
           (Some content) None None] in
      let usage :=
        match OpenAIResponsesResponse.Usage responsesResponse with
        | Some u => Some (ClaudeUsage.mk (Usage.InputTokens u) (Usage.OutputTokens u))
        | None => None
        end in
      Ok (ClaudeResponse.mk (OpenAIResponsesResponse.ID responsesResponse)
            "message" "assistant" contentList
            (OpenAIResponsesResponse.Model responsesResponse) stopReason
            None None None None usage)
  end.

(** [ResponsesToChatCompletionsResponse] (convert.go); a response whose
    [Error] is not [nil] is passed on with its identifier and model only. *)
Definition ResponsesToChatCompletionsResponse
  (responsesResponse : option ResponsesBody.t)
  (originalRequest : option GeneralOpenAIRequest.t) : result OpenAITextResponse.t :=
  match responsesResponse with
  | None => Err "responses response is nil"
  | Some body =>
      let responsesResponse := ResponsesBody.Response body in
      match ResponsesBody.Error body with
      | ANil =>
          let content :=
            extractContentFromOutput
              (OpenAIResponsesResponse.Output responsesResponse) in
          let finishReason :=
            extractFinishReason (OpenAIResponsesResponse.Status responsesResponse) in
          let choices :=
            [OpenAITextResponseChoice.mk 0
               (Message.mk "assistant" (AString content)) finishReason] in
          Ok (OpenAITextResponse.mk
                (OpenAIResponsesResponse.ID responsesResponse)
                (OpenAIResponsesResponse.Model responsesResponse)
                "chat.completion"
                (Some (OpenAIResponsesResponse.CreatedAt responsesResponse))
                choices ANil
                (match OpenAIResponsesResponse.Usage responsesResponse with
                 | Some u => u
                 | None => Usage.zero
                 end))
      | failure =>
          Ok (OpenAITextResponse.mk
                (OpenAIResponsesResponse.ID responsesResponse)
                (OpenAIResponsesResponse.Model responsesResponse)
                EmptyString None [] failure Usage.zero)
      end
  end.

Section NonStreamHandlers.

Context {marshal_claude : Marshaler ClaudeResponse.t}.
Context {marshal_text : Marshaler OpenAITextResponse.t}.

(** [common.Unmarshal] of a body into a [dto.OpenAIResponsesResponse] *)
Variable Unmarshal : string -> result ResponsesBody.t.
(** The method [GetOpenAIError] of [dto.OpenAIResponsesResponse] *)
Variable GetOpenAIError : ResponsesBody.t -> option OpenAIError.t.
(** [common.Interface2String] *)
Variable Interface2String : any -> string.

(** The check that both handlers make on the decoded response. *)
Definition upstreamError (responsesResponse : ResponsesBody.t)
  : option OpenAIError.t :=
  match GetOpenAIError responsesResponse with
  | Some oaiError =>
      if nonempty (OpenAIError.Type_ oaiError) then Some oaiError else None
  | None => None
  end.

(** [ResponsesToClaudeHandler].  The handler reads [resp.Body] without a
    check; [resp] is a response that has a body. *)
Definition ResponsesToClaudeHandler (c : gmap string ctxValue)
  (info : RelayInfo.t) (resp : HttpResponse.t) : answered :=
  match c !! "original_claude_request" with
  | None =>
      mkAnswered
        (inl (NewError "original claude request not found" ErrorCodeInvalidRequest))
        None info
  | Some (CtxClaudeRequest claudeRequest) =>
      match HttpResponse.ReadAll resp with
      | Err err =>
          mkAnswered
            (inl (NewOpenAIError err ErrorCodeReadResponseBodyFailed
                    StatusInternalServerError))
            None info
      | Ok responseBody =>
          let responseBody :=
            if negb (Valid responseBody) then ToValidUTF8 responseBody
            else responseBody in
          let info := RelayInfo.set_ResponseBody responseBody info in
          match Unmarshal responseBody with
          | Err err =>
              mkAnswered
                (inl (NewOpenAIError err ErrorCodeBadResponseBody
                        StatusInternalServerError))
                None info
          | Ok responsesResponse =>
              match upstreamError responsesResponse with
              | Some oaiError =>
                  mkAnswered
                    (inl (WithOpenAIError oaiError (HttpResponse.StatusCode resp)))
                    None info
              | None =>
                  match ResponsesToClaudeResponse (Some responsesResponse)
                          (Some claudeRequest) with
                  | Err err =>
                      mkAnswered (inl (NewError err ErrorCodeBadResponse)) None info
                  | Ok claudeResponse =>
                      match json_Marshal claudeResponse with
                      | Err err =>
                          mkAnswered
                            (inl (NewOpenAIError err ErrorCodeJsonMarshalFailed
                                    StatusInternalServerError))
                            None info
                      | Ok jsonData =>
                          let jsonData :=
                            if negb (isValidUTF8Bytes jsonData)
                            then cleanInvalidUTF8Bytes jsonData else jsonData in
                          let usage :=
                            match OpenAIResponsesResponse.Usage
                                    (ResponsesBody.Response responsesResponse) with
                            | Some ru =>
                                Usage.set_TotalTokens (Usage.TotalTokens ru)
                                  (Usage.set_CompletionTokens (Usage.OutputTokens ru)
                                     (Usage.set_PromptTokens (Usage.InputTokens ru)
                                        Usage.zero))
                            | None => Usage.zero
                            end in
                          mkAnswered (inr usage) (Some jsonData) info
                      end
                  end
              end
          end
      end
  | Some _ =>
      mkAnswered
        (inl (NewError "invalid original request type" ErrorCodeInvalidRequest))
        None info
  end.

(** The loop of [ResponsesToChatHandler] over the tools of the response:
    one more call for each tool whose type has a counter. *)
Definition countTool (tools : gmap string (option Z)) (tool : gmap string any)
  : gmap string (option Z) :=
  let key := Interface2String (default ANil (tool !! "type")) in
  match tools !! key with
  | Some (Some callCount) => <[key := Some (int_add callCount 1)]> tools
  | _ => tools
  end.

(** [ResponsesToChatHandler], with the same convention for [resp]. *)
Definition ResponsesToChatHandler (c : gmap string ctxValue)
  (info : RelayInfo.t) (resp : HttpResponse.t) : answered :=
  match c !! "original_chat_request" with
  | None =>
      mkAnswered
        (inl (NewError "original chat request not found" ErrorCodeInvalidRequest))
        None info
  | Some (CtxChatRequest chatRequest) =>
      match HttpResponse.ReadAll resp with
      | Err err =>
          mkAnswered
            (inl (NewOpenAIError err ErrorCodeReadResponseBodyFailed
                    StatusInternalServerError))
            None info
      | Ok responseBody =>
          let info := RelayInfo.set_ResponseBody responseBody info in
          match Unmarshal responseBody with
          | Err err =>
              mkAnswered
                (inl (NewOpenAIError err ErrorCodeBadResponseBody
                        StatusInternalServerError))
                None info
          | Ok responsesResponse =>
              match upstreamError responsesResponse with
              | Some oaiError =>
                  mkAnswered
                    (inl (WithOpenAIError oaiError (HttpResponse.StatusCode resp)))
                    None info
              | None =>
                  match ResponsesToChatCompletionsResponse (Some responsesResponse)
                          (Some chatRequest) with
                  | Err err =>
                      mkAnswered (inl (NewError err ErrorCodeBadResponse)) None info
                  | Ok chatResponse =>
                      match json_Marshal chatResponse with
                      | Err err =>
                          mkAnswered
                            (inl (NewOpenAIError err ErrorCodeJsonMarshalFailed
                                    StatusInternalServerError))
                            None info
                      | Ok jsonData =>
                          let usage :=
                            match OpenAIResponsesResponse.Usage
                                    (ResponsesBody.Response responsesResponse) with
                            | Some ru =>
                                let usage :=
                                  Usage.set_TotalTokens (Usage.TotalTokens ru)
                                    (Usage.set_CompletionTokens (Usage.OutputTokens ru)
                                       (Usage.set_PromptTokens (Usage.InputTokens ru)
                                          Usage.zero)) in
                                match Usage.InputTokensDetails ru with
                                | Some d =>
                                    Usage.set_PromptCachedTokens
                                      (InputTokenDetails.CachedTokens d) usage
                                | None => usage
                                end
                            | None => Usage.zero
                            end in
                          let info :=
                            match RelayInfo.BuiltInTools info with
                            | Some tools =>
                                RelayInfo.set_BuiltInTools
                                  (Some (fold_left countTool
                                           (ResponsesBody.Tools responsesResponse)
                                           tools))
                                  info
                            | None => info
                            end in
                          mkAnswered (inr usage) (Some jsonData) info
                      end
                  end
              end
          end
      end
  | Some _ =>
      mkAnswered
        (inl (NewError "invalid original request type" ErrorCodeInvalidRequest))
        None info
  end.

End NonStreamHandlers.

(** *** The channel adaptor: the request URL and the response *)

(** [Adaptor.GetRequestURL] *)
Definition GetRequestURL (info : RelayInfo.t) (target : RequestTarget.t)
  : result string :=
  match RelayInfo.RelayMode_ info with
  | RelayModeResponses =>
      Ok (RequestTarget.ChannelBaseUrl target +:+ "/v1/responses")
  | _ =>
      Err ("OpenAI Responses 渠道仅支持 /v1/responses 接口，当前请求: "
           +:+ RequestTarget.RequestURLPath target)
  end.

(** [Adaptor.ConvertOpenAIResponsesRequest]; the request is passed by
    value. *)
Definition ConvertOpenAIResponsesRequest (info : RelayInfo.t)
  (request : OpenAIResponsesRequest.t) : result OpenAIResponsesRequest.t :=
  if negb (nonempty (OpenAIResponsesRequest.Model request)) then
    Err "model is required"
  else
    Ok (OpenAIResponsesRequest.mk (RelayInfo.UpstreamModelName info)
          (OpenAIResponsesRequest.Input_ request)
          (OpenAIResponsesRequest.Instructions request)
          (OpenAIResponsesRequest.MaxOutputTokens request)
          (OpenAIResponsesRequest.Metadata request)
          (OpenAIResponsesRequest.ParallelToolCalls request)
          (OpenAIResponsesRequest.Reasoning_ request)
          (OpenAIResponsesRequest.Stream request)
          (OpenAIResponsesRequest.Temperature request)
          (OpenAIResponsesRequest.ToolChoice request)
          (OpenAIResponsesRequest.Tools request)
          (OpenAIResponsesRequest.TopP request)
          (OpenAIResponsesRequest.User request)).

(** What [Adaptor.DoResponse] does with a response: the handler of this
    package that it calls, with what the handler leaves behind; the error
    it returns itself; or the handler of package [openai] that it calls. *)
Inductive responseHandled :=
| ChatStreamHandled (r : result (handled ChatCompletionsStreamResponse.t))
| ChatHandled (r : answered)
| ClaudeStreamHandled (r : result (handled ClaudeResponse.t))
| ClaudeHandled (r : answered)
| Unsupported (err : NewAPIError)
| OaiResponsesStreamHandler (c : gmap string ctxValue) (info : RelayInfo.t)
    (resp : HttpResponse.t)
| OaiResponsesHandler (c : gmap string ctxValue) (info : RelayInfo.t)
    (resp : HttpResponse.t).

Section Response.

Context {marshal_claude : Marshaler ClaudeResponse.t}.
Context {marshal_text : Marshaler OpenAITextResponse.t}.
Variable Unmarshal : string -> result ResponsesBody.t.
Variable GetOpenAIError : ResponsesBody.t -> option OpenAIError.t.
Variable Interface2String : any -> string.
Variable CountTextToken : string -> string -> Z.
Variable ResponsesOutputTypeItemDone : string.
Variable BuildInCallWebSearchCall : string.
Variable BuildInToolWebSearchPreview : string.

(** [v == true] for the value that [c.Get] returns for a key *)
Definition isTrue (v : option ctxValue) : bool :=
  match v with
  | Some (CtxBool true) => true
  | _ => false
  end.

(** [Adaptor.DoResponse], for a response that has a body. *)
Definition DoResponse (c : gmap string ctxValue) (resp : HttpResponse.t)
  (info : RelayInfo.t) : responseHandled :=
  let isConvertedFromChat := isTrue (c !! "converted_from_chat") in
  let isConvertedFromClaude := isTrue (c !! "converted_from_claude") in
  if isConvertedFromChat then
    if RelayInfo.IsStream info then
      ChatStreamHandled
        (ResponsesToChatStreamHandler CountTextToken ResponsesOutputTypeItemDone
           BuildInCallWebSearchCall BuildInToolWebSearchPreview info
           (Some (HttpResponse.Lines resp)))
    else
      ChatHandled
        (ResponsesToChatHandler Unmarshal GetOpenAIError Interface2String c info resp)
  else if isConvertedFromClaude then
    if RelayInfo.IsStream info then
      ClaudeStreamHandled
        (ResponsesToClaudeStreamHandler CountTextToken info
           (Some (HttpResponse.Lines resp)))
    else
      ClaudeHandled (ResponsesToClaudeHandler Unmarshal GetOpenAIError c info resp)
  else
    match RelayInfo.RelayMode_ info with
    | RelayModeResponses =>
        if RelayInfo.IsStream info then OaiResponsesStreamHandler c info resp
        else OaiResponsesHandler c info resp
    | _ =>
        Unsupported
          (NewError "OpenAI Responses 渠道仅支持 /v1/responses 接口"
             ErrorCodeBadResponse)
    end.

End Response.

End OpenaiResponses.

(** convert.go carries a second copy of the package's converters after
    its first one.  The copy differs in the content-block type it
    collects; its status mapping is the same. *)

Module OpenaiResponsesSecondCopy.

Fixpoint extractContent_items (content : list ResponsesOutputContent.t)
  (contentBuilder : string) : string :=
  match content with
  | [] => contentBuilder
  | contentItem :: rest =>
      if (ResponsesOutputContent.Type_ contentItem =? "text")%string
      then extractContent_items rest
             (contentBuilder +:+ ResponsesOutputContent.Text contentItem)
      else extractContent_items rest contentBuilder
  end.

Fixpoint extractContent_output (output : list ResponsesOutput.t)
  (contentBuilder : string) : string :=
  match output with
  | [] => contentBuilder
  | item :: rest =>
      if (ResponsesOutput.Type_ item =? "message")%string
         && (ResponsesOutput.Role item =? "assistant")%string
      then extractContent_output rest
             (extractContent_items (ResponsesOutput.Content item) contentBuilder)
      else extractContent_output rest contentBuilder
  end.

Definition extractContentFromOutput (output : list ResponsesOutput.t) : string :=
  extractContent_output output EmptyString.

Definition extractFinishReason (status : string) : string :=
  if (status =? "completed")%string then "stop"
  else if (status =? "incomplete")%string then "length"
  else if (status =? "failed")%string then "error"
  else if (status =? "cancelled")%string then "stop"
  else "stop".

End OpenaiResponsesSecondCopy.

(** ** Package [claude] *)

Module Claude.
Import GoUtf8.

(** *** convert_responses.go *)

Definition isValidUTF8String (s : string) : bool := ValidString s.

Definition isValidUTF8Bytes (b : string) : bool := Valid b.

Fixpoint cleanInvalidUTF8Chars_loop (rs : list Z) (result : string) : string :=
  match rs with
  | [] => result
  | r :: rs' =>
      if negb (ValidRune r) then cleanInvalidUTF8Chars_loop rs' result
      else if IsControl r && negb (ContainsRune CRLFTAB r) then
        cleanInvalidUTF8Chars_loop rs' result
      else cleanInvalidUTF8Chars_loop rs' (WriteRune result r)
  end.

Definition cleanInvalidUTF8Chars (s : string) : string :=
  cleanInvalidUTF8Chars_loop (range s) EmptyString.

Definition cleanInvalidUTF8Bytes (b : string) : string := ToValidUTF8 b.

Fixpoint extractContent_items (content : list ResponsesOutputContent.t)
  (contentBuilder : string) : string :=
  match content with
  | [] => contentBuilder
  | contentItem :: rest =>
      if (ResponsesOutputContent.Type_ contentItem =? "output_text")%string
      then extractContent_items rest
             (contentBuilder +:+ ResponsesOutputContent.Text contentItem)
      else extractContent_items rest contentBuilder
  end.

Fixpoint extractContent_output (output : list ResponsesOutput.t)
  (contentBuilder : string) : string :=
  match output with
  | [] => contentBuilder
  | item :: rest =>
      if (ResponsesOutput.Type_ item =? "message")%string
         && (ResponsesOutput.Role item =? "assistant")%string
      then extractContent_output rest
             (extractContent_items (ResponsesOutput.Content item) contentBuilder)
      else extractContent_output rest contentBuilder
  end.

Definition extractContentFromOutput (output : list ResponsesOutput.t) : string :=
  extractContent_output output EmptyString.

Definition extractFinishReasonFromResponses (status : string) : string :=
  if (status =? "completed")%string then "stop"
  else if (status =? "incomplete")%string then "length"
  else if (status =? "failed")%string then "error"
  else if (status =? "cancelled")%string then "stop"
  else "stop".

Definition claudeUsageOf (usage : option Usage.t) : option ClaudeUsage.t :=
  match usage with
  | Some u => Some (ClaudeUsage.mk (Usage.InputTokens u) (Usage.OutputTokens u))
  | None => None
  end.

(** [ConvertResponsesStreamToClaudeStream]: at most one event of the
    Messages-style stream for one backend event; [None] is [nil]. *)
Definition ConvertResponsesStreamToClaudeStream
  (responsesStreamResp : ResponsesStreamResponse.t)
  (responseID : string) (model : string) : option ClaudeResponse.t :=
  let ty := ResponsesStreamResponse.Type_ responsesStreamResp in
  if (ty =? "response.created")%string then
    match ResponsesStreamResponse.Response responsesStreamResp with
    | Some resp =>
        Some (ClaudeResponse.mk EmptyString "message_start" EmptyString []
                EmptyString EmptyString None
                (Some (ClaudeMediaMessage.mk "message"
                         (OpenAIResponsesResponse.ID resp)
                         (OpenAIResponsesResponse.Model resp) "assistant"
                         None None None))
                None None
                (claudeUsageOf (OpenAIResponsesResponse.Usage resp)))
    | None => None
    end
  else if (ty =? "response.output_item.added")%string then
    match ResponsesStreamResponse.Item responsesStreamResp with
    | Some item =>
        if (ResponsesOutput.Role item =? "assistant")%string then
          Some (ClaudeResponse.mk EmptyString "content_block_start" EmptyString
                  [] EmptyString EmptyString (Some 0) None
                  (Some (ClaudeMediaMessage.mk "text" EmptyString EmptyString
                           EmptyString (Some EmptyString) None None))
                  None None)
        else None
    | None => None
    end
  else if (ty =? "response.output_text.delta")%string
          || (ty =? "response.content_part.delta")%string then
    if nonempty (ResponsesStreamResponse.Delta responsesStreamResp) then
      Some (ClaudeResponse.mk EmptyString "content_block_delta" EmptyString []
              EmptyString EmptyString (Some 0) None None
              (Some (ClaudeMediaMessage.mk "text_delta" EmptyString EmptyString
                       EmptyString
                       (Some (ResponsesStreamResponse.Delta responsesStreamResp))
                       None None))
              None)
    else None
  else if (ty =? "response.output_item.done")%string then
    Some (ClaudeResponse.mk EmptyString "content_block_stop" EmptyString []
            EmptyString EmptyString (Some 0) None None None None)
  else if (ty =? "response.done")%string
          || (ty =? "response.completed")%string then
    match ResponsesStreamResponse.Response responsesStreamResp with
    | Some resp =>
        let stopReason :=
          extractFinishReasonFromResponses (OpenAIResponsesResponse.Status resp) in
        Some (ClaudeResponse.mk EmptyString "message_delta" EmptyString []
                EmptyString EmptyString None None None
                (Some (ClaudeMediaMessage.mk EmptyString EmptyString EmptyString
                         EmptyString None (Some stopReason) None))
                (claudeUsageOf (OpenAIResponsesResponse.Usage resp)))
    | None => None
    end
  else None.

(** The [claudeInfo] that the scanner callback of
    [ResponsesToClaudeStreamHandler] updates, the collected response body
    and the events written so far. *)
Module ClaudeStream.
Record t := mk {
  ResponseId : string;
  ResponseText : string;
  Usage_ : Usage.t;
  fullStreamResponse : string;
  written : list ClaudeResponse.t
}.
End ClaudeStream.

Definition claudeStreamCallback (info : RelayInfo.t) (st : ClaudeStream.t)
  (line : Line.t) : ClaudeStream.t :=
  let full :=
    if (0 <? String.length (Line.data line))%nat
    then ClaudeStream.fullStreamResponse st +:+ Line.data line +:+ newline
    else ClaudeStream.fullStreamResponse st in
  match Line.parsed line with
  | Err _ =>
      ClaudeStream.mk (ClaudeStream.ResponseId st) (ClaudeStream.ResponseText st)
        (ClaudeStream.Usage_ st) full (ClaudeStream.written st)
  | Ok streamResponse =>
      let written :=
        match ConvertResponsesStreamToClaudeStream streamResponse
                (ClaudeStream.ResponseId st) (RelayInfo.UpstreamModelName info) with
        | Some claudeStreamResp => ClaudeStream.written st ++ [claudeStreamResp]
        | None => ClaudeStream.written st
        end in
      let ty := ResponsesStreamResponse.Type_ streamResponse in
      if (ty =? "response.done")%string then
        let usage :=
          match ResponsesStreamResponse.Response streamResponse with
          | Some resp =>
              match OpenAIResponsesResponse.Usage resp with
              | Some ru => captureUsage ru (ClaudeStream.Usage_ st)
              | None => ClaudeStream.Usage_ st
              end
          | None => ClaudeStream.Usage_ st
          end in
        ClaudeStream.mk (ClaudeStream.ResponseId st) (ClaudeStream.ResponseText st)
          usage full written
      else if (ty =? "response.output_text.delta")%string then
        ClaudeStream.mk (ClaudeStream.ResponseId st)
          (ClaudeStream.ResponseText st
             +:+ ResponsesStreamResponse.Delta streamResponse)
          (ClaudeStream.Usage_ st) full written
      else
        ClaudeStream.mk (ClaudeStream.ResponseId st) (ClaudeStream.ResponseText st)
          (ClaudeStream.Usage_ st) full written
  end.

(** What [ResponsesToClaudeStreamHandler] does: it hands an unconverted
    request over to [ClaudeStreamHandler], or handles the stream itself. *)
Inductive streamHandled :=
| ClaudeStreamHandler (resp : list Line.t) (info : RelayInfo.t)
| Handled (h : handled ClaudeResponse.t).

Section Handlers.

(** [service.CountTextToken(text, model)] *)
Variable CountTextToken : string -> string -> Z.

(** The closing block of [ResponsesToClaudeStreamHandler]. *)
Definition reconcileUsage (info : RelayInfo.t) (responseText : string)
  (usage : Usage.t) : Usage.t :=
  let usage :=
    if Usage.CompletionTokens usage =? 0 then
      let tempStr := responseText in
      if (0 <? String.length tempStr)%nat then
        let completionTokens :=
          CountTextToken tempStr (RelayInfo.UpstreamModelName info) in
        Usage.set_CompletionTokens completionTokens usage
      else usage
    else usage in
  let usage :=
    if (Usage.PromptTokens usage =? 0)
       && negb (Usage.CompletionTokens usage =? 0)
    then Usage.set_PromptTokens (RelayInfo.PromptTokens info) usage
    else usage in
  Usage.set_TotalTokens
    (int_add (Usage.PromptTokens usage) (Usage.CompletionTokens usage)) usage.

(** [ResponsesToClaudeStreamHandler]; [responseId] is what
    [helper.GetResponseID] returns for the request. *)
Definition ResponsesToClaudeStreamHandler (c : gmap string ctxValue)
  (responseId : string) (resp : list Line.t) (info : RelayInfo.t)
  : streamHandled :=
  match c !! "converted_from_claude" with
  | Some (CtxBool true) =>
      let claudeInfo :=
        ClaudeStream.mk responseId EmptyString Usage.zero EmptyString [] in
      let st := fold_left (claudeStreamCallback info) resp claudeInfo in
      let info := RelayInfo.set_ResponseBody (ClaudeStream.fullStreamResponse st) info in
      Handled
        (mkHandled (ClaudeStream.written st) info
           (reconcileUsage info (ClaudeStream.ResponseText st)
              (ClaudeStream.Usage_ st)))
  | _ => ClaudeStreamHandler resp info
  end.

End Handlers.

Section Translators.

Context {marshal_string : Marshaler string}.
Context {marshal_any : Marshaler any}.
Context {marshal_inputs : Marshaler (list Input.t)}.
Context {marshal_tools : Marshaler (list any)}.
Context {marshal_bool : Marshaler bool}.

Fixpoint extractSystemMessageFromClaude (messages : list Message.t) : string :=
  match messages with
  | [] => EmptyString
  | message :: rest =>
      if (Message.Role message =? "system")%string then
        match Message.Content message with
        | AString str =>
            if negb (isValidUTF8String str) then cleanInvalidUTF8Chars str
            else str
        | content =>
            match json_Marshal content with
            | Ok contentBytes =>
                if negb (isValidUTF8Bytes contentBytes)
                then cleanInvalidUTF8Bytes contentBytes
                else contentBytes
            | Err _ => extractSystemMessageFromClaude rest
            end
        end
      else extractSystemMessageFromClaude rest
  end.

Fixpoint convertClaudeMessagesToInputs_loop (messages : list Message.t)
  (inputs : list Input.t) : result (list Input.t) :=
  match messages with
  | [] => Ok inputs
  | message :: rest =>
      if (Message.Role message =? "system")%string then
        convertClaudeMessagesToInputs_loop rest inputs
      else
        let input content := Input.mk "message" (Message.Role message) content in
        match Message.Content message with
        | ANil => convertClaudeMessagesToInputs_loop rest (inputs ++ [input None])
        | AString str =>
            let str :=
              if negb (isValidUTF8String str) then cleanInvalidUTF8Chars str
              else str in
            let* contentBytes :=
              wrap_err "failed to marshal string content" (json_Marshal str) in
            convertClaudeMessagesToInputs_loop rest
              (inputs ++ [input (Some contentBytes)])
        | content =>
            let* contentBytes :=
              wrap_err "failed to marshal complex content" (json_Marshal content) in
            if negb (isValidUTF8Bytes contentBytes) then
              Err "generated JSON contains invalid UTF-8 characters"
            else
              convertClaudeMessagesToInputs_loop rest
                (inputs ++ [input (Some contentBytes)])
        end
  end.

Definition convertClaudeMessagesToInputs (messages : list Message.t)
  : result (list Input.t) :=
  convertClaudeMessagesToInputs_loop messages [].

(** [ClaudeMessagesToResponsesRequest]; [None] is a [nil] request. *)
Definition ClaudeMessagesToResponsesRequest
  (claudeRequest : option GeneralOpenAIRequest.t) (info : RelayInfo.t)
  : result OpenAIResponsesRequest.t :=
  match claudeRequest with
  | None => Err "claude request is nil"
  | Some claudeRequest =>
      if negb (nonempty (GeneralOpenAIRequest.Model claudeRequest)) then
        Err "model is required"
      else
        let temperature :=
          match GeneralOpenAIRequest.Temperature claudeRequest with
          | Some t => t
          | None => 0%float
          end in
        let maxOut :=
          maxOutputTokens
            (GeneralOpenAIRequest.MaxTokens claudeRequest)
            (GeneralOpenAIRequest.MaxCompletionTokens claudeRequest) in
        let reasoning :=
          reasoningOf
            (GeneralOpenAIRequest.ReasoningEffort claudeRequest) in
        let systemMessage :=
          extractSystemMessageFromClaude
            (GeneralOpenAIRequest.Messages claudeRequest) in
        let* instructions :=
          if nonempty systemMessage then
            let* instructionsBytes :=
              wrap_err "failed to marshal instructions"
                (json_Marshal systemMessage) in
            Ok (Some instructionsBytes)
          else Ok None in
        let* inputs :=
          wrap_err "failed to convert claude messages to inputs"
            (convertClaudeMessagesToInputs
               (GeneralOpenAIRequest.Messages claudeRequest)) in
        let* input := marshalInputs inputs in
        let* tools :=
          marshalTools (GeneralOpenAIRequest.Tools claudeRequest) in
        let* toolChoice :=
          marshalToolChoice
            (GeneralOpenAIRequest.ToolChoice claudeRequest) in
        let* parallel :=
          marshalParallelToolCalls
            (GeneralOpenAIRequest.ParallelToolCalls claudeRequest) in
        Ok (OpenAIResponsesRequest.mk (RelayInfo.UpstreamModelName info)
              input instructions maxOut None parallel reasoning
              (GeneralOpenAIRequest.Stream claudeRequest) temperature
              toolChoice tools (GeneralOpenAIRequest.TopP claudeRequest)
              (GeneralOpenAIRequest.User claudeRequest))
  end.

(** *** adaptor.go *)

Definition RequestModeCompletion : Z := 1.
Definition RequestModeMessage : Z := 2.

Record Adaptor := mkAdaptor { RequestMode : Z }.

Definition shouldRouteToResponses (modelName : string) : bool :=
  let responsesModels := ["claude-3.5-sonnet"; "claude-3-opus"; "claude-3-haiku"] in
  existsb (fun model => (modelName =? model)%string) responsesModels.

(** What [ConvertOpenAIRequest] returns when it returns no error of its
    own: the translated request, or what the native converter called on
    the request returns. *)
Inductive converted :=
| ConvertedToResponses (r : OpenAIResponsesRequest.t)
| RequestOpenAI2ClaudeComplete (request : GeneralOpenAIRequest.t)
| RequestOpenAI2ClaudeMessage (c : gmap string ctxValue)
    (request : GeneralOpenAIRequest.t).

Definition native (a : Adaptor) (c : gmap string ctxValue)
  (request : GeneralOpenAIRequest.t) : converted :=
  if RequestMode a =? RequestModeCompletion
  then RequestOpenAI2ClaudeComplete request
  else RequestOpenAI2ClaudeMessage c request.

(** [Adaptor.ConvertOpenAIRequest] *)
Definition ConvertOpenAIRequest (a : Adaptor)
  (c : gmap string ctxValue) (info : RelayInfo.t)
  (request : option GeneralOpenAIRequest.t) : routed converted :=
  match request with
  | None => mkRouted (Err "request is nil") c info
  | Some req =>
      if shouldRouteToResponses (RelayInfo.OriginModelName info) then
        let c := <["converted_from_claude" := CtxBool true]> c in
        let c := <["original_claude_request" := CtxChatRequest req]> c in
        match ClaudeMessagesToResponsesRequest request info with
        | Err _ => mkRouted (Ok (native a c req)) c info
        | Ok responsesReq =>
            mkRouted (Ok (ConvertedToResponses responsesReq)) c
              (RelayInfo.set_RelayMode RelayModeResponses info)
        end
      else mkRouted (Ok (native a c req)) c info
  end.

End Translators.

(** *** convert_responses.go: the non-streaming path *)

(** [ResponsesToClaudeMessagesResponse] *)
Definition ResponsesToClaudeMessagesResponse
  (responsesResponse : option ResponsesBody.t)
  (originalRequest : option GeneralOpenAIRequest.t) : result OpenAITextResponse.t :=
  match responsesResponse with
  | None => Err "responses response is nil"
  | Some body =>
      let responsesResponse := ResponsesBody.Response body in
      match ResponsesBody.Error body with
      | ANil =>
          let content :=
            extractContentFromOutput
              (OpenAIResponsesResponse.Output responsesResponse) in
          let finishReason :=
            extractFinishReasonFromResponses
              (OpenAIResponsesResponse.Status responsesResponse) in
          let choices :=
            [OpenAITextResponseChoice.mk 0
               (Message.mk "assistant" (AString content)) finishReason] in
          Ok (OpenAITextResponse.mk
                (OpenAIResponsesResponse.ID responsesResponse)
                (OpenAIResponsesResponse.Model responsesResponse)
                "chat.completion"
                (Some (OpenAIResponsesResponse.CreatedAt responsesResponse))
                choices ANil
                (match OpenAIResponsesResponse.Usage responsesResponse with
                 | Some u => u
                 | None => Usage.zero
                 end))
      | failure =>
          Ok (OpenAITextResponse.mk
                (OpenAIResponsesResponse.ID responsesResponse)
                (OpenAIResponsesResponse.Model responsesResponse)
                EmptyString None [] failure Usage.zero)
      end
  end.

Section NonStreaming.

Context {marshal_text : Marshaler OpenAITextResponse.t}.
Variable Unmarshal : string -> result ResponsesBody.t.
Variable GetOpenAIError : ResponsesBody.t -> option OpenAIError.t.

(** [ResponsesToClaudeHandler], for a response that has a body (the
    handler reads [resp.Body] without a check). *)
Definition ResponsesToClaudeHandler (c : gmap string ctxValue)
  (resp : HttpResponse.t) (info : RelayInfo.t) : answered :=
  match HttpResponse.ReadAll resp with
  | Err readErr =>
      mkAnswered
        (inl (NewOpenAIError readErr ErrorCodeReadResponseBodyFailed
                StatusInternalServerError))
        None info
  | Ok responseBody =>
      let responseBody :=
        if negb (Valid responseBody) then ToValidUTF8 responseBody
        else responseBody in
      let info := RelayInfo.set_ResponseBody responseBody info in
      match Unmarshal responseBody with
      | Err unmarshalErr =>
          mkAnswered
            (inl (NewOpenAIError unmarshalErr ErrorCodeBadResponseBody
                    StatusInternalServerError))
            None info
      | Ok responsesResponse =>
          match
            match GetOpenAIError responsesResponse with
            | Some oaiError =>
                if nonempty (OpenAIError.Type_ oaiError) then Some oaiError
                else None
            | None => None
            end
          with
          | Some oaiError =>
              mkAnswered
                (inl (WithOpenAIError oaiError (HttpResponse.StatusCode resp)))
                None info
          | None =>
              match c !! "original_claude_request" with
              | None =>
                  mkAnswered
                    (inl (NewErrorWithStatusCode
                            "original claude request not found in context"
                            ErrorCodeConvertRequestFailed
                            StatusInternalServerError))
                    None info
              | Some (CtxChatRequest claudeRequest) =>
                  match ResponsesToClaudeMessagesResponse (Some responsesResponse)
                          (Some claudeRequest) with
                  | Err convertErr =>
                      mkAnswered (inl (NewError convertErr ErrorCodeBadResponse))
                        None info
                  | Ok claudeResponse =>
                      match json_Marshal claudeResponse with
                      | Err marshalErr =>
                          mkAnswered
                            (inl (NewOpenAIError marshalErr
                                    ErrorCodeJsonMarshalFailed
                                    StatusInternalServerError))
                            None info
                      | Ok jsonData =>
                          let jsonData :=
                            if negb (isValidUTF8Bytes jsonData)
                            then cleanInvalidUTF8Bytes jsonData else jsonData in
                          mkAnswered
                            (inr (OpenAITextResponse.Usage_ claudeResponse))
                            (Some jsonData) info
                      end
                  end
              | Some _ =>
                  mkAnswered
                    (inl (NewErrorWithStatusCode "invalid original request type"
                            ErrorCodeConvertRequestFailed
                            StatusInternalServerError))
                    None info
              end
          end
      end
  end.

End NonStreaming.

(** *** adaptor.go: the request mode, the request URL and the response *)

(** [Adaptor.Init] *)
Definition Init (a : Adaptor) (info : RelayInfo.t) : Adaptor :=
  if String.prefix "claude-2" (RelayInfo.UpstreamModelName info)
     || String.prefix "claude-instant" (RelayInfo.UpstreamModelName info)
  then mkAdaptor RequestModeCompletion
  else mkAdaptor RequestModeMessage.

(** [Adaptor.GetRequestURL] *)
Definition GetRequestURL (a : Adaptor) (target : RequestTarget.t) : result string :=
  let baseURL :=
    if RequestMode a =? RequestModeMessage
    then RequestTarget.ChannelBaseUrl target +:+ "/v1/messages"
    else RequestTarget.ChannelBaseUrl target +:+ "/v1/complete" in
  let baseURL :=
    if RequestTarget.IsClaudeBetaQuery target then baseURL +:+ "?beta=true"
    else baseURL in
  Ok baseURL.

(** What [Adaptor.DoResponse] does with a response: the handler of the
    Responses dialect that it calls, with what the handler gives; the call
    of [ClaudeStreamHandler] or of [ClaudeHandler] with the adaptor's
    request mode; or the panic of the type assertion on a marker that is
    not a [bool]. *)
Inductive responseHandled :=
| ResponsesStream (r : streamHandled)
| ResponsesAnswered (r : answered)
| NativeStream (resp : HttpResponse.t) (info : RelayInfo.t) (requestMode : Z)
| NativeAnswered (resp : HttpResponse.t) (info : RelayInfo.t) (requestMode : Z)
| Panics.

Section Response.

Context {marshal_text : Marshaler OpenAITextResponse.t}.
Variable Unmarshal : string -> result ResponsesBody.t.
Variable GetOpenAIError : ResponsesBody.t -> option OpenAIError.t.
Variable CountTextToken : string -> string -> Z.

(** [Adaptor.DoResponse], for a response that has a body; [responseId] is
    what [helper.GetResponseID] returns for the request. *)
Definition DoResponse (a : Adaptor) (c : gmap string ctxValue)
  (responseId : string) (resp : HttpResponse.t) (info : RelayInfo.t)
  : responseHandled :=
  let native :=
    if RelayInfo.IsStream info then NativeStream resp info (RequestMode a)
    else NativeAnswered resp info (RequestMode a) in
  match c !! "converted_from_claude" with
  | None => native
  | Some (CtxBool convertedFromClaude) =>
      if convertedFromClaude then
        if RelayInfo.IsStream info then
          ResponsesStream
            (ResponsesToClaudeStreamHandler CountTextToken c responseId
               (HttpResponse.Lines resp) info)
        else
          ResponsesAnswered (ResponsesToClaudeHandler Unmarshal GetOpenAIError c resp info)
      else native
  | Some _ => Panics
  end.

End Response.

End Claude.

(** * The specification's notions *)

Module Spec.

(** The text that the assembler is specified to extract: the texts, in
    order, of the content blocks whose type [textual] accepts, within
    the output items of type [message] and role [assistant]. *)
Definition is_assistant_message (item : ResponsesOutput.t) : bool :=
  (ResponsesOutput.Type_ item =? "message")%string
  && (ResponsesOutput.Role item =? "assistant")%string.

Definition block_texts (textual : string -> bool) (item : ResponsesOutput.t)
  : list string :=
  map ResponsesOutputContent.Text
    (List.filter (fun b => textual (ResponsesOutputContent.Type_ b))
       (ResponsesOutput.Content item)).

Definition content_of (textual : string -> bool)
  (output : list ResponsesOutput.t) : string :=
  String.concat EmptyString
    (flat_map (block_texts textual) (List.filter is_assistant_message output)).

(** The block types that section 4.5 calls textual. *)
Definition textual_type (ty : string) : bool :=
  (ty =? "output_text")%string || (ty =? "text")%string.

(** The status table of section 4.3, one column per target. *)
Definition chat_table (f : string -> string) : Prop :=
  f "completed" = "stop" /\ f "incomplete" = "length"
  /\ f "failed" = "error" /\ f "cancelled" = "stop"
  /\ (forall status, status <> "completed" -> status <> "incomplete" ->
       status <> "failed" -> status <> "cancelled" -> f status = "stop").

Definition messages_table (f : string -> string) : Prop :=
  f "completed" = "end_turn" /\ f "incomplete" = "max_tokens"
  /\ f "failed" = "error" /\ f "cancelled" = "stop"
  /\ (forall status, status <> "completed" -> status <> "incomplete" ->
       status <> "failed" -> status <> "cancelled" -> f status = "stop").

(** The events of a Messages-style stream, as section 4.3 names them. *)
Inductive claude_event :=
| MessageStart
| ContentBlockStart (index : Z)
| ContentBlockDelta (index : Z) (text : string)
| ContentBlockStop (index : Z)
| MessageDelta (stop_reason : string)
| MessageStop
| Unnamed (type_ : string).

(** How a written [dto.ClaudeResponse] reads as such an event. *)
Definition claude_event_of (r : ClaudeResponse.t) : claude_event :=
  let ty := ClaudeResponse.Type_ r in
  let text :=
    match ClaudeResponse.Delta r with
    | Some d => ClaudeMediaMessage.Text d
    | None => None
    end in
  let stop_reason :=
    match ClaudeResponse.Delta r with
    | Some d => ClaudeMediaMessage.StopReason d
    | None => None
    end in
  if (ty =? "message_start")%string then MessageStart
  else if (ty =? "message_stop")%string then MessageStop
  else if (ty =? "content_block_start")%string then
    match ClaudeResponse.Index r with
    | Some i => ContentBlockStart i
    | None => Unnamed ty
    end
  else if (ty =? "content_block_stop")%string then
    match ClaudeResponse.Index r with
    | Some i => ContentBlockStop i
    | None => Unnamed ty
    end
  else if (ty =? "content_block_delta")%string then
    match ClaudeResponse.Index r, text with
    | Some i, Some t => ContentBlockDelta i t
    | _, _ => Unnamed ty
    end
  else if (ty =? "message_delta")%string then
    match stop_reason with
    | Some s => MessageDelta s
    | None => Unnamed ty
    end
  else Unnamed ty.

(** The backend events of the streaming scenario (section 8, item 5):
    [created] with a response snapshot, [output_item.added] for an
    assistant message, two text deltas, and [done] with the status
    [completed] and the usage in:5, out:2. *)
Definition scenario_usage (total : Z) : Usage.t :=
  Usage.mk 0 0 total (InputTokenDetails.mk 0) 5 2 None.

Definition scenario (created : OpenAIResponsesResponse.t) (total : Z)
  : list ResponsesStreamResponse.t :=
  [ ResponsesStreamResponse.mk "response.created" (Some created) EmptyString None;
    ResponsesStreamResponse.mk "response.output_item.added" None EmptyString
      (Some (ResponsesOutput.mk "message" "assistant" []));
    ResponsesStreamResponse.mk "response.output_text.delta" None "Hi" None;
    ResponsesStreamResponse.mk "response.output_text.delta" None " there" None;
    ResponsesStreamResponse.mk "response.done"
      (Some (OpenAIResponsesResponse.mk
               (OpenAIResponsesResponse.ID created)
               (OpenAIResponsesResponse.Model created) "completed"
               (OpenAIResponsesResponse.CreatedAt created) []
               (Some (scenario_usage total))))
      EmptyString None ].

(** What the scenario is specified to produce on the client's side. *)
Definition scenario_events : list claude_event :=
  [ MessageStart; ContentBlockStart 0; ContentBlockDelta 0 "Hi";
    ContentBlockDelta 0 " there"; ContentBlockStop 0;
    MessageDelta "end_turn"; MessageStop ].

(** The lines the scanner delivers for a list of events; [raw] is the
    text of each event on the wire. *)
Definition lines_of (raw : ResponsesStreamResponse.t -> string)
  (events : list ResponsesStreamResponse.t) : list Line.t :=
  map (fun e => Line.mk (raw e) (Ok e)) events.

(** The UTF-8 encoding of a sequence of code points. *)
Definition utf8 (rs : list Z) : string :=
  fold_right (fun r acc => GoUtf8.EncodeRune r +:+ acc) EmptyString rs.

(** A valid code point: a Unicode scalar value. *)
Definition valid_code_point (r : Z) : Prop :=
  0 <= r < 0xD800 \/ 0xDFFF < r <= 0x10FFFF.

(** A control character (category Cc), and the three that text may hold:
    CR, LF and TAB. *)
Definition control (r : Z) : Prop := 0 <= r <= 0x1F \/ 0x7F <= r <= 0x9F.
Definition allowed_control (r : Z) : Prop := r = 13 \/ r = 10 \/ r = 9.

Definition text_code_point (r : Z) : Prop :=
  valid_code_point r /\ (control r -> allowed_control r).

(** [s] encodes valid code points only. *)
Definition well_formed (s : string) : Prop :=
  exists rs, s = utf8 rs /\ Forall valid_code_point rs.

(** Valid text (section 4.1): every code point of [s] is valid, and none
    is a control character other than CR, LF and TAB. *)
Definition valid_text (s : string) : Prop :=
  exists rs, s = utf8 rs /\ Forall text_code_point rs.

End Spec.

(** * Notions used in the statements *)

Definition is_output_text (ty : string) : bool := (ty =? "output_text")%string.
Definition is_text (ty : string) : bool := (ty =? "text")%string.

(** [r] is a result without error, and it satisfies [P]. *)
Definition when_ok {A : Type} (r : result A) (P : A -> Prop) : Prop :=
  match r with
  | Ok a => P a
  | Err _ => False
  end.

(** The handler of package [claude] handled the stream itself, and what
    it left behind satisfies [P]. *)
Definition when_handled (r : Claude.streamHandled)
  (P : handled ClaudeResponse.t -> Prop) : Prop :=
  match r with
  | Claude.Handled h => P h
  | Claude.ClaudeStreamHandler _ _ => False
  end.

(** The request context of a request that the smart router of package
    [claude] has marked. *)
Definition converted_from_claude : gmap string ctxValue :=
  <["converted_from_claude" := CtxBool true]> ∅.

(** The identifier that the callback of the Chat-style handler passes to
    the converter. *)
Definition currentResponseID (st : OpenaiResponses.ChatStream.t)
  (e : ResponsesStreamResponse.t) : string :=
  match ResponsesStreamResponse.Response e with
  | Some resp =>
      if nonempty (OpenAIResponsesResponse.ID resp)
      then OpenAIResponsesResponse.ID resp
      else OpenaiResponses.ChatStream.responseID st
  | None => OpenaiResponses.ChatStream.responseID st
  end.

(** The event carries a response identifier. *)
Definition carries_id (e : ResponsesStreamResponse.t) : bool :=
  match ResponsesStreamResponse.Response e with
  | Some resp => nonempty (OpenAIResponsesResponse.ID resp)
  | None => false
  end.

(** While the start markers have not been written, the Messages-style
    handler of package [openai_responses] has seen no response
    identifier. *)
Definition start_pending (st : OpenaiResponses.ClaudeStream.t) : Prop :=
  OpenaiResponses.ClaudeStream.messageStartSent st = false ->
  OpenaiResponses.ClaudeStream.responseID st = EmptyString.

(** The second byte admitted after the leading byte of a three-byte or a
    four-byte encoding. *)
Definition second_lo (b0 : Z) : Z :=
  if b0 =? 0xE0 then 0xA0 else if b0 =? 0xF0 then 0x90 else 0x80.
Definition second_hi (b0 : Z) : Z :=
  if b0 =? 0xED then 0x9F else if b0 =? 0xF4 then 0x8F else 0xBF.

(** The test that the loops of [isValidUTF8String] and
    [cleanInvalidUTF8Chars] make on a rune: the rune passes. *)
Definition kept (r : Z) : bool :=
  GoUtf8.ValidRune r
  && negb (GoUtf8.IsControl r && negb (GoUtf8.ContainsRune CRLFTAB r)).

(** The string that holds the one control character U+0001. *)
Definition SOH : string := String (ascii_of_nat 1) EmptyString.

(** An encoder that refuses every value; the statements that name it do
    not depend on the encoder. *)
Definition refusing (A : Type) : Marshaler A :=
  fun _ => Err "json: unsupported value".

(** The message is not a system-role entry. *)
Definition not_system (m : Message.t) : Prop := Message.Role m <> "system".

(** The letters a and b around the control character U+0001. *)
Definition a_SOH_b : string :=
  String "a"%char (String (ascii_of_nat 1) (String "b"%char EmptyString)).

(** The request context after the router of package [claude] has marked
    the request as converted and remembered it. *)
Definition marked (c : gmap string ctxValue) (req : GeneralOpenAIRequest.t)
  : gmap string ctxValue :=
  <["original_claude_request" := CtxChatRequest req]>
    (<["converted_from_claude" := CtxBool true]> c).

(** [r] satisfies [P] if it is a result without error. *)
Definition if_ok {A : Type} (r : result A) (P : A -> Prop) : Prop :=
  match r with
  | Ok a => P a
  | Err _ => True
  end.

(** The test on control characters that the loops of [isValidUTF8String]
    and [cleanInvalidUTF8Chars] make: the rune is a control character
    other than CR, LF and TAB. *)
Definition disallowed_control (r : Z) : bool :=
  GoUtf8.IsControl r && negb (GoUtf8.ContainsRune CRLFTAB r).

(** The message has the role [system]. *)
Definition is_system (m : Message.t) : bool := (Message.Role m =? "system")%string.

(** The content is not [nil]. *)
Definition has_content (content : any) : bool :=
  match content with
  | ANil => false
  | _ => true
  end.

Definition input_has_content (i : Input.t) : bool :=
  match Input.Content i with
  | Some _ => true
  | None => false
  end.

(** The content is a string or [nil]. *)
Definition plain (content : any) : Prop :=
  match content with
  | ANil | AString _ => True
  | _ => False
  end.

(** An encoder of strings that returns every string as it is. *)
Definition verbatim : Marshaler string := fun s => Ok s.

(** [inputs] has one input of type [message] for each of [messages], in
    order, with the message's role, and with a content exactly when the
    message has one. *)
Definition mirrors {M : Type} (role : M -> string) (content : M -> any)
  (messages : list M) (inputs : list Input.t) : Prop :=
  map Input.Role inputs = map role messages
  /\ map input_has_content inputs = map (fun m => has_content (content m)) messages
  /\ Forall (fun i => Input.Type_ i = "message") inputs.

(** The type tag that [convertClaudeContentToResponses] gives a block
    whose tag is [ty]. *)
Definition responses_block_type (ty : string) : string :=
  if (ty =? "text")%string then "input_text"
  else if (ty =? "image")%string then "input_image"
  else ty.

Definition is_object (v : any) : bool :=
  match v with
  | AObject _ => true
  | _ => false
  end.

Definition is_nil (v : any) : bool :=
  match v with
  | ANil => true
  | _ => false
  end.

(** A content block with its type tag rewritten. *)
Definition responses_block (v : any) : any :=
  match v with
  | AObject b => AObject (OpenaiResponses.convertClaudeBlockType b)
  | other => other
  end.

(** The data lines, each followed by a line feed. *)
Definition recorded (lines : list Line.t) : string :=
  String.concat EmptyString (map (fun l => Line.data l +:+ newline) lines).

Definition has_data (l : Line.t) : bool := (0 <? String.length (Line.data l))%nat.

(** The line parses to an event. *)
Definition parses (l : Line.t) : bool :=
  match Line.parsed l with
  | Ok _ => true
  | Err _ => false
  end.

(** The line parses to an event of type [ty]. *)
Definition is_event (ty : string) (l : Line.t) : bool :=
  match Line.parsed l with
  | Ok e => (ResponsesStreamResponse.Type_ e =? ty)%string
  | Err _ => false
  end.

(** The line parses to an event that carries a response identifier. *)
Definition line_carries_id (l : Line.t) : bool :=
  match Line.parsed l with
  | Ok e => carries_id e
  | Err _ => false
  end.

(** The line parses to an item-done event for a web-search call. *)
Definition is_web_search_done (ItemDone WebSearchCall : string) (l : Line.t) : bool :=
  match Line.parsed l with
  | Ok e =>
      (ResponsesStreamResponse.Type_ e =? ItemDone)%string
      && match ResponsesStreamResponse.Item e with
         | Some it => (ResponsesOutput.Type_ it =? WebSearchCall)%string
         | None => false
         end
  | Err _ => false
  end.

(** The text that a chunk of the Chat-style stream carries. *)
Definition chunk_text (c : ChatCompletionsStreamResponse.t) : string :=
  String.concat EmptyString
    (map (fun choice =>
            match ChatCompletionsStreamResponseChoiceDelta.Content
                    (ChatCompletionsStreamResponseChoice.Delta choice) with
            | Some content => content
            | None => EmptyString
            end)
       (ChatCompletionsStreamResponse.Choices c)).

(** The text and the stop reason that an event of the Messages-style
    stream carries in its delta. *)
Definition frame_text (r : ClaudeResponse.t) : string :=
  match ClaudeResponse.Delta r with
  | Some d =>
      match ClaudeMediaMessage.Text d with
      | Some text => text
      | None => EmptyString
      end
  | None => EmptyString
  end.

Definition frame_stop_reason (r : ClaudeResponse.t) : option string :=
  match ClaudeResponse.Delta r with
  | Some d => ClaudeMediaMessage.StopReason d
  | None => None
  end.

(** The text that the client has received in [frames]. *)
Definition client_text {frame : Type} (text : frame -> string)
  (frames : list frame) : string :=
  String.concat EmptyString (map text frames).

Definition is_type (ty : string) (r : ClaudeResponse.t) : bool :=
  (ClaudeResponse.Type_ r =? ty)%string.

(** The event is a [message_start] without an identifier. *)
Definition anonymous_start (r : ClaudeResponse.t) : Prop :=
  ClaudeResponse.Id r = EmptyString
  /\ exists m, ClaudeResponse.Message r = Some m
     /\ ClaudeMediaMessage.Id m = EmptyString.

(** The local variables of a stream callback other than the collected
    response body. *)
Definition chat_core (st : OpenaiResponses.ChatStream.t) :=
  (OpenaiResponses.ChatStream.usage st,
   OpenaiResponses.ChatStream.responseTextBuilder st,
   OpenaiResponses.ChatStream.responseID st,
   OpenaiResponses.ChatStream.tools st,
   OpenaiResponses.ChatStream.written st).

Definition claude_core (st : OpenaiResponses.ClaudeStream.t) :=
  (OpenaiResponses.ClaudeStream.usage st,
   OpenaiResponses.ClaudeStream.responseTextBuilder st,
   OpenaiResponses.ClaudeStream.responseID st,
   OpenaiResponses.ClaudeStream.messageStartSent st,
   OpenaiResponses.ClaudeStream.written st).

Definition package_core (st : Claude.ClaudeStream.t) :=
  (Claude.ClaudeStream.ResponseId st, Claude.ClaudeStream.ResponseText st,
   Claude.ClaudeStream.Usage_ st, Claude.ClaudeStream.written st).

(** What the callback of the Messages-style handler of package
    [openai_responses] keeps true of its local variables. *)
Definition claude_inv (st : OpenaiResponses.ClaudeStream.t) : Prop :=
  OpenaiResponses.ClaudeStream.responseTextBuilder st
    = client_text frame_text (OpenaiResponses.ClaudeStream.written st)
  /\ length (List.filter (is_type "message_start")
              (OpenaiResponses.ClaudeStream.written st))
     = (if OpenaiResponses.ClaudeStream.messageStartSent st then 1 else 0)%nat
  /\ OpenaiResponses.ClaudeStream.messageStartSent st
     = nonempty (OpenaiResponses.ClaudeStream.responseID st)
  /\ Forall (fun r => frame_stop_reason r = None
                      \/ frame_stop_reason r = Some "end_turn")
       (OpenaiResponses.ClaudeStream.written st)
  /\ Forall (fun r => is_type "message_start" r = true -> anonymous_start r)
       (OpenaiResponses.ClaudeStream.written st).

(** The tool is of the type that [key] names. *)
Definition tool_of_type (Interface2String : any -> string) (key : string)
  (tool : gmap string any) : bool :=
  (Interface2String (default ANil (tool !! "type")) =? key)%string.

(** [n] after [calls] increments on Go's [int]. *)
Definition incremented (calls : nat) (n : Z) : Z :=
  Nat.iter calls (fun n => int_add n 1) n.

(** The usage that the non-streaming handlers of package
    [openai_responses] build from the usage of the backend. *)
Definition usage_of_backend (ru : Usage.t) : Usage.t :=
  Usage.mk (Usage.InputTokens ru) (Usage.OutputTokens ru) (Usage.TotalTokens ru)
    (InputTokenDetails.mk 0) 0 0 None.

Definition chat_usage_of_backend (ru : Usage.t) : Usage.t :=
  Usage.mk (Usage.InputTokens ru) (Usage.OutputTokens ru) (Usage.TotalTokens ru)
    (InputTokenDetails.mk
       (match Usage.InputTokensDetails ru with
        | Some d => InputTokenDetails.CachedTokens d
        | None => 0
        end))
    0 0 None.

Definition usage_or_zero {A : Type} (f : A -> Usage.t) (u : option A) : Usage.t :=
  match u with
  | Some ru => f ru
  | None => Usage.zero
  end.

(** A relay info, a tokenizer that counts bytes, a short stream whose
    second line does not parse, and an upstream response, for the
    examples. *)
Definition example_info : RelayInfo.t :=
  RelayInfo.mk "gpt-5" "gpt-5" 9 RelayModeResponses true EmptyString None.

Definition count_bytes : string -> string -> Z :=
  fun text _ => Z.of_nat (String.length text).

Definition example_lines : list Line.t :=
  [Line.mk "{}"
     (Ok (ResponsesStreamResponse.mk "response.output_text.delta" None "Hi" None));
   Line.mk "oops" (Err "invalid character")].

Definition example_response : HttpResponse.t :=
  HttpResponse.mk 200 (Ok "{}") example_lines.

(** * Properties *)

(** ** Strings *)

Lemma append_cons (c : ascii) (s t : string) :
  String c s +:+ t = String c (s +:+ t).
Proof. reflexivity. Qed.

Lemma append_nil_l (s : string) : EmptyString +:+ s = s.
Proof. reflexivity. Qed.

Lemma append_nil_r (s : string) : s +:+ EmptyString = s.
Proof.
  induction s as [|c s IH]; [reflexivity|].
  now rewrite append_cons, IH.
Qed.

Lemma append_assoc (s t u : string) : (s +:+ t) +:+ u = s +:+ (t +:+ u).
Proof.
  induction s as [|c s IH]; [reflexivity|].
  now rewrite !append_cons, IH.
Qed.

Lemma concat_nil_cons (x : string) (l : list string) :
  String.concat EmptyString (x :: l) = x +:+ String.concat EmptyString l.
Proof.
  destruct l as [|y l]; simpl.
  - now rewrite append_nil_r.
  - now rewrite append_nil_l.
Qed.

Lemma concat_nil_app (l1 l2 : list string) :
  String.concat EmptyString (l1 ++ l2)
  = String.concat EmptyString l1 +:+ String.concat EmptyString l2.
Proof.
  induction l1 as [|x l1 IH]; [reflexivity|].
  rewrite <- app_comm_cons, !concat_nil_cons, IH.
  now rewrite append_assoc.
Qed.

(** ** UTF-8: bytes and bit operations *)

Import GoUtf8.

Ltac dlia := Z.to_euclidean_division_equations; lia.

Lemma byteZ_range (c : ascii) : 0 <= byteZ c < 256.
Proof.
  unfold byteZ. pose proof (N_ascii_bounded c). lia.
Qed.

Lemma byteZ_mkbyte (z : Z) : 0 <= z < 256 -> byteZ (mkbyte z) = z.
Proof.
  intros H. unfold byteZ, mkbyte. rewrite N_ascii_embedding by lia. lia.
Qed.

Lemma mkbyte_byteZ (c : ascii) : mkbyte (byteZ c) = c.
Proof.
  unfold byteZ, mkbyte. rewrite N2Z.id. apply ascii_N_embedding.
Qed.

Lemma land_low (x : Z) (n : Z) : 0 <= n -> Z.land x (Z.ones n) = x mod 2 ^ n.
Proof. intros. now apply Z.land_ones. Qed.

Lemma land_maskx (x : Z) : Z.land x maskx = x mod 64.
Proof. apply (land_low x 6). lia. Qed.
Lemma land_mask2 (x : Z) : Z.land x mask2 = x mod 32.
Proof. apply (land_low x 5). lia. Qed.
Lemma land_mask3 (x : Z) : Z.land x mask3 = x mod 16.
Proof. apply (land_low x 4). lia. Qed.
Lemma land_mask4 (x : Z) : Z.land x mask4 = x mod 8.
Proof. apply (land_low x 3). lia. Qed.

Lemma lor_add (hi lo n : Z) :
  0 <= n -> 0 <= lo < 2 ^ n -> hi mod 2 ^ n = 0 -> Z.lor hi lo = hi + lo.
Proof.
  intros Hn Hlo Hhi.
  rewrite <- (Z.add_lor_land hi lo).
  assert (Hz : Z.land hi lo = 0).
  { apply Z.bits_inj'. intros m Hm. rewrite Z.land_spec, Z.bits_0.
    destruct (Z.lt_ge_cases m n) as [Hlt | Hge].
    - assert (Hq : hi = hi / 2 ^ n * 2 ^ n).
      { pose proof (Z.div_mod hi (2 ^ n)). lia. }
      rewrite Hq, Z.mul_pow2_bits_low by lia. reflexivity.
    - assert (Z.testbit lo m = false) as ->; [|apply andb_false_r].
      destruct (Z.eq_dec lo 0) as [-> | Hne]; [apply Z.bits_0|].
      apply Z.bits_above_log2; [lia|].
      apply Z.log2_lt_pow2; [lia|].
      apply Z.lt_le_trans with (2 ^ n); [lia|].
      apply Z.pow_le_mono_r; lia. }
  rewrite Hz. lia.
Qed.

Ltac resolve_tests :=
  repeat match goal with
  | |- context [?a <? ?b] =>
      first [ rewrite (proj2 (Z.ltb_lt a b)) by lia
            | rewrite (proj2 (Z.ltb_ge a b)) by lia ]
  | |- context [?a <=? ?b] =>
      first [ rewrite (proj2 (Z.leb_le a b)) by lia
            | rewrite (proj2 (Z.leb_gt a b)) by lia ]
  | |- context [?a =? ?b] =>
      first [ rewrite (proj2 (Z.eqb_eq a b)) by lia
            | rewrite (proj2 (Z.eqb_neq a b)) by lia ]
  end.

(** ** UTF-8: the encoder and the decoder, arithmetically *)

Lemma EncodeRune_1 (r : Z) :
  0 <= r <= 0x7F -> EncodeRune r = String (mkbyte r) EmptyString.
Proof.
  intros H. unfold EncodeRune. resolve_tests. reflexivity.
Qed.

Lemma EncodeRune_2 (r : Z) :
  0x80 <= r <= 0x7FF ->
  EncodeRune r
  = String (mkbyte (0xC0 + r / 64))
      (String (mkbyte (0x80 + r mod 64)) EmptyString).
Proof.
  intros H. unfold EncodeRune. resolve_tests. cbn [andb orb].
  rewrite land_maskx, Z.shiftr_div_pow2 by lia.
  rewrite (lor_add 0xC0 _ 5), (lor_add 0x80 _ 6) by (try reflexivity; dlia).
  reflexivity.
Qed.

Lemma EncodeRune_3 (r : Z) :
  0x800 <= r <= 0xFFFF -> ~ (surrogateMin <= r <= surrogateMax) ->
  EncodeRune r
  = String (mkbyte (0xE0 + r / 4096))
      (String (mkbyte (0x80 + (r / 64) mod 64))
         (String (mkbyte (0x80 + r mod 64)) EmptyString)).
Proof.
  unfold surrogateMin, surrogateMax. intros H Hs. unfold EncodeRune.
  unfold MaxRune, surrogateMin, surrogateMax.
  assert (Hsur : (0xD800 <=? r) && (r <=? 0xDFFF) = false).
  { apply andb_false_iff. destruct (Z.leb_spec 0xD800 r); [right|left; reflexivity].
    apply Z.leb_gt. lia. }
  rewrite Hsur. resolve_tests. cbn [andb orb].
  rewrite !land_maskx, !Z.shiftr_div_pow2 by lia.
  rewrite (lor_add 0xE0 _ 4), !(lor_add 0x80 _ 6) by (try reflexivity; dlia).
  reflexivity.
Qed.

Lemma EncodeRune_4 (r : Z) :
  0x10000 <= r <= 0x10FFFF ->
  EncodeRune r
  = String (mkbyte (0xF0 + r / 262144))
      (String (mkbyte (0x80 + (r / 4096) mod 64))
         (String (mkbyte (0x80 + (r / 64) mod 64))
            (String (mkbyte (0x80 + r mod 64)) EmptyString))).
Proof.
  intros H. unfold EncodeRune.
  unfold MaxRune, surrogateMin, surrogateMax. resolve_tests. cbn [andb orb].
  rewrite !land_maskx, !Z.shiftr_div_pow2 by lia.
  rewrite (lor_add 0xF0 _ 3), !(lor_add 0x80 _ 6) by (try reflexivity; dlia).
  reflexivity.
Qed.

Ltac split_tests :=
  resolve_tests;
  repeat (match goal with
          | |- context [?a <? ?b] => destruct (Z.ltb_spec a b)
          | |- context [?a <=? ?b] => destruct (Z.leb_spec a b)
          | |- context [?a =? ?b] => destruct (Z.eqb_spec a b)
          end; try lia; resolve_tests).

Ltac open_decoder :=
  unfold DecodeRuneInString, byte_at, first, locb, hicb;
  cbn [String.length String.get Nat.ltb Nat.leb Nat.eqb Nat.sub].

Lemma Decode_1 (c : ascii) (t : string) :
  byteZ c < 0x80 ->
  DecodeRuneInString (String c t) = (byteZ c, 1%nat).
Proof.
  intros H. open_decoder. resolve_tests. reflexivity.
Qed.

Lemma Decode_2 (c0 c1 : ascii) (t : string) :
  0xC2 <= byteZ c0 <= 0xDF -> 0x80 <= byteZ c1 <= 0xBF ->
  DecodeRuneInString (String c0 (String c1 t))
  = ((byteZ c0 - 0xC0) * 64 + (byteZ c1 - 0x80), 2%nat).
Proof.
  intros H0 H1. open_decoder. resolve_tests. cbn [orb Nat.leb].
  rewrite land_mask2, land_maskx, Z.shiftl_mul_pow2 by lia.
  rewrite (lor_add _ _ 6) by dlia. f_equal. dlia.
Qed.

Lemma second_bounds (b0 : Z) :
  (b0 = 0xE0 /\ second_lo b0 = 0xA0 /\ second_hi b0 = 0xBF)
  \/ (b0 = 0xED /\ second_lo b0 = 0x80 /\ second_hi b0 = 0x9F)
  \/ (b0 = 0xF0 /\ second_lo b0 = 0x90 /\ second_hi b0 = 0xBF)
  \/ (b0 = 0xF4 /\ second_lo b0 = 0x80 /\ second_hi b0 = 0x8F)
  \/ (b0 <> 0xE0 /\ b0 <> 0xED /\ b0 <> 0xF0 /\ b0 <> 0xF4
      /\ second_lo b0 = 0x80 /\ second_hi b0 = 0xBF).
Proof.
  unfold second_lo, second_hi.
  destruct (Z.eqb_spec b0 0xE0), (Z.eqb_spec b0 0xED), (Z.eqb_spec b0 0xF0),
    (Z.eqb_spec b0 0xF4); try lia; tauto.
Qed.

Lemma Decode_3 (c0 c1 c2 : ascii) (t : string) :
  0xE0 <= byteZ c0 <= 0xEF ->
  second_lo (byteZ c0) <= byteZ c1 <= second_hi (byteZ c0) ->
  0x80 <= byteZ c2 <= 0xBF ->
  DecodeRuneInString (String c0 (String c1 (String c2 t)))
  = ((byteZ c0 - 0xE0) * 4096 + (byteZ c1 - 0x80) * 64 + (byteZ c2 - 0x80),
     3%nat).
Proof.
  intros H0 H1 H2.
  destruct (second_bounds (byteZ c0))
    as [(E & Hlo & Hhi) | [(E & Hlo & Hhi) | [(E & Hlo & Hhi)
        | [(E & Hlo & Hhi) | (E1 & E2 & E3 & E4 & Hlo & Hhi)]]]];
    rewrite Hlo, Hhi in H1; try lia;
    open_decoder; split_tests; cbn [orb Nat.leb];
    rewrite land_mask3, !land_maskx, !Z.shiftl_mul_pow2 by lia;
    rewrite (lor_add (_ * _) (_ * _) 12) by dlia;
    rewrite (lor_add (_ + _) _ 6) by dlia; f_equal; dlia.
Qed.

Lemma Decode_4 (c0 c1 c2 c3 : ascii) (t : string) :
  0xF0 <= byteZ c0 <= 0xF4 ->
  second_lo (byteZ c0) <= byteZ c1 <= second_hi (byteZ c0) ->
  0x80 <= byteZ c2 <= 0xBF -> 0x80 <= byteZ c3 <= 0xBF ->
  DecodeRuneInString (String c0 (String c1 (String c2 (String c3 t))))
  = ((byteZ c0 - 0xF0) * 262144 + (byteZ c1 - 0x80) * 4096
     + (byteZ c2 - 0x80) * 64 + (byteZ c3 - 0x80), 4%nat).
Proof.
  intros H0 H1 H2 H3.
  destruct (second_bounds (byteZ c0))
    as [(E & Hlo & Hhi) | [(E & Hlo & Hhi) | [(E & Hlo & Hhi)
        | [(E & Hlo & Hhi) | (E1 & E2 & E3 & E4 & Hlo & Hhi)]]]];
    rewrite Hlo, Hhi in H1; try lia;
    open_decoder; split_tests; cbn [orb Nat.leb];
    rewrite land_mask4, !land_maskx, !Z.shiftl_mul_pow2 by lia;
    rewrite (lor_add (_ * _) (_ * _) 18) by dlia;
    rewrite (lor_add (_ + _) (_ * _) 12) by dlia;
    rewrite (lor_add (_ + _) (_ mod _) 6) by dlia;
    f_equal; dlia.
Qed.

Lemma ValidRune_spec (r : Z) :
  ValidRune r = true <-> (0 <= r < 0xD800 \/ 0xDFFF < r <= 0x10FFFF).
Proof.
  unfold ValidRune, surrogateMin, surrogateMax, MaxRune.
  destruct (Z.leb_spec 0 r), (Z.ltb_spec r 0xD800), (Z.ltb_spec 0xDFFF r),
    (Z.leb_spec r 0x10FFFF); cbn; split; intros; try lia; try discriminate;
    reflexivity.
Qed.

Lemma mkbyte_eq (z : Z) (c : ascii) : z = byteZ c -> mkbyte z = c.
Proof. intros ->. apply mkbyte_byteZ. Qed.

(** A rune's encoding decodes to the rune. *)
Lemma Decode_Encode (r : Z) (t : string) :
  ValidRune r = true ->
  DecodeRuneInString (EncodeRune r +:+ t) = (r, String.length (EncodeRune r))
  /\ (1 <= String.length (EncodeRune r))%nat
  /\ invalid_encoding (r, String.length (EncodeRune r)) = false.
Proof.
  intros Hv. apply ValidRune_spec in Hv.
  destruct (Z.le_gt_cases r 0x7F) as [H1|H1];
    [|destruct (Z.le_gt_cases r 0x7FF) as [H2|H2];
      [|destruct (Z.le_gt_cases r 0xFFFF) as [H3|H3]]].
  - rewrite EncodeRune_1 by lia. rewrite append_cons, append_nil_l.
    rewrite Decode_1 by (rewrite byteZ_mkbyte by lia; lia).
    rewrite byteZ_mkbyte by lia. cbn [String.length].
    split; [reflexivity|]. split; [lia|].
    unfold invalid_encoding, RuneError. cbn [fst snd].
    rewrite (proj2 (Z.eqb_neq r 0xFFFD)) by lia. reflexivity.
  - rewrite EncodeRune_2 by lia. rewrite !append_cons, append_nil_l.
    rewrite Decode_2 by (rewrite byteZ_mkbyte by dlia; dlia).
    rewrite !byteZ_mkbyte by dlia. cbn [String.length].
    split; [f_equal; dlia|]. split; [lia|]. apply andb_false_r.
  - unfold surrogateMin, surrogateMax in *.
    rewrite EncodeRune_3 by (unfold surrogateMin, surrogateMax; lia).
    rewrite !append_cons, append_nil_l.
    rewrite Decode_3;
      try (rewrite !byteZ_mkbyte by dlia; dlia).
    + rewrite !byteZ_mkbyte by dlia. cbn [String.length].
      split; [f_equal; dlia|]. split; [lia|]. apply andb_false_r.
    + rewrite !byteZ_mkbyte by dlia.
      destruct (second_bounds (0xE0 + r / 4096))
        as [(E & Hlo & Hhi) | [(E & Hlo & Hhi) | [(E & Hlo & Hhi)
            | [(E & Hlo & Hhi) | (E1 & E2 & E3 & E4 & Hlo & Hhi)]]]];
        rewrite Hlo, Hhi; dlia.
  - rewrite EncodeRune_4 by lia. rewrite !append_cons, append_nil_l.
    rewrite Decode_4;
      try (rewrite !byteZ_mkbyte by dlia; dlia).
    + rewrite !byteZ_mkbyte by dlia. cbn [String.length].
      split; [f_equal; dlia|]. split; [lia|]. apply andb_false_r.
    + rewrite !byteZ_mkbyte by dlia.
      destruct (second_bounds (0xF0 + r / 262144))
        as [(E & Hlo & Hhi) | [(E & Hlo & Hhi) | [(E & Hlo & Hhi)
            | [(E & Hlo & Hhi) | (E1 & E2 & E3 & E4 & Hlo & Hhi)]]]];
        rewrite Hlo, Hhi; dlia.
Qed.

Lemma first_cases (b0 : Z) :
  (b0 < 0x80 /\ first b0 = LeadASCII)
  \/ first b0 = LeadInvalid
  \/ (0xC2 <= b0 <= 0xDF /\ first b0 = LeadMulti 2 0x80 0xBF)
  \/ (0xE0 <= b0 <= 0xEF
      /\ first b0 = LeadMulti 3 (second_lo b0) (second_hi b0))
  \/ (0xF0 <= b0 <= 0xF4
      /\ first b0 = LeadMulti 4 (second_lo b0) (second_hi b0)).
Proof.
  unfold first, second_lo, second_hi.
  destruct (Z.ltb_spec b0 0x80); [left; split; [lia | reflexivity]|].
  destruct (Z.ltb_spec b0 0xC2); [right; left; reflexivity|].
  destruct (Z.leb_spec b0 0xDF); [right; right; left; split; [lia | reflexivity]|].
  destruct (Z.eqb_spec b0 0xE0).
  { right; right; right; left. split; [lia|]. subst b0. reflexivity. }
  destruct (Z.leb_spec b0 0xEC).
  { right; right; right; left. split; [lia|].
    rewrite (proj2 (Z.eqb_neq b0 0xED)), (proj2 (Z.eqb_neq b0 0xF0)),
      (proj2 (Z.eqb_neq b0 0xF4)) by lia. reflexivity. }
  destruct (Z.eqb_spec b0 0xED).
  { right; right; right; left. split; [lia|]. subst b0. reflexivity. }
  destruct (Z.leb_spec b0 0xEF).
  { right; right; right; left. split; [lia|].
    rewrite (proj2 (Z.eqb_neq b0 0xF0)), (proj2 (Z.eqb_neq b0 0xF4)) by lia.
    reflexivity. }
  destruct (Z.eqb_spec b0 0xF0).
  { right; right; right; right. split; [lia|]. subst b0. reflexivity. }
  destruct (Z.leb_spec b0 0xF3).
  { right; right; right; right. split; [lia|].
    rewrite (proj2 (Z.eqb_neq b0 0xF4)) by lia. reflexivity. }
  destruct (Z.eqb_spec b0 0xF4).
  { right; right; right; right. split; [lia|]. subst b0. reflexivity. }
  right; left; reflexivity.
Qed.

Ltac encoded_as r t :=
  exists r, t; split;
  [ apply ValidRune_spec; dlia
  | first [ rewrite EncodeRune_1 by dlia
          | rewrite EncodeRune_2 by dlia
          | rewrite EncodeRune_3 by (unfold surrogateMin, surrogateMax; dlia)
          | rewrite EncodeRune_4 by dlia ];
    rewrite !append_cons, append_nil_l; symmetry;
    repeat f_equal; apply mkbyte_eq; dlia ].

(** Whether [b] is outside of [lo..hi], as the decoder tests it. *)
Lemma outside_spec (b lo hi : Z) :
  (b <? lo) || (hi <? b) = false <-> lo <= b <= hi.
Proof.
  destruct (Z.ltb_spec b lo), (Z.ltb_spec hi b); cbn; split; intros;
    try lia; try discriminate; reflexivity.
Qed.

Ltac next_byte s c Hb :=
  destruct s as [|c s];
  [ cbn [String.length Nat.ltb Nat.leb]; intros Hinv; discriminate Hinv
  | cbn [String.length String.get Nat.ltb Nat.leb] ];
  match goal with
  | |- context [(byteZ c <? ?lo) || (?hi <? byteZ c)] =>
      destruct ((byteZ c <? lo) || (hi <? byteZ c)) eqn:Hb;
      [ intros Hinv; discriminate Hinv | apply outside_spec in Hb ]
  end.

(** A string whose first rune the decoder accepts begins with the
    encoding of a valid rune. *)
Lemma Decode_accepts (s : string) :
  s <> EmptyString ->
  invalid_encoding (DecodeRuneInString s) = false ->
  exists r t, ValidRune r = true /\ s = EncodeRune r +:+ t.
Proof.
  intros Hne. destruct s as [|c0 s]; [congruence|clear Hne].
  pose proof (byteZ_range c0) as R0.
  unfold DecodeRuneInString, byte_at, locb, hicb.
  cbn [String.length String.get Nat.ltb Nat.leb].
  destruct (first_cases (byteZ c0))
    as [(H0 & ->) | [-> | [(H0 & ->) | [(H0 & ->) | (H0 & ->)]]]].
  - intros _. encoded_as (byteZ c0) s.
  - intros Hinv. discriminate Hinv.
  - next_byte s c1 H1. cbn [Nat.leb]. intros _.
    encoded_as ((byteZ c0 - 0xC0) * 64 + (byteZ c1 - 0x80)) s.
  - destruct s as [|c1 s];
      [cbn [String.length Nat.ltb Nat.leb]; intros Hinv; discriminate Hinv|].
    destruct s as [|c2 s];
      [cbn [String.length Nat.ltb Nat.leb]; intros Hinv; discriminate Hinv|].
    cbn [String.length String.get Nat.ltb Nat.leb].
    destruct ((byteZ c1 <? second_lo (byteZ c0))
              || (second_hi (byteZ c0) <? byteZ c1)) eqn:H1;
      [intros Hinv; discriminate Hinv | apply outside_spec in H1].
    destruct ((byteZ c2 <? 0x80) || (0xBF <? byteZ c2)) eqn:H2;
      [intros Hinv; discriminate Hinv | apply outside_spec in H2].
    intros _.
    destruct (second_bounds (byteZ c0))
      as [(E & Hlo & Hhi) | [(E & Hlo & Hhi) | [(E & Hlo & Hhi)
          | [(E & Hlo & Hhi) | (E1 & E2 & E3 & E4 & Hlo & Hhi)]]]];
      rewrite Hlo, Hhi in H1; try lia;
      encoded_as ((byteZ c0 - 0xE0) * 4096 + (byteZ c1 - 0x80) * 64
                  + (byteZ c2 - 0x80)) s.
  - destruct s as [|c1 s];
      [cbn [String.length Nat.ltb Nat.leb]; intros Hinv; discriminate Hinv|].
    destruct s as [|c2 s];
      [cbn [String.length Nat.ltb Nat.leb]; intros Hinv; discriminate Hinv|].
    destruct s as [|c3 s];
      [cbn [String.length Nat.ltb Nat.leb]; intros Hinv; discriminate Hinv|].
    cbn [String.length String.get Nat.ltb Nat.leb].
    destruct ((byteZ c1 <? second_lo (byteZ c0))
              || (second_hi (byteZ c0) <? byteZ c1)) eqn:H1;
      [intros Hinv; discriminate Hinv | apply outside_spec in H1].
    destruct ((byteZ c2 <? 0x80) || (0xBF <? byteZ c2)) eqn:H2;
      [intros Hinv; discriminate Hinv | apply outside_spec in H2].
    destruct ((byteZ c3 <? 0x80) || (0xBF <? byteZ c3)) eqn:H3;
      [intros Hinv; discriminate Hinv | apply outside_spec in H3].
    intros _.
    destruct (second_bounds (byteZ c0))
      as [(E & Hlo & Hhi) | [(E & Hlo & Hhi) | [(E & Hlo & Hhi)
          | [(E & Hlo & Hhi) | (E1 & E2 & E3 & E4 & Hlo & Hhi)]]]];
      rewrite Hlo, Hhi in H1; try lia;
      encoded_as ((byteZ c0 - 0xF0) * 262144 + (byteZ c1 - 0x80) * 4096
                  + (byteZ c2 - 0x80) * 64 + (byteZ c3 - 0x80)) s.
Qed.

(** ** UTF-8: the position loops over encoded text *)

Lemma utf8_cons (r : Z) (rs : list Z) :
  Spec.utf8 (r :: rs) = EncodeRune r +:+ Spec.utf8 rs.
Proof. reflexivity. Qed.

Lemma append_length (s t : string) :
  String.length (s +:+ t) = (String.length s + String.length t)%nat.
Proof.
  induction s as [|c s IH]; [reflexivity|].
  rewrite append_cons. cbn [String.length]. now rewrite IH.
Qed.

Lemma range_from_skip (u t : string) :
  range_from (String.length u) (u +:+ t) = range_from 0 t.
Proof.
  induction u as [|c u IH]; [reflexivity|].
  rewrite append_cons. cbn [String.length range_from]. exact IH.
Qed.

Lemma ValidString_from_skip (u t : string) :
  ValidString_from (String.length u) (u +:+ t) = ValidString_from 0 t.
Proof.
  induction u as [|c u IH]; [reflexivity|].
  rewrite append_cons. cbn [String.length ValidString_from]. exact IH.
Qed.

Lemma ToValidUTF8_from_keep (u t : string) :
  ToValidUTF8_from (String.length u) (u +:+ t) = u +:+ ToValidUTF8_from 0 t.
Proof.
  induction u as [|c u IH]; [reflexivity|].
  rewrite !append_cons. cbn [String.length ToValidUTF8_from]. now rewrite IH.
Qed.

(** How the three position loops pass over the encoding of a rune. *)
Lemma over_encoding (r : Z) (t : string) :
  ValidRune r = true ->
  range (EncodeRune r +:+ t) = r :: range t
  /\ ValidString (EncodeRune r +:+ t) = ValidString t
  /\ ToValidUTF8 (EncodeRune r +:+ t) = EncodeRune r +:+ ToValidUTF8 t.
Proof.
  intros Hv. destruct (Decode_Encode r t Hv) as (Hd & Hlen & Hinv).
  unfold range, ValidString, ToValidUTF8.
  destruct (EncodeRune r) as [|c u] eqn:He; [cbn in Hlen; lia|].
  rewrite append_cons in *.
  cbn [range_from ValidString_from ToValidUTF8_from].
  rewrite Hd, Hinv. cbn [fst snd String.length Nat.pred].
  now rewrite range_from_skip, ValidString_from_skip, ToValidUTF8_from_keep.
Qed.

Lemma range_utf8 (rs : list Z) :
  Forall (fun r => ValidRune r = true) rs -> range (Spec.utf8 rs) = rs.
Proof.
  induction 1 as [|r rs Hr _ IH]; [reflexivity|].
  rewrite utf8_cons. destruct (over_encoding r (Spec.utf8 rs) Hr) as (-> & _).
  now rewrite IH.
Qed.

Lemma ValidString_utf8 (rs : list Z) :
  Forall (fun r => ValidRune r = true) rs -> ValidString (Spec.utf8 rs) = true.
Proof.
  induction 1 as [|r rs Hr _ IH]; [reflexivity|].
  rewrite utf8_cons. destruct (over_encoding r (Spec.utf8 rs) Hr) as (_ & -> & _).
  exact IH.
Qed.

Lemma ToValidUTF8_utf8 (rs : list Z) :
  Forall (fun r => ValidRune r = true) rs -> ToValidUTF8 (Spec.utf8 rs) = Spec.utf8 rs.
Proof.
  induction 1 as [|r rs Hr _ IH]; [reflexivity|].
  rewrite utf8_cons. destruct (over_encoding r (Spec.utf8 rs) Hr) as (_ & _ & ->).
  now rewrite IH.
Qed.

(** A string that [Spec.utf8.ValidString] accepts is the encoding of valid
    runes. *)
Lemma ValidString_decompose (s : string) :
  ValidString s = true ->
  exists rs, Forall (fun r => ValidRune r = true) rs /\ s = Spec.utf8 rs.
Proof.
  remember (String.length s) as n eqn:Hn. revert s Hn.
  induction n as [n IH] using (well_founded_induction lt_wf).
  intros s Hn Hs. destruct s as [|c s'] eqn:Es.
  - exists []. split; [constructor | reflexivity].
  - rewrite <- Es in *.
    assert (Hinv : invalid_encoding (DecodeRuneInString s) = false).
    { unfold ValidString in Hs. rewrite Es in Hs |- *.
      cbn [ValidString_from] in Hs.
      destruct (invalid_encoding _); [discriminate | reflexivity]. }
    destruct (Decode_accepts s) as (r & t & Hr & Hst);
      [rewrite Es; discriminate | exact Hinv |].
    destruct (over_encoding r t Hr) as (_ & Hvt & _).
    destruct (Decode_Encode r t Hr) as (_ & Hlen & _).
    rewrite Hst in Hs. rewrite Hvt in Hs.
    destruct (IH (String.length t)) with (s := t) as (rs & Hrs & Ht);
      [|reflexivity|exact Hs|].
    + rewrite Hn, Hst, append_length. lia.
    + exists (r :: rs). split; [now constructor|].
      rewrite utf8_cons. now rewrite <- Ht.
Qed.

(** ** Valid text and sanitizing *)

Lemma IsControl_spec (r : Z) : IsControl r = true <-> Spec.control r.
Proof.
  unfold IsControl, Spec.control.
  destruct (Z.leb_spec 0 r), (Z.leb_spec r 0xFF), (Z.leb_spec r 0x1F),
    (Z.leb_spec 0x7F r), (Z.leb_spec r 0x9F); cbn; split; intros;
    try lia; try discriminate; reflexivity.
Qed.

Lemma range_CRLFTAB : range CRLFTAB = [13; 10; 9].
Proof. vm_compute. reflexivity. Qed.

Lemma ContainsRune_CRLFTAB (r : Z) :
  ContainsRune CRLFTAB r = true <-> Spec.allowed_control r.
Proof.
  unfold ContainsRune, Spec.allowed_control. rewrite range_CRLFTAB. cbn [existsb].
  rewrite andb_true_iff, !orb_true_iff, !Z.eqb_eq, ValidRune_spec.
  split; [intros (_ & [H | [H | [H | H]]]); [lia | lia | lia | discriminate]|].
  intros H. split; lia.
Qed.

Lemma kept_spec (r : Z) : kept r = true <-> Spec.text_code_point r.
Proof.
  unfold kept, Spec.text_code_point.
  rewrite andb_true_iff, negb_true_iff, andb_false_iff, negb_false_iff.
  rewrite ValidRune_spec, ContainsRune_CRLFTAB, <- IsControl_spec.
  fold (Spec.valid_code_point r).
  destruct (IsControl r); split; intros (Hv & Hc); split; auto.
  - destruct Hc as [Hc | Hc]; [discriminate | intros _; exact Hc].
  - intros Hx; discriminate Hx.
Qed.

Lemma kept_valid (r : Z) : kept r = true -> ValidRune r = true.
Proof. unfold kept. intros H. now apply andb_true_iff in H. Qed.

Lemma isValidUTF8String_loop_spec (rs : list Z) :
  OpenaiResponses.isValidUTF8String_loop rs = forallb kept rs.
Proof.
  induction rs as [|r rs IH]; [reflexivity|].
  cbn [OpenaiResponses.isValidUTF8String_loop forallb]. unfold kept at 1.
  destruct (ValidRune r); cbn [negb andb]; [|reflexivity].
  destruct (IsControl r && negb (ContainsRune CRLFTAB r)); cbn [negb];
    [reflexivity | exact IH].
Qed.

Section CleanLoop.

(** The loop of [cleanInvalidUTF8Chars] is written twice, once in each
    package. *)
Variable loop : list Z -> string -> string.
Hypothesis loop_nil : forall result, loop [] result = result.
Hypothesis loop_cons : forall r rs result,
  loop (r :: rs) result =
  if negb (ValidRune r) then loop rs result
  else if IsControl r && negb (ContainsRune CRLFTAB r) then loop rs result
  else loop rs (WriteRune result r).

Lemma clean_loop_spec (rs : list Z) (result : string) :
  loop rs result = result +:+ Spec.utf8 (List.filter kept rs).
Proof.
  revert result. induction rs as [|r rs IH]; intros result.
  - rewrite loop_nil. cbn. now rewrite append_nil_r.
  - rewrite loop_cons. cbn [List.filter]. unfold kept at 1.
    destruct (ValidRune r); cbn [negb andb]; [|apply IH].
    destruct (IsControl r && negb (ContainsRune CRLFTAB r)); cbn [negb];
      [apply IH|].
    rewrite IH, utf8_cons. unfold WriteRune. apply append_assoc.
Qed.

End CleanLoop.

Lemma filter_kept_valid (rs : list Z) :
  Forall (fun r => ValidRune r = true) (List.filter kept rs).
Proof.
  apply List.Forall_forall. intros r Hr. apply filter_In in Hr.
  apply kept_valid, Hr.
Qed.

Lemma filter_filter {A : Type} (f : A -> bool) (l : list A) :
  List.filter f (List.filter f l) = List.filter f l.
Proof.
  induction l as [|x l IH]; [reflexivity|].
  cbn [List.filter]. destruct (f x) eqn:E; [|exact IH].
  cbn [List.filter]. now rewrite E, IH.
Qed.

Lemma cleanInvalidUTF8Chars_spec (s : string) :
  OpenaiResponses.cleanInvalidUTF8Chars s = Spec.utf8 (List.filter kept (range s))
  /\ Claude.cleanInvalidUTF8Chars s = Spec.utf8 (List.filter kept (range s)).
Proof.
  unfold OpenaiResponses.cleanInvalidUTF8Chars, Claude.cleanInvalidUTF8Chars.
  split.
  - now rewrite (clean_loop_spec OpenaiResponses.cleanInvalidUTF8Chars_loop).
  - now rewrite (clean_loop_spec Claude.cleanInvalidUTF8Chars_loop).
Qed.

(** C9: [cleanInvalidUTF8Chars] is idempotent, in both packages:
    sanitizing a sanitized string gives the sanitized string. *)
Theorem C9_sanitize_idempotent (s : string) :
  OpenaiResponses.cleanInvalidUTF8Chars (OpenaiResponses.cleanInvalidUTF8Chars s)
    = OpenaiResponses.cleanInvalidUTF8Chars s
  /\ Claude.cleanInvalidUTF8Chars (Claude.cleanInvalidUTF8Chars s)
    = Claude.cleanInvalidUTF8Chars s.
Proof.
  destruct (cleanInvalidUTF8Chars_spec s) as (E1 & E2).
  destruct (cleanInvalidUTF8Chars_spec (Spec.utf8 (List.filter kept (range s))))
    as (F1 & F2).
  rewrite E1, E2, F1, F2.
  rewrite range_utf8 by apply filter_kept_valid.
  now rewrite filter_filter.
Qed.

Lemma valid_code_point_iff (rs : list Z) :
  Forall (fun r => ValidRune r = true) rs <-> Forall Spec.valid_code_point rs.
Proof.
  split; intros H; eapply List.Forall_impl; try exact H; intros r Hr;
    now apply ValidRune_spec.
Qed.

Lemma ValidString_spec (s : string) : ValidString s = true <-> Spec.well_formed s.
Proof.
  split.
  - intros H. destruct (ValidString_decompose s H) as (rs & Hrs & ->).
    exists rs. split; [reflexivity | now apply valid_code_point_iff].
  - intros (rs & -> & Hrs). now apply ValidString_utf8, valid_code_point_iff.
Qed.

Lemma isValidUTF8String_spec (s : string) :
  OpenaiResponses.isValidUTF8String s = true <-> Spec.valid_text s.
Proof.
  unfold OpenaiResponses.isValidUTF8String. rewrite isValidUTF8String_loop_spec.
  split.
  - destruct (forallb kept (range s)) eqn:Hk; [|discriminate].
    intros H. destruct (ValidString_decompose s H) as (rs & Hrs & ->).
    rewrite range_utf8 in Hk by exact Hrs.
    exists rs. split; [reflexivity|].
    apply List.Forall_forall. intros r Hr.
    apply kept_spec. rewrite forallb_forall in Hk. now apply Hk.
  - intros (rs & -> & Hrs).
    assert (Hv : Forall (fun r => ValidRune r = true) rs).
    { eapply List.Forall_impl; [|exact Hrs]. intros r Hr.
      apply kept_valid, kept_spec, Hr. }
    rewrite range_utf8 by exact Hv.
    assert (forallb kept rs = true) as ->.
    { apply forallb_forall. intros r Hr. apply kept_spec.
      rewrite List.Forall_forall in Hrs. now apply Hrs. }
    now apply ValidString_utf8.
Qed.

(** C8, as stated, fails for the [isValidUTF8String] of package [claude]:
    it accepts the string that holds the control character U+0001, which
    is not valid text. *)
Lemma C8_claude_accepts_control :
  Claude.isValidUTF8String SOH = true /\ ~ Spec.valid_text SOH.
Proof.
  split; [reflexivity|].
  intros (rs & Hs & Hrs).
  assert (Hv : Forall (fun r => ValidRune r = true) rs).
  { eapply List.Forall_impl; [|exact Hrs]. intros r Hr.
    apply kept_valid, kept_spec, Hr. }
  pose proof (range_utf8 rs Hv) as Hr. rewrite <- Hs in Hr.
  change (range SOH) with [1] in Hr. subst rs.
  inversion Hrs as [|r rs' (_ & Hc) _]; subst.
  unfold Spec.control, Spec.allowed_control in Hc. lia.
Qed.

(** C8 (amended): [isValidUTF8String] of package [openai_responses]
    returns true if and only if the string is valid text: the UTF-8
    encoding of valid code points of which none is a control character
    other than CR, LF and TAB.  [isValidUTF8String] of package [claude]
    returns true if and only if the string is the UTF-8 encoding of valid
    code points; it does not look at control characters. *)
Theorem C8_isValidText (s : string) :
  (OpenaiResponses.isValidUTF8String s = true <-> Spec.valid_text s)
  /\ (Claude.isValidUTF8String s = true <-> Spec.well_formed s).
Proof.
  split; [apply isValidUTF8String_spec | apply ValidString_spec].
Qed.

(** ** Status mapping *)

(** C1, as the specification has it, fails for the Messages-style
    mapper: it sends the status [failed] to [end_turn], not to [error]. *)
Lemma C1_messages_table_fails :
  ~ Spec.messages_table OpenaiResponses.extractClaudeStopReason.
Proof. intros (_ & _ & H & _). discriminate H. Qed.

Ltac status_cases status :=
  repeat match goal with
  | |- context [(status =? ?lit)%string] =>
      destruct (String.eqb_spec status lit); subst; try discriminate
  end.

(** C1 (amended): the Chat-valued mappers (both copies of
    [extractFinishReason], and [extractFinishReasonFromResponses] of package
    [claude]) follow the table: [completed] gives [stop], [incomplete] gives
    [length], [failed] gives [error], [cancelled] and every other status
    give [stop].  The Messages-style mapper [extractClaudeStopReason] gives
    [max_tokens] for [incomplete] and [end_turn] for every other status,
    [completed], [failed] and [cancelled] included. *)
Theorem C1_status_mapping :
  Spec.chat_table OpenaiResponses.extractFinishReason
  /\ Spec.chat_table OpenaiResponsesSecondCopy.extractFinishReason
  /\ Spec.chat_table Claude.extractFinishReasonFromResponses
  /\ OpenaiResponses.extractClaudeStopReason "completed" = "end_turn"
  /\ OpenaiResponses.extractClaudeStopReason "incomplete" = "max_tokens"
  /\ (forall status, status <> "incomplete" ->
       OpenaiResponses.extractClaudeStopReason status = "end_turn").
Proof.
  unfold Spec.chat_table.
  repeat split; try reflexivity; intros status; intros;
    unfold OpenaiResponses.extractFinishReason,
      OpenaiResponsesSecondCopy.extractFinishReason,
      Claude.extractFinishReasonFromResponses,
      OpenaiResponses.extractClaudeStopReason;
    status_cases status; congruence.
Qed.

Lemma C1_status_mapping_witness :
  "queued" <> "incomplete"
  /\ OpenaiResponses.extractFinishReason "queued" = "stop"
  /\ OpenaiResponses.extractClaudeStopReason "queued" = "end_turn".
Proof.
  destruct C1_status_mapping as ((_ & _ & _ & _ & H1) & _ & _ & _ & _ & H2).
  split; [discriminate|]. split.
  - apply H1; discriminate.
  - apply H2; discriminate.
Defined.

(** ** The text extracted by the non-streaming assembler *)

Section ExtractContent.

(** The three copies of the two loops differ in the type test only. *)
Variable textual : string -> bool.
Variable items : list ResponsesOutputContent.t -> string -> string.
Variable outputs : list ResponsesOutput.t -> string -> string.

Hypothesis items_nil : forall acc, items [] acc = acc.
Hypothesis items_cons : forall b rest acc,
  items (b :: rest) acc =
  if textual (ResponsesOutputContent.Type_ b)
  then items rest (acc +:+ ResponsesOutputContent.Text b)
  else items rest acc.
Hypothesis outputs_nil : forall acc, outputs [] acc = acc.
Hypothesis outputs_cons : forall item rest acc,
  outputs (item :: rest) acc =
  if Spec.is_assistant_message item
  then outputs rest (items (ResponsesOutput.Content item) acc)
  else outputs rest acc.

Lemma items_spec (content : list ResponsesOutputContent.t) (acc : string) :
  items content acc
  = acc +:+ String.concat EmptyString
              (map ResponsesOutputContent.Text
                 (List.filter (fun b => textual (ResponsesOutputContent.Type_ b)) content)).
Proof.
  revert acc. induction content as [|b rest IH]; intros acc.
  - rewrite items_nil. simpl. now rewrite append_nil_r.
  - rewrite items_cons. cbn [List.filter].
    destruct (textual (ResponsesOutputContent.Type_ b)).
    + rewrite IH. cbn [map]. now rewrite concat_nil_cons, append_assoc.
    + apply IH.
Qed.

Lemma outputs_spec (output : list ResponsesOutput.t) (acc : string) :
  outputs output acc = acc +:+ Spec.content_of textual output.
Proof.
  unfold Spec.content_of.
  revert acc. induction output as [|item rest IH]; intros acc.
  - rewrite outputs_nil. simpl. now rewrite append_nil_r.
  - rewrite outputs_cons. cbn [List.filter].
    destruct (Spec.is_assistant_message item).
    + rewrite IH, items_spec. cbn [flat_map].
      now rewrite concat_nil_app, append_assoc.
    + apply IH.
Qed.

End ExtractContent.

(** C7, as the specification has it, fails: a block of type [text] in an
    assistant message is textual for the specification, and the assembler
    drops it. *)
Lemma C7_text_block_dropped :
  let output :=
    [ResponsesOutput.mk "message" "assistant"
       [ResponsesOutputContent.mk "text" "Hello"]] in
  OpenaiResponses.extractContentFromOutput output = EmptyString
  /\ Spec.content_of Spec.textual_type output = "Hello"
  /\ OpenaiResponses.extractContentFromOutput output
     <> Spec.content_of Spec.textual_type output.
Proof. repeat split. discriminate. Qed.

(** C7 (amended): the extracted content is the in-order concatenation of
    the text of the content blocks of type [output_text] (in the second
    copy of convert.go: of type [text]) of the output items of type
    [message] and role [assistant]; other items and other blocks, those of
    the other type included, contribute nothing. *)
Theorem C7_extracted_content (output : list ResponsesOutput.t) :
  OpenaiResponses.extractContentFromOutput output
    = Spec.content_of is_output_text output
  /\ Claude.extractContentFromOutput output
    = Spec.content_of is_output_text output
  /\ OpenaiResponsesSecondCopy.extractContentFromOutput output
    = Spec.content_of is_text output.
Proof.
  repeat split.
  - apply (outputs_spec is_output_text OpenaiResponses.extractContent_items
             OpenaiResponses.extractContent_output); reflexivity.
  - apply (outputs_spec is_output_text Claude.extractContent_items
             Claude.extractContent_output); reflexivity.
  - apply (outputs_spec is_text OpenaiResponsesSecondCopy.extractContent_items
             OpenaiResponsesSecondCopy.extractContent_output); reflexivity.
Qed.

(** ** Usage reconciliation at the end of a stream *)

Lemma int_add_exact (a b : Z) :
  - 2 ^ 63 <= a + b < 2 ^ 63 -> int_add a b = a + b.
Proof.
  intros H. unfold int_add, int_wrap.
  rewrite Z.mod_small by lia. lia.
Qed.

Section Reconcile.

Variable CountTextToken : string -> string -> Z.
Variables ItemDone WebSearchCall WebSearchPreview : string.

Local Abbreviation reconcileUsage := (OpenaiResponses.reconcileUsage CountTextToken).

Lemma reconcileUsage_fields (info : RelayInfo.t) (text : string) (u : Usage.t) :
  let r := reconcileUsage info text u in
  let c :=
    if Usage.CompletionTokens u =? 0 then
      if (0 <? String.length text)%nat
      then CountTextToken text (RelayInfo.UpstreamModelName info)
      else Usage.CompletionTokens u
    else Usage.CompletionTokens u in
  let p :=
    if (Usage.PromptTokens u =? 0) && negb (c =? 0)
    then RelayInfo.PromptTokens info else Usage.PromptTokens u in
  r = Usage.mk p c (int_add p c) (Usage.PromptTokensDetails u)
        (Usage.InputTokens u) (Usage.OutputTokens u) (Usage.InputTokensDetails u).
Proof.
  cbv zeta. unfold OpenaiResponses.reconcileUsage. destruct u as [p c t d i o id].
  cbn [Usage.CompletionTokens Usage.PromptTokens].
  destruct (c =? 0) eqn:Ec; [destruct (0 <? String.length text)%nat|];
    cbn [Usage.set_CompletionTokens Usage.CompletionTokens Usage.PromptTokens
         Usage.TotalTokens Usage.PromptTokensDetails Usage.InputTokens
         Usage.OutputTokens Usage.InputTokensDetails];
    rewrite ?Ec;
    match goal with |- context [?a && ?b] => destruct (a && b) end;
    reflexivity.
Qed.

Lemma nonempty_length (s : string) :
  s <> EmptyString -> (0 <? String.length s)%nat = true.
Proof. destruct s; [congruence | reflexivity]. Qed.

(** C3: at the end of a stream, a non-zero completion count reported by
    the backend is kept; a zero one is replaced by the tokenizer's count
    of the accumulated text when that text is not empty; a zero prompt
    count next to a non-zero completion count is replaced by the prompt
    count of the request context; the total is the sum of the two counts
    (in Go's [int]), whatever total the backend reported.  Both stream
    handlers return a usage reconciled in this way. *)
Theorem C3_reconciled_usage (info : RelayInfo.t) (text : string) (u : Usage.t) :
  let r := reconcileUsage info text u in
  (Usage.CompletionTokens u <> 0 ->
     Usage.CompletionTokens r = Usage.CompletionTokens u)
  /\ (Usage.CompletionTokens u = 0 -> text <> EmptyString ->
     Usage.CompletionTokens r
     = CountTextToken text (RelayInfo.UpstreamModelName info))
  /\ (Usage.PromptTokens u = 0 -> Usage.CompletionTokens r <> 0 ->
     Usage.PromptTokens r = RelayInfo.PromptTokens info)
  /\ (Usage.PromptTokens u <> 0 -> Usage.PromptTokens r = Usage.PromptTokens u)
  /\ Usage.TotalTokens r
     = int_add (Usage.PromptTokens r) (Usage.CompletionTokens r)
  /\ (- 2 ^ 63 <= Usage.PromptTokens r + Usage.CompletionTokens r < 2 ^ 63 ->
     Usage.TotalTokens r = Usage.PromptTokens r + Usage.CompletionTokens r)
  /\ (forall total, reconcileUsage info text (Usage.set_TotalTokens total u) = r)
  /\ (forall lines h,
      OpenaiResponses.ResponsesToClaudeStreamHandler CountTextToken info
        (Some lines) = Ok h ->
      Usage.TotalTokens (returned h)
      = int_add (Usage.PromptTokens (returned h))
          (Usage.CompletionTokens (returned h)))
  /\ (forall lines h,
      OpenaiResponses.ResponsesToChatStreamHandler CountTextToken
        ItemDone WebSearchCall WebSearchPreview info (Some lines) = Ok h ->
      Usage.TotalTokens (returned h)
      = int_add (Usage.PromptTokens (returned h))
          (Usage.CompletionTokens (returned h))).
Proof.
  cbv zeta. rewrite (reconcileUsage_fields info text u). cbv zeta.
  cbn [Usage.CompletionTokens Usage.PromptTokens Usage.TotalTokens].
  repeat split.
  - intros Hc. apply Z.eqb_neq in Hc. now rewrite Hc.
  - intros Hc Ht. now rewrite Hc, (nonempty_length _ Ht).
  - intros Hp Hr. apply Z.eqb_neq in Hr. now rewrite Hp, Hr.
  - intros Hp. apply Z.eqb_neq in Hp. now rewrite Hp.
  - intros H. now apply int_add_exact.
  - intros total. rewrite reconcileUsage_fields. now destruct u.
  - intros lines h H. injection H as <-. cbn [returned].
    now rewrite reconcileUsage_fields.
  - intros lines h H. injection H as <-. cbn [returned].
    now rewrite reconcileUsage_fields.
Qed.

End Reconcile.

(** A stream whose backend reported nothing: the tokenizer counts the
    accumulated text and the request context supplies the prompt count. *)
Lemma C3_reconciled_usage_witness :
  let count (text model : string) := Z.of_nat (String.length text) in
  let info :=
    RelayInfo.mk "gpt-5" "gpt-5" 9 RelayModeResponses true EmptyString None in
  let r := OpenaiResponses.reconcileUsage count info "Hello world" Usage.zero in
  "Hello world" <> EmptyString
  /\ Usage.CompletionTokens r = 11 /\ Usage.PromptTokens r = 9
  /\ Usage.TotalTokens r = 20.
Proof.
  cbv zeta.
  pose proof (C3_reconciled_usage
                (fun text _ => Z.of_nat (String.length text))
                EmptyString EmptyString EmptyString
                (RelayInfo.mk "gpt-5" "gpt-5" 9 RelayModeResponses true
                   EmptyString None)
                "Hello world" Usage.zero) as H.
  cbv zeta in H. destruct H as (_ & H2 & H3 & _ & _ & H6 & _).
  split; [discriminate|]. split; [|split].
  - rewrite H2; [reflexivity | reflexivity | discriminate].
  - rewrite H3; [reflexivity | reflexivity | vm_compute; discriminate].
  - rewrite H6; [reflexivity | vm_compute; split; [discriminate | reflexivity]].
Defined.

(** ** The streaming scenario *)

(** C2, as the specification has it, fails for the stream handler of
    package [claude]: it writes one event per backend event, so the
    terminal event gives a single [message_delta], whose stop reason is
    [stop]; no [content_block_stop] and no [message_stop] follow. *)
Lemma C2_claude_package_events :
  let created := OpenAIResponsesResponse.mk "resp_1" "gpt-5" "in_progress" 0 [] None in
  let info := RelayInfo.mk "gpt-5" "claude-3-opus" 0 RelayModeResponses true EmptyString None in
  let lines := Spec.lines_of (fun _ => "{}") (Spec.scenario created 0) in
  when_handled
    (Claude.ResponsesToClaudeStreamHandler (fun _ _ => 0) converted_from_claude
       "chatcmpl-1" lines info)
    (fun h =>
       map Spec.claude_event_of (sent h)
       = [ Spec.MessageStart; Spec.ContentBlockStart 0;
           Spec.ContentBlockDelta 0 "Hi"; Spec.ContentBlockDelta 0 " there";
           Spec.MessageDelta "stop" ]
       /\ map Spec.claude_event_of (sent h) <> Spec.scenario_events).
Proof. vm_compute. split; [reflexivity | discriminate]. Qed.

(** C2 (amended): for the events of the scenario, whose [created] event
    carries a response identifier, the Messages-style stream handler of
    package [openai_responses] writes message start, content-block start
    (index 0), the deltas [Hi] and [ there], content-block stop, a message
    delta with the stop reason [end_turn] and message stop, in this order
    and nothing else, and returns the usage prompt 5, completion 2,
    total 7.  The stream handler of package [claude] returns the same
    usage for these events. *)
Theorem C2_streaming_scenario
  (CountTextToken : string -> string -> Z) (info : RelayInfo.t)
  (raw : ResponsesStreamResponse.t -> string)
  (created : OpenAIResponsesResponse.t) (total : Z) (responseId : string) :
  OpenAIResponsesResponse.ID created <> EmptyString ->
  let lines := Spec.lines_of raw (Spec.scenario created total) in
  when_ok
    (OpenaiResponses.ResponsesToClaudeStreamHandler CountTextToken info
       (Some lines))
    (fun h =>
       map Spec.claude_event_of (sent h) = Spec.scenario_events
       /\ Usage.PromptTokens (returned h) = 5
       /\ Usage.CompletionTokens (returned h) = 2
       /\ Usage.TotalTokens (returned h) = 7)
  /\ when_handled
       (Claude.ResponsesToClaudeStreamHandler CountTextToken
          converted_from_claude responseId lines info)
       (fun h =>
          Usage.PromptTokens (returned h) = 5
          /\ Usage.CompletionTokens (returned h) = 2
          /\ Usage.TotalTokens (returned h) = 7).
Proof.
  intros Hid. destruct created as [id model status createdAt output usage].
  cbn [OpenAIResponsesResponse.ID] in Hid.
  destruct id as [|a id]; [congruence|].
  split; destruct total; vm_compute; repeat split.
Qed.

Lemma C2_streaming_scenario_witness :
  let created := OpenAIResponsesResponse.mk "resp_1" "gpt-5" "in_progress" 0 [] None in
  let info := RelayInfo.mk "gpt-5" "gpt-5" 0 RelayModeResponses true EmptyString None in
  let lines := Spec.lines_of (fun _ => "{}") (Spec.scenario created 7) in
  OpenAIResponsesResponse.ID created <> EmptyString
  /\ when_ok
       (OpenaiResponses.ResponsesToClaudeStreamHandler (fun _ _ => 0) info
          (Some lines))
       (fun h =>
          map Spec.claude_event_of (sent h) = Spec.scenario_events
          /\ Usage.PromptTokens (returned h) = 5
          /\ Usage.CompletionTokens (returned h) = 2
          /\ Usage.TotalTokens (returned h) = 7).
Proof.
  cbv zeta.
  assert (Hid : OpenAIResponsesResponse.ID
                  (OpenAIResponsesResponse.mk "resp_1" "gpt-5" "in_progress" 0 [] None)
                <> EmptyString) by discriminate.
  split; [exact Hid|].
  exact (proj1 (C2_streaming_scenario (fun _ _ => 0)
                  (RelayInfo.mk "gpt-5" "gpt-5" 0 RelayModeResponses true
                     EmptyString None)
                  (fun _ => "{}") _ 7 EmptyString Hid)).
Defined.

(** ** Terminal events and empty deltas in the stream callbacks *)

Section ChatCallback.

Variables ItemDone WebSearchCall WebSearchPreview : string.

Local Abbreviation chatStreamCallback :=
  (OpenaiResponses.chatStreamCallback ItemDone WebSearchCall WebSearchPreview).

(** C6 at the two terminal event types.  For [response.done] with a
    response snapshot the converter gives the terminating chunk (one choice
    with the mapped finish reason, and the snapshot's usage), the callback
    writes it, and the running usage stays as it was.  For
    [response.completed] the running usage takes the snapshot's usage, and
    the converter gives nothing: no chunk is written. *)
Theorem C6_terminal_event_types (info : RelayInfo.t)
  (st : OpenaiResponses.ChatStream.t) (data delta : string)
  (item : option ResponsesOutput.t) (resp : OpenAIResponsesResponse.t)
  (ru : Usage.t) :
  let snapshot :=
    OpenAIResponsesResponse.mk (OpenAIResponsesResponse.ID resp)
      (OpenAIResponsesResponse.Model resp) (OpenAIResponsesResponse.Status resp)
      (OpenAIResponsesResponse.CreatedAt resp) (OpenAIResponsesResponse.Output resp)
      (Some ru) in
  let done := ResponsesStreamResponse.mk "response.done" (Some snapshot) delta item in
  let completed :=
    ResponsesStreamResponse.mk "response.completed" (Some snapshot) delta item in
  let terminating id :=
    ChatCompletionsStreamResponse.mk id "chat.completion.chunk"
      (OpenAIResponsesResponse.CreatedAt resp) (RelayInfo.UpstreamModelName info)
      [ChatCompletionsStreamResponseChoice.mk 0
         (ChatCompletionsStreamResponseChoiceDelta.mk EmptyString None)
         (Some (OpenaiResponses.extractFinishReason
                  (OpenAIResponsesResponse.Status resp)))]
      (Some ru) in
  let st_done := chatStreamCallback info st (Line.mk data (Ok done)) in
  let st_completed := chatStreamCallback info st (Line.mk data (Ok completed)) in
  OpenaiResponses.ChatStream.written st_done
    = OpenaiResponses.ChatStream.written st
        ++ [terminating (currentResponseID st done)]
  /\ OpenaiResponses.ChatStream.usage st_done = OpenaiResponses.ChatStream.usage st
  /\ OpenaiResponses.ChatStream.written st_completed
    = OpenaiResponses.ChatStream.written st
  /\ Usage.PromptTokens (OpenaiResponses.ChatStream.usage st_completed)
    = (if Usage.InputTokens ru =? 0
       then Usage.PromptTokens (OpenaiResponses.ChatStream.usage st)
       else Usage.InputTokens ru)
  /\ Usage.CompletionTokens (OpenaiResponses.ChatStream.usage st_completed)
    = (if Usage.OutputTokens ru =? 0
       then Usage.CompletionTokens (OpenaiResponses.ChatStream.usage st)
       else Usage.OutputTokens ru).
Proof.
  cbv zeta. unfold OpenaiResponses.chatStreamCallback, currentResponseID,
    OpenaiResponses.ConvertResponsesStreamToChatStream.
  cbn [Line.parsed Line.data ResponsesStreamResponse.Type_
       ResponsesStreamResponse.Response ResponsesStreamResponse.Delta
       ResponsesStreamResponse.Item OpenAIResponsesResponse.ID
       OpenAIResponsesResponse.Usage OpenAIResponsesResponse.Status
       OpenAIResponsesResponse.CreatedAt].
  change ("response.done" =? "response.completed")%string with false.
  change ("response.done" =? "response.output_text.delta")%string with false.
  change ("response.done" =? "response.output_item.added")%string with false.
  change ("response.done" =? "response.done")%string with true.
  change ("response.completed" =? "response.completed")%string with true.
  change ("response.completed" =? "response.output_text.delta")%string with false.
  change ("response.completed" =? "response.output_item.added")%string with false.
  change ("response.completed" =? "response.done")%string with false.
  cbv iota.
  repeat split.
  - now destruct ("response.done" =? ItemDone)%string,
      (nonempty (OpenAIResponsesResponse.ID resp)).
  - now destruct ("response.done" =? ItemDone)%string.
  - unfold captureUsage. destruct st as [[p c t d i o id] ? ? ? ? ?].
    destruct ru as [rp rc rt rd ri ro rid]. cbn.
    now destruct (ri =? 0), (ro =? 0), (rt =? 0), rid.
  - unfold captureUsage. destruct st as [[p c t d i o id] ? ? ? ? ?].
    destruct ru as [rp rc rt rd ri ro rid]. cbn.
    now destruct (ri =? 0), (ro =? 0), (rt =? 0), rid.
Qed.

End ChatCallback.

(** The terminal event of the scenario, alone on a stream, under both
    type names: with [response.done] the chunk is written and the handler
    returns an empty usage; with [response.completed] the handler returns
    the usage 5, 2, 7 and writes nothing. *)
Example terminal_event_alone :
  let info := RelayInfo.mk "gpt-5" "gpt-5" 0 RelayModeResponses true EmptyString None in
  let snapshot :=
    OpenAIResponsesResponse.mk "resp_1" "gpt-5" "completed" 0 []
      (Some (Spec.scenario_usage 0)) in
  let handler ty :=
    OpenaiResponses.ResponsesToChatStreamHandler (fun _ _ => 0)
      "response.output_item.done" "web_search_call" "web_search_preview" info
      (Some (Spec.lines_of (fun _ => "{}")
               [ResponsesStreamResponse.mk ty (Some snapshot) EmptyString None])) in
  when_ok (handler "response.done")
    (fun h =>
       map ChatCompletionsStreamResponse.Choices (sent h)
       = [[ChatCompletionsStreamResponseChoice.mk 0
             (ChatCompletionsStreamResponseChoiceDelta.mk EmptyString None)
             (Some "stop")]]
       /\ map ChatCompletionsStreamResponse.Usage (sent h)
          = [Some (Spec.scenario_usage 0)]
       /\ returned h = Usage.zero)
  /\ when_ok (handler "response.completed")
       (fun h =>
          sent h = []
          /\ Usage.PromptTokens (returned h) = 5
          /\ Usage.CompletionTokens (returned h) = 2
          /\ Usage.TotalTokens (returned h) = 7).
Proof. vm_compute. repeat split. Qed.

(** C10, as stated, fails for the Messages-style handler of package
    [openai_responses]: an empty text delta that is the first event to
    carry a response identifier makes the handler write its two start
    markers. *)
Lemma C10_empty_delta_starts_message :
  let info := RelayInfo.mk "gpt-5" "gpt-5" 0 RelayModeResponses true EmptyString None in
  let snapshot := OpenAIResponsesResponse.mk "resp_1" "gpt-5" "in_progress" 0 [] None in
  let e :=
    ResponsesStreamResponse.mk "response.output_text.delta" (Some snapshot)
      EmptyString None in
  let st :=
    OpenaiResponses.claudeStreamCallback info OpenaiResponses.ClaudeStream.init
      (Line.mk "{}" (Ok e)) in
  map Spec.claude_event_of (OpenaiResponses.ClaudeStream.written st)
    = [Spec.MessageStart; Spec.ContentBlockStart 0]
  /\ OpenaiResponses.ClaudeStream.written st
     <> OpenaiResponses.ClaudeStream.written OpenaiResponses.ClaudeStream.init.
Proof. vm_compute. split; [reflexivity | discriminate]. Qed.

Lemma nonempty_false (s : string) : nonempty s = false -> s = EmptyString.
Proof.
  unfold nonempty. intros H. apply negb_false_iff in H.
  now apply String.eqb_eq in H.
Qed.

Lemma fold_left_invariant {A B : Type} (f : A -> B -> A) (Inv : A -> Prop) :
  (forall a b, Inv a -> Inv (f a b)) ->
  forall l a, Inv a -> Inv (fold_left f l a).
Proof.
  intros Hstep l. induction l as [|b l IH]; intros a Ha; [exact Ha|].
  cbn [fold_left]. apply IH, Hstep, Ha.
Qed.

Lemma claudeStreamCallback_start_pending (info : RelayInfo.t)
  (st : OpenaiResponses.ClaudeStream.t) (line : Line.t) :
  start_pending st ->
  start_pending (OpenaiResponses.claudeStreamCallback info st line).
Proof.
  unfold start_pending, OpenaiResponses.claudeStreamCallback. intros Hinv.
  destruct (Line.parsed line) as [e|err]; [|exact Hinv].
  set (rid := match ResponsesStreamResponse.Response e with
              | Some resp =>
                  if nonempty (OpenAIResponsesResponse.ID resp)
                  then OpenAIResponsesResponse.ID resp
                  else OpenaiResponses.ClaudeStream.responseID st
              | None => OpenaiResponses.ClaudeStream.responseID st
              end).
  assert (Hgoal :
    (if negb (OpenaiResponses.ClaudeStream.messageStartSent st) && nonempty rid
     then true else OpenaiResponses.ClaudeStream.messageStartSent st) = false ->
    rid = EmptyString).
  { destruct (OpenaiResponses.ClaudeStream.messageStartSent st); cbn;
      [discriminate|].
    destruct (nonempty rid) eqn:Hne; [discriminate|].
    intros _. now apply nonempty_false. }
  destruct (ResponsesStreamResponse.Type_ e =? "response.done")%string;
    destruct (ResponsesStreamResponse.Response e); exact Hgoal.
Qed.

Section EmptyDelta.

Variables ItemDone WebSearchCall WebSearchPreview : string.

(** C10 (amended): for a text-delta event whose delta is empty, the
    converters of both targets give nothing; the stream handlers of the
    Chat-style target and of package [claude] write nothing and leave the
    accumulated text as it is; the Messages-style handler of package
    [openai_responses], at any point of a stream, leaves the accumulated
    text as it is and writes no delta: it writes nothing at all, unless
    the event is the first one of the stream to carry a response
    identifier, in which case it writes message start and content-block
    start, and nothing else. *)
Theorem C10_empty_delta (info : RelayInfo.t) (data responseID model : string)
  (e : ResponsesStreamResponse.t) :
  ResponsesStreamResponse.Type_ e = "response.output_text.delta"
  \/ ResponsesStreamResponse.Type_ e = "response.content_part.delta" ->
  ResponsesStreamResponse.Delta e = EmptyString ->
  let line := Line.mk data (Ok e) in
  OpenaiResponses.ConvertResponsesStreamToChatStream e responseID model = None
  /\ Claude.ConvertResponsesStreamToClaudeStream e responseID model = None
  /\ (forall st,
      let st' :=
        OpenaiResponses.chatStreamCallback ItemDone WebSearchCall
          WebSearchPreview info st line in
      OpenaiResponses.ChatStream.written st' = OpenaiResponses.ChatStream.written st
      /\ OpenaiResponses.ChatStream.responseTextBuilder st'
         = OpenaiResponses.ChatStream.responseTextBuilder st)
  /\ (forall st,
      let st' := Claude.claudeStreamCallback info st line in
      Claude.ClaudeStream.written st' = Claude.ClaudeStream.written st
      /\ Claude.ClaudeStream.ResponseText st' = Claude.ClaudeStream.ResponseText st)
  /\ (forall earlier,
      let st :=
        fold_left (OpenaiResponses.claudeStreamCallback info) earlier
          OpenaiResponses.ClaudeStream.init in
      let st' := OpenaiResponses.claudeStreamCallback info st line in
      OpenaiResponses.ClaudeStream.responseTextBuilder st'
        = OpenaiResponses.ClaudeStream.responseTextBuilder st
      /\ (OpenaiResponses.ClaudeStream.messageStartSent st = true
           \/ carries_id e = false ->
          OpenaiResponses.ClaudeStream.written st'
            = OpenaiResponses.ClaudeStream.written st)
      /\ (OpenaiResponses.ClaudeStream.messageStartSent st = false ->
          carries_id e = true ->
          map Spec.claude_event_of (OpenaiResponses.ClaudeStream.written st')
            = map Spec.claude_event_of (OpenaiResponses.ClaudeStream.written st)
                ++ [Spec.MessageStart; Spec.ContentBlockStart 0])).
Proof.
  intros Hty Hdelta. destruct e as [ty response delta item].
  cbn in Hty, Hdelta. subst delta. cbv zeta.
  destruct Hty as [-> | ->].
  all: split; [reflexivity|]; split; [reflexivity|]; split; [|split].
  all: try (intros st;
            unfold OpenaiResponses.chatStreamCallback,
              OpenaiResponses.ConvertResponsesStreamToChatStream,
              Claude.claudeStreamCallback;
            cbn;
            repeat match goal with
            | |- context [if ?b then _ else _] => destruct b
            end;
            cbn; split; reflexivity || apply append_nil_r).
  all: intros earlier;
    set (st := fold_left _ earlier _);
    assert (Hinv : start_pending st)
      by (apply fold_left_invariant;
          [intros a b; apply claudeStreamCallback_start_pending
          | intros _; reflexivity]);
    unfold start_pending in Hinv;
    unfold OpenaiResponses.claudeStreamCallback, carries_id;
    cbn [Line.parsed Line.data ResponsesStreamResponse.Type_
         ResponsesStreamResponse.Response ResponsesStreamResponse.Delta];
    change (nonempty EmptyString) with false;
    try change ("response.output_text.delta" =? "response.done")%string with false;
    try change ("response.content_part.delta" =? "response.done")%string with false;
    rewrite andb_false_r; cbv iota;
    cbn [OpenaiResponses.ClaudeStream.responseTextBuilder
         OpenaiResponses.ClaudeStream.written];
    (split; [reflexivity|]);
    destruct (OpenaiResponses.ClaudeStream.messageStartSent st) eqn:Hsent;
    cbn [negb andb];
    [ split; [reflexivity | discriminate] | ];
    rewrite (Hinv eq_refl);
    destruct response as [resp|];
    [ destruct (nonempty (OpenAIResponsesResponse.ID resp)) eqn:Hne;
      [ rewrite Hne; split; [intros [H|H]; discriminate H|];
        intros _ _; now rewrite map_app
      | change (nonempty EmptyString) with false; cbv iota;
        split; [reflexivity | discriminate] ]
    | change (nonempty EmptyString) with false; cbv iota;
      split; [reflexivity | discriminate] ].
Qed.

End EmptyDelta.

Lemma C10_empty_delta_witness :
  let info := RelayInfo.mk "gpt-5" "gpt-5" 0 RelayModeResponses true EmptyString None in
  let e := ResponsesStreamResponse.mk "response.output_text.delta" None EmptyString None in
  (ResponsesStreamResponse.Type_ e = "response.output_text.delta"
   \/ ResponsesStreamResponse.Type_ e = "response.content_part.delta")
  /\ ResponsesStreamResponse.Delta e = EmptyString
  /\ OpenaiResponses.ConvertResponsesStreamToChatStream e "resp_1" "gpt-5" = None
  /\ Claude.ConvertResponsesStreamToClaudeStream e "resp_1" "gpt-5" = None.
Proof.
  cbv zeta. split; [left; reflexivity|]. split; [reflexivity|].
  pose proof (C10_empty_delta "response.output_item.done" "web_search_call"
                "web_search_preview"
                (RelayInfo.mk "gpt-5" "gpt-5" 0 RelayModeResponses true
                   EmptyString None)
                "{}" "resp_1" "gpt-5"
                (ResponsesStreamResponse.mk "response.output_text.delta" None
                   EmptyString None)
                (or_introl eq_refl) eq_refl) as H.
  cbv zeta in H. destruct H as (H1 & H2 & _). split; [exact H1 | exact H2].
Defined.

(** ** Request translation: the instructions field *)

Lemma cleanInvalidUTF8Chars_valid_text (s : string) :
  Spec.valid_text (Claude.cleanInvalidUTF8Chars s).
Proof.
  destruct (cleanInvalidUTF8Chars_spec s) as (_ & ->).
  exists (List.filter kept (range s)). split; [reflexivity|].
  apply List.Forall_forall. intros r Hr. apply filter_In in Hr.
  apply kept_spec, Hr.
Qed.

(** What [strings.ToValidUTF8] returns is well-formed. *)
Lemma ToValidUTF8_well_formed (s : string) : Spec.well_formed (ToValidUTF8 s).
Proof.
  remember (String.length s) as n eqn:Hn. revert s Hn.
  induction n as [n IH] using (well_founded_induction lt_wf).
  intros s Hn. destruct s as [|c s'] eqn:Es.
  - exists []. split; [reflexivity | constructor].
  - rewrite <- Es.
    destruct (invalid_encoding (DecodeRuneInString s)) eqn:Hinv.
    + assert (ToValidUTF8 s = ToValidUTF8 s') as ->.
      { unfold ToValidUTF8. rewrite Es in *. cbn [ToValidUTF8_from].
        now rewrite Hinv. }
      apply (IH (String.length s')); [subst n; cbn; lia | reflexivity].
    + destruct (Decode_accepts s) as (r & t & Hr & Hst);
        [rewrite Es; discriminate | exact Hinv |].
      destruct (over_encoding r t Hr) as (_ & _ & Hto).
      destruct (Decode_Encode r t Hr) as (_ & Hlen & _).
      rewrite Hst, Hto.
      destruct (IH (String.length t)) with (s := t) as (rs & Ht & Hrs);
        [|reflexivity|].
      * rewrite Hn, <- Es, Hst, append_length. lia.
      * exists (r :: rs). split; [now rewrite utf8_cons, Ht|].
        constructor; [now apply ValidRune_spec | exact Hrs].
Qed.

(** On well-formed text [strings.ToValidUTF8] changes nothing. *)
Lemma ToValidUTF8_valid (s : string) : ValidString s = true -> ToValidUTF8 s = s.
Proof.
  intros H. destruct (ValidString_decompose s H) as (rs & Hrs & ->).
  now apply ToValidUTF8_utf8.
Qed.

Section Instructions.

Context {marshal_string : Marshaler string}.
Context {marshal_any : Marshaler any}.
Context {marshal_inputs : Marshaler (list Input.t)}.
Context {marshal_tools : Marshaler (list any)}.
Context {marshal_bool : Marshaler bool}.
Variable json_Valid : string -> bool.

Lemma skip_not_system (before : list Message.t) (rest : list Message.t) :
  Forall not_system before ->
  Claude.extractSystemMessageFromClaude (before ++ rest)
    = Claude.extractSystemMessageFromClaude rest
  /\ OpenaiResponses.extractSystemMessage (before ++ rest)
    = OpenaiResponses.extractSystemMessage rest.
Proof.
  induction 1 as [|m before Hm _ IH]; [split; reflexivity|].
  rewrite <- app_comm_cons.
  cbn [Claude.extractSystemMessageFromClaude OpenaiResponses.extractSystemMessage].
  apply String.eqb_neq in Hm. rewrite Hm. exact IH.
Qed.

Lemma bind_ok {A B : Type} (r : result A) (k : A -> result B) (b : B) :
  bind r k = Ok b -> exists a, r = Ok a /\ k a = Ok b.
Proof. destruct r as [a|e]; [eauto | discriminate]. Qed.

Lemma wrap_err_ok {A : Type} (msg : string) (r : result A) (a : A) :
  wrap_err msg r = Ok a -> r = Ok a.
Proof. destruct r; [now intros [= ->] | discriminate]. Qed.

Ltac binds H :=
  repeat match type of H with
  | bind _ _ = Ok _ =>
      let x := fresh "x" in let Hx := fresh "Hx" in
      apply bind_ok in H; destruct H as (x & Hx & H)
  end.

Lemma claude_instructions (req : GeneralOpenAIRequest.t) (info : RelayInfo.t)
  (r : OpenAIResponsesRequest.t) :
  Claude.ClaudeMessagesToResponsesRequest (Some req) info = Ok r ->
  let systemMessage :=
    Claude.extractSystemMessageFromClaude (GeneralOpenAIRequest.Messages req) in
  match OpenAIResponsesRequest.Instructions r with
  | Some encoded =>
      systemMessage <> EmptyString /\ json_Marshal systemMessage = Ok encoded
  | None => systemMessage = EmptyString
  end.
Proof.
  unfold Claude.ClaudeMessagesToResponsesRequest.
  destruct (negb (nonempty (GeneralOpenAIRequest.Model req))); [discriminate|].
  intros H. binds H. injection H as <-. cbn [OpenAIResponsesRequest.Instructions].
  destruct (nonempty _) eqn:Hne in Hx.
  - binds Hx. injection Hx as <-.
    match goal with
    | Hm : wrap_err "failed to marshal instructions" _ = Ok _ |- _ =>
        apply wrap_err_ok in Hm; split; [|exact Hm]
    end.
    intros E. rewrite E in Hne. discriminate Hne.
  - injection Hx as <-. now apply nonempty_false.
Qed.

Lemma chat_instructions_absent (req : GeneralOpenAIRequest.t) (info : RelayInfo.t)
  (r : OpenAIResponsesRequest.t) :
  OpenaiResponses.ChatCompletionsToResponsesRequest json_Valid (Some req) info = Ok r ->
  OpenaiResponses.extractSystemMessage (GeneralOpenAIRequest.Messages req)
    = EmptyString ->
  OpenAIResponsesRequest.Instructions r = None.
Proof.
  unfold OpenaiResponses.ChatCompletionsToResponsesRequest.
  destruct (negb (nonempty (GeneralOpenAIRequest.Model req))); [discriminate|].
  intros H E. rewrite E in H. change (nonempty EmptyString) with false in H.
  cbv iota in H. cbn [bind] in H. binds H. injection H as <-. reflexivity.
Qed.

(** C5 (amended): request translation takes the instructions from the
    first system-role entry.  In the translator of package [claude], a
    plain-string content that is well-formed UTF-8 is used as it is,
    control characters included, and one that is not well-formed is passed
    through [cleanInvalidUTF8Chars], which leaves valid text; a structured
    content is JSON-encoded and the bytes are sanitized with
    [cleanInvalidUTF8Bytes], which leaves well-formed UTF-8 (the translator
    skips the call when the bytes are well-formed already, and then the
    call would change nothing).  The instructions field of the
    translated request is the JSON encoding of the text so extracted, and it
    is absent when that text is empty.  When no system-role entry exists,
    the request translated by either translator carries no instructions
    field. *)
Theorem C5_instructions (before after : list Message.t) (m : Message.t) :
  Forall not_system before ->
  Message.Role m = "system" ->
  let extracted :=
    Claude.extractSystemMessageFromClaude (before ++ m :: after) in
  (forall str,
     Message.Content m = AString str ->
     extracted
       = (if ValidString str then str else Claude.cleanInvalidUTF8Chars str)
     /\ (ValidString str = false -> Spec.valid_text extracted))
  /\ (forall encoded,
     (forall str, Message.Content m <> AString str) ->
     json_Marshal (Message.Content m) = Ok encoded ->
     extracted = Claude.cleanInvalidUTF8Bytes encoded
     /\ Spec.well_formed extracted)
  /\ (forall req info r,
     Claude.ClaudeMessagesToResponsesRequest (Some req) info = Ok r ->
     let systemMessage :=
       Claude.extractSystemMessageFromClaude (GeneralOpenAIRequest.Messages req) in
     match OpenAIResponsesRequest.Instructions r with
     | Some encoded =>
         systemMessage <> EmptyString /\ json_Marshal systemMessage = Ok encoded
     | None => systemMessage = EmptyString
     end)
  /\ (forall req info r,
     Forall not_system (GeneralOpenAIRequest.Messages req) ->
     (Claude.ClaudeMessagesToResponsesRequest (Some req) info = Ok r ->
      OpenAIResponsesRequest.Instructions r = None)
     /\ (OpenaiResponses.ChatCompletionsToResponsesRequest json_Valid
          (Some req) info = Ok r ->
        OpenAIResponsesRequest.Instructions r = None)).
Proof.
  intros Hbefore Hm. cbv zeta.
  destruct (skip_not_system before (m :: after) Hbefore) as (-> & _).
  cbn [Claude.extractSystemMessageFromClaude]. rewrite Hm.
  change ("system" =? "system")%string with true. cbv iota.
  split; [|split; [|split]].
  - intros str ->. unfold Claude.isValidUTF8String.
    destruct (ValidString str); cbn [negb]; split; try reflexivity;
      [discriminate | intros _; apply cleanInvalidUTF8Chars_valid_text].
  - intros encoded Hns He.
    assert (Hx :
      match Message.Content m with
      | AString str =>
          if negb (Claude.isValidUTF8String str)
          then Claude.cleanInvalidUTF8Chars str else str
      | _ =>
          match json_Marshal (Message.Content m) with
          | Ok contentBytes =>
              if negb (Claude.isValidUTF8Bytes contentBytes)
              then Claude.cleanInvalidUTF8Bytes contentBytes else contentBytes
          | Err _ => Claude.extractSystemMessageFromClaude after
          end
      end = Claude.cleanInvalidUTF8Bytes encoded).
    { destruct (Message.Content m) eqn:Ec; try (now elim (Hns s));
        rewrite He; unfold Claude.isValidUTF8Bytes, Claude.cleanInvalidUTF8Bytes;
        destruct (Valid encoded) eqn:Hv; cbn [negb]; try reflexivity;
        symmetry; now apply ToValidUTF8_valid. }
    split.
    + destruct (Message.Content m); exact Hx.
    + destruct (Message.Content m); rewrite Hx;
        apply ToValidUTF8_well_formed.
  - intros req info r. apply claude_instructions.
  - intros req info r Hnone.
    destruct (skip_not_system (GeneralOpenAIRequest.Messages req) [] Hnone)
      as (Hc & Ho).
    rewrite app_nil_r in Hc, Ho. cbn in Hc, Ho. split.
    + intros H. pose proof (claude_instructions req info r H) as Hi.
      cbv zeta in Hi. rewrite Hc in Hi.
      destruct (OpenAIResponsesRequest.Instructions r); [|reflexivity].
      now destruct Hi.
    + intros H. now apply (chat_instructions_absent req info r H).
Qed.

End Instructions.

(** C5, as stated, fails: the translator of package [claude] takes a
    system message that holds a control character, and is well-formed
    UTF-8, as it is; sanitizing would remove the control character. *)
Lemma C5_control_character_kept :
  let messages := [Message.mk "system" (AString a_SOH_b)] in
  let extracted :=
    @Claude.extractSystemMessageFromClaude (refusing any) messages in
  extracted = a_SOH_b
  /\ Claude.cleanInvalidUTF8Chars a_SOH_b = "ab"
  /\ extracted <> Claude.cleanInvalidUTF8Chars a_SOH_b.
Proof. vm_compute. repeat split. discriminate. Qed.

Lemma C5_instructions_witness :
  let m := Message.mk "system" (AString "be nice") in
  let after := [Message.mk "user" (AString "hi")] in
  Forall not_system [] /\ Message.Role m = "system"
  /\ @Claude.extractSystemMessageFromClaude (refusing any) ([] ++ m :: after)
     = "be nice".
Proof.
  cbv zeta. split; [constructor|]. split; [reflexivity|].
  destruct (@C5_instructions (refusing string) (refusing any)
              (refusing (list Input.t)) (refusing (list any)) (refusing bool)
              (fun _ => false) []
              [Message.mk "user" (AString "hi")]
              (Message.mk "system" (AString "be nice"))
              (List.Forall_nil _) eq_refl) as (H & _).
  destruct (H "be nice" eq_refl) as (-> & _). reflexivity.
Defined.

(** ** Smart routing *)

(** C4, as stated, fails at the nil payload: translation fails with
    [claude request is nil], and the router does not fall back to the
    native converter, it returns the error [request is nil]. *)
Lemma C4_nil_request_is_rejected :
  let a := Claude.mkAdaptor Claude.RequestModeMessage in
  let info :=
    RelayInfo.mk "gpt-5" "claude-3-opus" 0 (RelayModeOther 0) false EmptyString None in
  Claude.shouldRouteToResponses (RelayInfo.OriginModelName info) = true
  /\ @Claude.ClaudeMessagesToResponsesRequest (refusing string) (refusing any)
       (refusing (list Input.t)) (refusing (list any)) (refusing bool)
       None info = Err "claude request is nil"
  /\ outcome
       (@Claude.ConvertOpenAIRequest (refusing string) (refusing any)
          (refusing (list Input.t)) (refusing (list any)) (refusing bool)
          a ∅ info None)
     = Err "request is nil".
Proof. repeat split. Qed.

Section Routing.

Context {marshal_string : Marshaler string}.
Context {marshal_any : Marshaler any}.
Context {marshal_inputs : Marshaler (list Input.t)}.
Context {marshal_tools : Marshaler (list any)}.
Context {marshal_bool : Marshaler bool}.
Variable json_Valid : string -> bool.

(** C4 (amended): translation of a nil payload fails with an input
    error, in every translator, and every router rejects a nil payload
    with an error of its own, leaving the request context and the relay
    info untouched: there is no fallback for it.  For a payload that is
    not nil and a model that the router of package [claude] routes to the
    Responses dialect, whenever translation fails the router returns what
    the native converter of its request mode returns on the same request,
    within the same call, and leaves the relay mode as it was.  The routers
    of package [openai_responses] have no native converter to fall back
    to: whenever translation fails they return the translation error,
    wrapped. *)
Theorem C4_smart_routing (a : Claude.Adaptor) (c : gmap string ctxValue)
  (info : RelayInfo.t) :
  (Claude.ClaudeMessagesToResponsesRequest None info = Err "claude request is nil"
   /\ OpenaiResponses.ClaudeMessagesToResponsesRequest None info
      = Err "claude request is nil"
   /\ OpenaiResponses.ChatCompletionsToResponsesRequest json_Valid None info
      = Err "chat request is nil")
  /\ (Claude.ConvertOpenAIRequest a c info None
      = mkRouted (Err "request is nil") c info
      /\ OpenaiResponses.ConvertClaudeRequest c info None
         = mkRouted (Err "claude request is nil") c info
      /\ OpenaiResponses.ConvertOpenAIRequest json_Valid c info None
         = mkRouted (Err "request is nil") c info)
  /\ (forall req e,
      Claude.shouldRouteToResponses (RelayInfo.OriginModelName info) = true ->
      Claude.ClaudeMessagesToResponsesRequest (Some req) info = Err e ->
      Claude.ConvertOpenAIRequest a c info (Some req)
      = mkRouted
          (Ok (if Claude.RequestMode a =? Claude.RequestModeCompletion
               then Claude.RequestOpenAI2ClaudeComplete req
               else Claude.RequestOpenAI2ClaudeMessage (marked c req) req))
          (marked c req) info)
  /\ (forall req e,
      OpenaiResponses.ClaudeMessagesToResponsesRequest (Some req) info = Err e ->
      outcome (OpenaiResponses.ConvertClaudeRequest c info (Some req))
      = Err (if nonempty (ClaudeRequest.Model req)
             then "failed to convert claude messages request: " +:+ e
             else "model is required"))
  /\ (forall req e,
      RelayInfo.RelayMode_ info = RelayModeChatCompletions ->
      OpenaiResponses.ChatCompletionsToResponsesRequest json_Valid (Some req) info
        = Err e ->
      outcome (OpenaiResponses.ConvertOpenAIRequest json_Valid c info (Some req))
      = Err ("failed to convert chat completions request: " +:+ e)).
Proof.
  split; [repeat split|]. split; [repeat split|]. split; [|split].
  - intros req e Hroute He.
    unfold Claude.ConvertOpenAIRequest, Claude.native, marked.
    now rewrite Hroute, He.
  - intros req e He. unfold OpenaiResponses.ConvertClaudeRequest.
    destruct (nonempty (ClaudeRequest.Model req)); cbn [negb]; [|reflexivity].
    now rewrite He.
  - intros req e Hmode He. unfold OpenaiResponses.ConvertOpenAIRequest.
    now rewrite Hmode, He.
Qed.

End Routing.

(** A request without a model, for a model name that is routed: the
    translation fails and the native converter takes over. *)
Lemma C4_smart_routing_witness :
  let a := Claude.mkAdaptor Claude.RequestModeMessage in
  let info :=
    RelayInfo.mk "gpt-5" "claude-3-opus" 0 (RelayModeOther 0) false EmptyString None in
  let req :=
    GeneralOpenAIRequest.mk EmptyString [] false 0 0 EmptyString None 0%float
      [] ANil None EmptyString in
  Claude.shouldRouteToResponses (RelayInfo.OriginModelName info) = true
  /\ @Claude.ClaudeMessagesToResponsesRequest (refusing string) (refusing any)
       (refusing (list Input.t)) (refusing (list any)) (refusing bool)
       (Some req) info = Err "model is required"
  /\ outcome
       (@Claude.ConvertOpenAIRequest (refusing string) (refusing any)
          (refusing (list Input.t)) (refusing (list any)) (refusing bool)
          a ∅ info (Some req))
     = Ok (Claude.RequestOpenAI2ClaudeMessage (marked ∅ req) req).
Proof.
  cbv zeta. split; [reflexivity|]. split; [reflexivity|].
  destruct (@C4_smart_routing (refusing string) (refusing any)
              (refusing (list Input.t)) (refusing (list any)) (refusing bool)
              (fun _ => false)
              (Claude.mkAdaptor Claude.RequestModeMessage) ∅
              (RelayInfo.mk "gpt-5" "claude-3-opus" 0 (RelayModeOther 0) false
                 EmptyString None))
    as (_ & _ & H & _).
  rewrite (H (GeneralOpenAIRequest.mk EmptyString [] false 0 0 EmptyString None
                0%float [] ANil None EmptyString)
             "model is required" eq_refl eq_refl).
  reflexivity.
Defined.

(** ** Further observations *)

(** The Messages-style stream handler of package [openai_responses] does
    not consult the status of the terminal event: the stop reason it
    writes is [end_turn] also for the status [incomplete]. *)
Example stream_stop_reason_is_end_turn :
  let info := RelayInfo.mk "gpt-5" "gpt-5" 0 RelayModeResponses true EmptyString None in
  let snapshot := OpenAIResponsesResponse.mk "resp_1" "gpt-5" "incomplete" 0 [] None in
  let st :=
    OpenaiResponses.claudeStreamCallback info OpenaiResponses.ClaudeStream.init
      (Line.mk "{}"
         (Ok (ResponsesStreamResponse.mk "response.done" (Some snapshot)
                EmptyString None))) in
  map Spec.claude_event_of (OpenaiResponses.ClaudeStream.written st)
  = [ Spec.MessageStart; Spec.ContentBlockStart 0; Spec.ContentBlockStop 0;
      Spec.MessageDelta "end_turn"; Spec.MessageStop ]
  /\ OpenaiResponses.extractClaudeStopReason "incomplete" = "max_tokens".
Proof. vm_compute. split; reflexivity. Qed.

(** [cleanInvalidUTF8Chars] does not drop an invalid byte: the loop
    variable of [range] is U+FFFD there, a valid rune, which is written
    back in its three-byte encoding. *)
Example invalid_byte_becomes_replacement :
  let invalid := String (ascii_of_nat 255) EmptyString in
  ValidString invalid = false
  /\ range invalid = [RuneError]
  /\ OpenaiResponses.cleanInvalidUTF8Chars invalid = EncodeRune RuneError
  /\ String.length (OpenaiResponses.cleanInvalidUTF8Chars invalid) = 3%nat.
Proof. vm_compute. repeat split. Qed.

(** The Chat-request translator takes the content of the system message
    as it is. *)
Example chat_system_message_as_is :
  @OpenaiResponses.extractSystemMessage (refusing any)
    [Message.mk "system" (AString a_SOH_b)] = a_SOH_b.
Proof. reflexivity. Qed.

(** * Further properties of the code *)

(** ** The sanitizers *)

Lemma Decode_rune_valid (s : string) :
  s <> EmptyString -> ValidRune (fst (DecodeRuneInString s)) = true.
Proof.
  intros Hne. destruct (invalid_encoding (DecodeRuneInString s)) eqn:Hinv.
  - unfold invalid_encoding in Hinv. apply andb_true_iff in Hinv as (H & _).
    apply Z.eqb_eq in H. now rewrite H.
  - destruct (Decode_accepts s Hne Hinv) as (r & t & Hr & ->).
    destruct (Decode_Encode r t Hr) as (-> & _). exact Hr.
Qed.

(** The loop variable of [range] is a valid rune at every step. *)
Lemma range_from_valid (s : string) (k : nat) :
  Forall (fun r => ValidRune r = true) (range_from k s).
Proof.
  revert k. induction s as [|c s IH]; intros k; [constructor|].
  cbn [range_from]. destruct k as [|k]; [|apply IH].
  constructor; [apply Decode_rune_valid; discriminate | apply IH].
Qed.

Lemma filter_kept_range (s : string) :
  List.filter kept (range s)
  = List.filter (fun r => negb (disallowed_control r)) (range s).
Proof.
  unfold range. generalize (range_from_valid s 0).
  induction 1 as [|r rs Hr _ IH]; [reflexivity|].
  cbn [List.filter]. unfold kept at 1, disallowed_control at 1.
  rewrite Hr. cbn [andb]. now rewrite IH.
Qed.

Lemma filter_all {A : Type} (f : A -> bool) (l : list A) :
  forallb f l = true -> List.filter f l = l.
Proof.
  induction l as [|x l IH]; [reflexivity|].
  cbn [forallb List.filter]. intros H. apply andb_true_iff in H as (-> & H).
  now rewrite IH.
Qed.

Lemma clean_is_accepted (s : string) :
  OpenaiResponses.isValidUTF8String (OpenaiResponses.cleanInvalidUTF8Chars s) = true.
Proof.
  destruct (cleanInvalidUTF8Chars_spec s) as (-> & _).
  unfold OpenaiResponses.isValidUTF8String.
  rewrite isValidUTF8String_loop_spec.
  rewrite range_utf8 by apply filter_kept_valid.
  assert (forallb kept (List.filter kept (range s)) = true) as ->.
  { apply forallb_forall. intros r Hr. now apply filter_In in Hr. }
  apply ValidString_utf8, filter_kept_valid.
Qed.

Lemma clean_keeps_accepted (s : string) :
  OpenaiResponses.isValidUTF8String s = true ->
  OpenaiResponses.cleanInvalidUTF8Chars s = s.
Proof.
  unfold OpenaiResponses.isValidUTF8String.
  rewrite isValidUTF8String_loop_spec.
  destruct (forallb kept (range s)) eqn:Hk; [|discriminate].
  intros Hv. destruct (cleanInvalidUTF8Chars_spec s) as (-> & _).
  rewrite (filter_all _ _ Hk).
  destruct (ValidString_decompose s Hv) as (rs & Hrs & ->).
  now rewrite range_utf8.
Qed.

Lemma ToValidUTF8_from_length (s : string) (k : nat) :
  (String.length (ToValidUTF8_from k s) <= String.length s)%nat.
Proof.
  revert k. induction s as [|c s IH]; intros k; [reflexivity|].
  cbn [ToValidUTF8_from]. destruct k as [|k].
  - destruct (invalid_encoding _); cbn [String.length].
    + specialize (IH 0%nat). lia.
    + specialize (IH (Nat.pred (snd (DecodeRuneInString (String c s))))). lia.
  - cbn [String.length]. specialize (IH k). lia.
Qed.

Lemma ToValidUTF8_accepted (b : string) : ValidString (ToValidUTF8 b) = true.
Proof. apply ValidString_spec, ToValidUTF8_well_formed. Qed.

(** The guarded calls of the sanitizers, as the translators and the
    handlers write them, amount to the calls without the guard. *)
Lemma sanitized_accepted (str : string) :
  OpenaiResponses.isValidUTF8String
    (if negb (OpenaiResponses.isValidUTF8String str)
     then OpenaiResponses.cleanInvalidUTF8Chars str else str) = true.
Proof.
  destruct (OpenaiResponses.isValidUTF8String str) eqn:E; cbn [negb]; cbv iota;
    [exact E | apply clean_is_accepted].
Qed.

Lemma sanitized_clean (str : string) :
  (if negb (OpenaiResponses.isValidUTF8String str)
   then OpenaiResponses.cleanInvalidUTF8Chars str else str)
  = OpenaiResponses.cleanInvalidUTF8Chars str.
Proof.
  destruct (OpenaiResponses.isValidUTF8String str) eqn:E; cbn [negb]; cbv iota;
    [|reflexivity].
  symmetry. now apply clean_keeps_accepted.
Qed.

Lemma sanitized_bytes (b : string) :
  (if negb (Valid b) then ToValidUTF8 b else b) = ToValidUTF8 b.
Proof.
  unfold Valid. destruct (ValidString b) eqn:E; cbn [negb]; cbv iota; [|reflexivity].
  symmetry. now apply ToValidUTF8_valid.
Qed.

(** X1: the runes of the string that [cleanInvalidUTF8Chars] returns are
    the runes that the [range] loop reads from its argument (U+FFFD for
    every byte that is not part of a well-formed encoding), in order,
    without the control characters other than CR, LF and TAB.  Nothing is
    left out for being invalid: the test with [utf8.ValidRune] never
    fails, in either package. *)
Theorem X1_sanitized_runes (s : string) :
  range (OpenaiResponses.cleanInvalidUTF8Chars s)
    = List.filter (fun r => negb (disallowed_control r)) (range s)
  /\ range (Claude.cleanInvalidUTF8Chars s)
    = List.filter (fun r => negb (disallowed_control r)) (range s)
  /\ Forall (fun r => ValidRune r = true) (range s).
Proof.
  destruct (cleanInvalidUTF8Chars_spec s) as (-> & ->).
  rewrite range_utf8 by apply filter_kept_valid.
  repeat split; try apply filter_kept_range. apply range_from_valid.
Qed.

(** X2: [isValidUTF8String] of package [openai_responses] accepts every
    string that [cleanInvalidUTF8Chars] returns, and the strings that
    [cleanInvalidUTF8Chars] leaves unchanged are exactly the strings that
    [isValidUTF8String] accepts. *)
Theorem X2_sanitizer_agrees_with_validator (s : string) :
  OpenaiResponses.isValidUTF8String (OpenaiResponses.cleanInvalidUTF8Chars s) = true
  /\ (OpenaiResponses.cleanInvalidUTF8Chars s = s
      <-> OpenaiResponses.isValidUTF8String s = true).
Proof.
  split; [apply clean_is_accepted|]. split.
  - intros H. rewrite <- H. apply clean_is_accepted.
  - apply clean_keeps_accepted.
Qed.

(** X3: [isValidUTF8Bytes] accepts the bytes that [cleanInvalidUTF8Bytes]
    returns; [cleanInvalidUTF8Bytes] leaves exactly the accepted byte
    strings unchanged; it never returns more bytes than it was given; and
    the two packages define the same function. *)
Theorem X3_sanitized_bytes (b : string) :
  OpenaiResponses.isValidUTF8Bytes (OpenaiResponses.cleanInvalidUTF8Bytes b) = true
  /\ (OpenaiResponses.cleanInvalidUTF8Bytes b = b
      <-> OpenaiResponses.isValidUTF8Bytes b = true)
  /\ (String.length (OpenaiResponses.cleanInvalidUTF8Bytes b) <= String.length b)%nat
  /\ Claude.cleanInvalidUTF8Bytes b = OpenaiResponses.cleanInvalidUTF8Bytes b
  /\ Claude.isValidUTF8Bytes b = OpenaiResponses.isValidUTF8Bytes b.
Proof.
  unfold OpenaiResponses.isValidUTF8Bytes, OpenaiResponses.cleanInvalidUTF8Bytes,
    Claude.cleanInvalidUTF8Bytes, Claude.isValidUTF8Bytes, Valid.
  split; [apply ToValidUTF8_accepted|]. split; [|split; [|split]].
  - split; [intros H; rewrite <- H; apply ToValidUTF8_accepted
           | apply ToValidUTF8_valid].
  - apply ToValidUTF8_from_length.
  - reflexivity.
  - reflexivity.
Qed.

(** ** Request translation: inputs, content blocks and instructions *)

Ltac open_binds H :=
  repeat match type of H with
  | bind _ _ = Ok _ =>
      let x := fresh "x" in let Hx := fresh "Hx" in
      apply bind_ok in H; destruct H as (x & Hx & H)
  end.

Lemma mirrors_nil {M : Type} (role : M -> string) (content : M -> any) :
  mirrors role content [] [].
Proof. repeat split. constructor. Qed.

Lemma mirrors_snoc {M : Type} (role : M -> string) (content : M -> any)
  (messages : list M) (inputs : list Input.t) (m : M) (c : option string) :
  mirrors role content messages inputs ->
  input_has_content (Input.mk "message" (role m) c) = has_content (content m) ->
  mirrors role content (messages ++ [m]) (inputs ++ [Input.mk "message" (role m) c]).
Proof.
  intros (Hr & Hc & Ht) Hm. unfold mirrors.
  rewrite !List.map_app, Hr, Hc. cbn [map Input.Role].
  rewrite Hm. repeat split. apply List.Forall_app. split; [exact Ht|].
  repeat constructor.
Qed.

Lemma filter_not_system_snoc (seen : list Message.t) (m : Message.t) (keep : bool) :
  is_system m = negb keep ->
  List.filter (fun m => negb (is_system m)) (seen ++ [m])
  = List.filter (fun m => negb (is_system m)) seen ++ (if keep then [m] else []).
Proof.
  intros Hk. rewrite List.filter_app. cbn [List.filter]. rewrite Hk.
  now destruct keep.
Qed.

Section Inputs.

Context {marshal_string : Marshaler string}.
Context {marshal_any : Marshaler any}.

Lemma chat_inputs_loop (messages : list Message.t) :
  forall (seen : list Message.t) (acc inputs : list Input.t),
  OpenaiResponses.convertMessagesToInputs_loop messages acc = Ok inputs ->
  mirrors Message.Role Message.Content
    (List.filter (fun m => negb (is_system m)) seen) acc ->
  mirrors Message.Role Message.Content
    (List.filter (fun m => negb (is_system m)) (seen ++ messages)) inputs.
Proof.
  induction messages as [|m rest IH]; intros seen acc inputs H Hacc.
  - injection H as <-. now rewrite app_nil_r.
  - cbn [OpenaiResponses.convertMessagesToInputs_loop] in H.
    replace (seen ++ m :: rest) with ((seen ++ [m]) ++ rest)
      by now rewrite <- app_assoc.
    fold (is_system m) in H. destruct (is_system m) eqn:Es.
    + apply (IH (seen ++ [m]) acc inputs H).
      rewrite (filter_not_system_snoc seen m false Es). now rewrite app_nil_r.
    + destruct (Message.Content m) eqn:Ec;
        try (open_binds H;
             match type of H with
             | (if ?b then _ else _) = _ => destruct b; [discriminate|]
             | _ => idtac
             end);
        apply (IH (seen ++ [m]) _ inputs H);
        rewrite (filter_not_system_snoc seen m true Es);
        apply mirrors_snoc; try exact Hacc; now rewrite Ec.
Qed.

Lemma package_inputs_loop (messages : list Message.t) :
  forall (seen : list Message.t) (acc inputs : list Input.t),
  Claude.convertClaudeMessagesToInputs_loop messages acc = Ok inputs ->
  mirrors Message.Role Message.Content
    (List.filter (fun m => negb (is_system m)) seen) acc ->
  mirrors Message.Role Message.Content
    (List.filter (fun m => negb (is_system m)) (seen ++ messages)) inputs.
Proof.
  induction messages as [|m rest IH]; intros seen acc inputs H Hacc.
  - injection H as <-. now rewrite app_nil_r.
  - cbn [Claude.convertClaudeMessagesToInputs_loop] in H.
    replace (seen ++ m :: rest) with ((seen ++ [m]) ++ rest)
      by now rewrite <- app_assoc.
    fold (is_system m) in H. destruct (is_system m) eqn:Es.
    + apply (IH (seen ++ [m]) acc inputs H).
      rewrite (filter_not_system_snoc seen m false Es). now rewrite app_nil_r.
    + destruct (Message.Content m) eqn:Ec;
        try (open_binds H;
             match type of H with
             | (if ?b then _ else _) = _ => destruct b; [discriminate|]
             | _ => idtac
             end);
        apply (IH (seen ++ [m]) _ inputs H);
        rewrite (filter_not_system_snoc seen m true Es);
        apply mirrors_snoc; try exact Hacc; now rewrite Ec.
Qed.

Lemma claude_inputs_loop (messages : list ClaudeMessage.t) :
  forall (seen : list ClaudeMessage.t) (acc inputs : list Input.t),
  OpenaiResponses.convertClaudeMessagesToInputs_loop messages acc = Ok inputs ->
  mirrors ClaudeMessage.Role ClaudeMessage.Content seen acc ->
  mirrors ClaudeMessage.Role ClaudeMessage.Content (seen ++ messages) inputs.
Proof.
  induction messages as [|m rest IH]; intros seen acc inputs H Hacc.
  - injection H as <-. now rewrite app_nil_r.
  - cbn [OpenaiResponses.convertClaudeMessagesToInputs_loop] in H.
    replace (seen ++ m :: rest) with ((seen ++ [m]) ++ rest)
      by now rewrite <- app_assoc.
    destruct (ClaudeMessage.Content m) eqn:Ec;
      try (open_binds H;
           match type of H with
           | (if ?b then _ else _) = _ => destruct b; [discriminate|]
           | _ => idtac
           end);
      apply (IH (seen ++ [m]) _ inputs H);
      apply mirrors_snoc; try exact Hacc; now rewrite Ec.
Qed.

(** X4: when [convertMessagesToInputs] (and the copy of it in package
    [claude], [convertClaudeMessagesToInputs]) returns inputs, they are
    the messages whose role is not [system], one input of type [message]
    per message and in the same order, each with the role of its message,
    and with a content exactly when the message's content is not [nil]. *)
Theorem X4_inputs_mirror_messages (messages : list Message.t)
  (inputs : list Input.t) :
  OpenaiResponses.convertMessagesToInputs messages = Ok inputs
  \/ Claude.convertClaudeMessagesToInputs messages = Ok inputs ->
  mirrors Message.Role Message.Content
    (List.filter (fun m => negb (is_system m)) messages) inputs.
Proof.
  intros [H | H].
  - apply (chat_inputs_loop messages [] [] inputs H), mirrors_nil.
  - apply (package_inputs_loop messages [] [] inputs H), mirrors_nil.
Qed.

(** X5: when [convertClaudeMessagesToInputs] of package
    [openai_responses] returns inputs, there is one input of type
    [message] per message of the Messages request, in the same order and
    with the same role; no message is left out, whatever its role. *)
Theorem X5_claude_inputs_mirror_messages (messages : list ClaudeMessage.t)
  (inputs : list Input.t) :
  OpenaiResponses.convertClaudeMessagesToInputs messages = Ok inputs ->
  mirrors ClaudeMessage.Role ClaudeMessage.Content messages inputs.
Proof.
  intros H. apply (claude_inputs_loop messages [] [] inputs H), mirrors_nil.
Qed.

(** X6: with an encoder that does not refuse a string that
    [isValidUTF8String] accepts, the two message loops of package
    [openai_responses] return inputs for every list of messages whose
    contents are strings or [nil]: a string content is sanitized before it
    is encoded, so that no such message makes the translation fail. *)
Theorem X6_plain_messages_convert (messages : list Message.t)
  (claudeMessages : list ClaudeMessage.t) :
  (forall s, OpenaiResponses.isValidUTF8String s = true ->
             exists b, json_Marshal s = Ok b) ->
  Forall (fun m => plain (Message.Content m)) messages ->
  Forall (fun m => plain (ClaudeMessage.Content m)) claudeMessages ->
  (exists inputs, OpenaiResponses.convertMessagesToInputs messages = Ok inputs)
  /\ (exists inputs,
        OpenaiResponses.convertClaudeMessagesToInputs claudeMessages = Ok inputs).
Proof.
  intros Hm H1 H2. split.
  - unfold OpenaiResponses.convertMessagesToInputs. generalize (@nil Input.t).
    induction H1 as [|m rest Hp _ IH]; intros acc; [now exists acc|].
    cbn [OpenaiResponses.convertMessagesToInputs_loop].
    destruct (Message.Role m =? "system")%string; [apply IH|].
    destruct (Message.Content m) as [| | |str| |]; try contradiction; [apply IH|].
    destruct (Hm _ (sanitized_accepted str)) as (b & ->). apply IH.
  - unfold OpenaiResponses.convertClaudeMessagesToInputs. generalize (@nil Input.t).
    induction H2 as [|m rest Hp _ IH]; intros acc; [now exists acc|].
    cbn [OpenaiResponses.convertClaudeMessagesToInputs_loop].
    destruct (ClaudeMessage.Content m) as [| | |str| |]; try contradiction;
      [apply IH|].
    destruct (Hm _ (sanitized_accepted str)) as (b & ->). apply IH.
Qed.

(** X7: [extractClaudeSystemMessage] returns the empty string for a [nil]
    system field; for a string it returns [cleanInvalidUTF8Chars] of the
    string, which [isValidUTF8String] accepts; for any other value it
    returns [cleanInvalidUTF8Bytes] of the value's JSON encoding, which
    [isValidUTF8Bytes] accepts, and it fails, with the encoder's error
    wrapped, exactly when the encoder fails. *)
Theorem X7_claude_system_message (system : any) :
  match system with
  | ANil => OpenaiResponses.extractClaudeSystemMessage system = Ok EmptyString
  | AString str =>
      OpenaiResponses.extractClaudeSystemMessage system
        = Ok (OpenaiResponses.cleanInvalidUTF8Chars str)
      /\ OpenaiResponses.isValidUTF8String
           (OpenaiResponses.cleanInvalidUTF8Chars str) = true
  | _ =>
      match json_Marshal system with
      | Ok systemBytes =>
          OpenaiResponses.extractClaudeSystemMessage system
            = Ok (OpenaiResponses.cleanInvalidUTF8Bytes systemBytes)
          /\ OpenaiResponses.isValidUTF8Bytes
               (OpenaiResponses.cleanInvalidUTF8Bytes systemBytes) = true
      | Err e =>
          OpenaiResponses.extractClaudeSystemMessage system
            = Err ("failed to marshal system message: " +:+ e)
      end
  end.
Proof.
  assert (Hb : forall b,
    (if negb (OpenaiResponses.isValidUTF8Bytes b)
     then OpenaiResponses.cleanInvalidUTF8Bytes b else b)
    = OpenaiResponses.cleanInvalidUTF8Bytes b) by apply sanitized_bytes.
  destruct system as [|b|f|str|l|m]; cbn [OpenaiResponses.extractClaudeSystemMessage].
  - reflexivity.
  - destruct (json_Marshal (ABool b)); cbn;
      [rewrite Hb; split; [reflexivity | apply ToValidUTF8_accepted] | reflexivity].
  - destruct (json_Marshal (ANumber f)); cbn;
      [rewrite Hb; split; [reflexivity | apply ToValidUTF8_accepted] | reflexivity].
  - rewrite sanitized_clean. split; [reflexivity | apply clean_is_accepted].
  - destruct (json_Marshal (AArray l)); cbn;
      [rewrite Hb; split; [reflexivity | apply ToValidUTF8_accepted] | reflexivity].
  - destruct (json_Marshal (AObject m)); cbn;
      [rewrite Hb; split; [reflexivity | apply ToValidUTF8_accepted] | reflexivity].
Qed.

End Inputs.

Lemma X4_inputs_mirror_messages_witness :
  let messages :=
    [Message.mk "system" (AString "be nice"); Message.mk "user" (AString "hi");
     Message.mk "assistant" ANil] in
  let inputs :=
    [Input.mk "message" "user" (Some "hi"); Input.mk "message" "assistant" None] in
  (@OpenaiResponses.convertMessagesToInputs verbatim (refusing any) messages
     = Ok inputs
   \/ @Claude.convertClaudeMessagesToInputs verbatim (refusing any) messages
      = Ok inputs)
  /\ map Input.Role inputs = ["user"; "assistant"].
Proof.
  cbv zeta.
  assert (H : @OpenaiResponses.convertMessagesToInputs verbatim (refusing any)
                [Message.mk "system" (AString "be nice");
                 Message.mk "user" (AString "hi"); Message.mk "assistant" ANil]
              = Ok [Input.mk "message" "user" (Some "hi");
                    Input.mk "message" "assistant" None]
              \/ @Claude.convertClaudeMessagesToInputs verbatim (refusing any)
                   [Message.mk "system" (AString "be nice");
                    Message.mk "user" (AString "hi"); Message.mk "assistant" ANil]
                 = Ok [Input.mk "message" "user" (Some "hi");
                       Input.mk "message" "assistant" None])
    by (left; vm_compute; reflexivity).
  split; [exact H|].
  exact (proj1 (X4_inputs_mirror_messages _ _ H)).
Defined.

Lemma X5_claude_inputs_mirror_messages_witness :
  let messages :=
    [ClaudeMessage.mk "system" (AString "be nice");
     ClaudeMessage.mk "user" (AString "hi")] in
  let inputs :=
    [Input.mk "message" "system" (Some "be nice");
     Input.mk "message" "user" (Some "hi")] in
  @OpenaiResponses.convertClaudeMessagesToInputs verbatim (refusing any) messages
    = Ok inputs
  /\ map Input.Role inputs = ["system"; "user"].
Proof.
  cbv zeta.
  assert (H : @OpenaiResponses.convertClaudeMessagesToInputs verbatim (refusing any)
                [ClaudeMessage.mk "system" (AString "be nice");
                 ClaudeMessage.mk "user" (AString "hi")]
              = Ok [Input.mk "message" "system" (Some "be nice");
                    Input.mk "message" "user" (Some "hi")])
    by (vm_compute; reflexivity).
  split; [exact H|].
  exact (proj1 (X5_claude_inputs_mirror_messages _ _ H)).
Defined.

Lemma X6_plain_messages_convert_witness :
  let messages := [Message.mk "user" (AString a_SOH_b)] in
  let claudeMessages := [ClaudeMessage.mk "user" ANil] in
  (forall s, OpenaiResponses.isValidUTF8String s = true ->
             exists b, @json_Marshal _ verbatim s = Ok b)
  /\ Forall (fun m => plain (Message.Content m)) messages
  /\ Forall (fun m => plain (ClaudeMessage.Content m)) claudeMessages
  /\ exists inputs,
       @OpenaiResponses.convertMessagesToInputs verbatim (refusing any) messages
       = Ok inputs.
Proof.
  cbv zeta.
  assert (H0 : forall s, OpenaiResponses.isValidUTF8String s = true ->
                 exists b, @json_Marshal _ verbatim s = Ok b)
    by (intros s _; exists s; reflexivity).
  assert (H1 : Forall (fun m => plain (Message.Content m))
                 [Message.mk "user" (AString a_SOH_b)])
    by (repeat constructor).
  assert (H2 : Forall (fun m => plain (ClaudeMessage.Content m))
                 [ClaudeMessage.mk "user" ANil])
    by (repeat constructor).
  split; [exact H0|]. split; [exact H1|]. split; [exact H2|].
  exact (proj1 (@X6_plain_messages_convert verbatim (refusing any) _ _ H0 H1 H2)).
Defined.

Lemma block_type_lookup (b : gmap string any) (k : string) :
  OpenaiResponses.convertClaudeBlockType b !! k
  = if (k =? "type")%string
    then match b !! "type" with
         | Some (AString ty) => Some (AString (responses_block_type ty))
         | other => other
         end
    else b !! k.
Proof.
  unfold OpenaiResponses.convertClaudeBlockType, responses_block_type.
  destruct (k =? "type")%string eqn:E.
  - apply String.eqb_eq in E. subst k.
    destruct (b !! "type") as [[| | |ty| |]|] eqn:Hb; rewrite ?Hb; try reflexivity.
    destruct (ty =? "text")%string; [now rewrite lookup_insert_eq|].
    destruct (ty =? "image")%string; [now rewrite lookup_insert_eq|].
    exact Hb.
  - apply String.eqb_neq in E.
    destruct (b !! "type") as [[| | |ty| |]|]; try reflexivity.
    destruct (ty =? "text")%string; [now rewrite lookup_insert_ne|].
    destruct (ty =? "image")%string; [now rewrite lookup_insert_ne|].
    reflexivity.
Qed.

Lemma content_loop_objects (l : list any) (acc : list any) :
  forallb is_object l = true ->
  OpenaiResponses.convertClaudeContent_loop l acc
  = Some (acc ++ map responses_block l).
Proof.
  revert acc. induction l as [|x l IH]; intros acc H.
  - cbn. now rewrite app_nil_r.
  - cbn [forallb] in H. apply andb_true_iff in H as (Hx & H).
    destruct x; try discriminate Hx.
    cbn [map OpenaiResponses.convertClaudeContent_loop responses_block].
    rewrite IH by exact H. now rewrite <- app_assoc.
Qed.

Lemma content_loop_other (l : list any) (acc : list any) :
  forallb is_object l = false ->
  OpenaiResponses.convertClaudeContent_loop l acc = None.
Proof.
  revert acc. induction l as [|x l IH]; intros acc; [discriminate|].
  cbn [forallb OpenaiResponses.convertClaudeContent_loop].
  destruct x; cbn [is_object andb]; try reflexivity. apply IH.
Qed.

(** X8: [convertClaudeContentToResponses] never fails.  It returns a
    content that is not an array as it is; an array of which some element
    is not an object also as it is, none of its blocks rewritten; for an
    array of objects that is not empty, the array of the same blocks with
    the type tag [text] rewritten to [input_text], [image] to
    [input_image], and every other tag and every other key of a block as
    it was; and for the empty array a [nil] slice. *)
Theorem X8_claude_content_blocks (content : any) :
  OpenaiResponses.convertClaudeContentToResponses content
  = Ok (match content with
        | AArray [] => ANil
        | AArray l => if forallb is_object l then AArray (map responses_block l)
                      else content
        | _ => content
        end)
  /\ forall b k,
       OpenaiResponses.convertClaudeBlockType b !! k
       = if (k =? "type")%string
         then match b !! "type" with
              | Some (AString ty) => Some (AString (responses_block_type ty))
              | other => other
              end
         else b !! k.
Proof.
  split; [|apply block_type_lookup].
  destruct content as [| | | |l|]; try reflexivity.
  destruct l as [|x l]; [reflexivity|].
  unfold OpenaiResponses.convertClaudeContentToResponses.
  destruct (forallb is_object (x :: l)) eqn:E.
  - rewrite (content_loop_objects _ _ E). cbn [app].
    now destruct x.
  - now rewrite (content_loop_other _ _ E).
Qed.

Section ChatInstructions.

Context {marshal_string : Marshaler string}.
Context {marshal_any : Marshaler any}.
Context {marshal_inputs : Marshaler (list Input.t)}.
Context {marshal_tools : Marshaler (list any)}.
Context {marshal_bool : Marshaler bool}.
Variable json_Valid : string -> bool.

(** X9: when [ChatCompletionsToResponsesRequest] returns a request, its
    instructions field is absent if the extracted system message is empty;
    otherwise it holds the system message itself, byte for byte and not
    encoded, if the message parses as JSON, and the JSON encoding of the
    message if it does not. *)
Theorem X9_chat_instructions (req : GeneralOpenAIRequest.t) (info : RelayInfo.t)
  (r : OpenAIResponsesRequest.t) :
  OpenaiResponses.ChatCompletionsToResponsesRequest json_Valid (Some req) info = Ok r ->
  let systemMessage :=
    OpenaiResponses.extractSystemMessage (GeneralOpenAIRequest.Messages req) in
  match OpenAIResponsesRequest.Instructions r with
  | Some instructions =>
      systemMessage <> EmptyString
      /\ if json_Valid systemMessage then instructions = systemMessage
         else json_Marshal systemMessage = Ok instructions
  | None => systemMessage = EmptyString
  end.
Proof.
  unfold OpenaiResponses.ChatCompletionsToResponsesRequest.
  destruct (negb (nonempty (GeneralOpenAIRequest.Model req))); [discriminate|].
  intros H. open_binds H. injection H as <-.
  cbn [OpenAIResponsesRequest.Instructions]. cbv zeta.
  destruct (nonempty _) eqn:Hne in Hx.
  - assert (Hs : OpenaiResponses.extractSystemMessage
                   (GeneralOpenAIRequest.Messages req) <> EmptyString).
    { intros E. rewrite E in Hne. discriminate Hne. }
    destruct (json_Valid _) eqn:Hj in Hx.
    + injection Hx as <-. rewrite Hj. now split.
    + open_binds Hx. injection Hx as <-. rewrite Hj. split; [exact Hs|].
      match goal with
      | Hm : wrap_err _ _ = Ok _ |- _ => now apply wrap_err_ok in Hm
      end.
  - injection Hx as <-. now apply nonempty_false.
Qed.

(** X10: every request that a translator of the two packages returns
    carries the upstream model name of the relay info, not the model name
    of the request it was translated from, and the latter is never empty;
    the same holds of [ConvertOpenAIResponsesRequest]. *)
Theorem X10_translated_model (info : RelayInfo.t) (chat : GeneralOpenAIRequest.t)
  (claude : ClaudeRequest.t) (responses : OpenAIResponsesRequest.t) :
  if_ok (OpenaiResponses.ChatCompletionsToResponsesRequest json_Valid (Some chat) info)
    (fun r =>
       OpenAIResponsesRequest.Model r = RelayInfo.UpstreamModelName info
       /\ GeneralOpenAIRequest.Model chat <> EmptyString)
  /\ if_ok (OpenaiResponses.ClaudeMessagesToResponsesRequest (Some claude) info)
       (fun r =>
          OpenAIResponsesRequest.Model r = RelayInfo.UpstreamModelName info
          /\ ClaudeRequest.Model claude <> EmptyString)
  /\ if_ok (Claude.ClaudeMessagesToResponsesRequest (Some chat) info)
       (fun r =>
          OpenAIResponsesRequest.Model r = RelayInfo.UpstreamModelName info
          /\ GeneralOpenAIRequest.Model chat <> EmptyString)
  /\ if_ok (OpenaiResponses.ConvertOpenAIResponsesRequest info responses)
       (fun r =>
          OpenAIResponsesRequest.Model r = RelayInfo.UpstreamModelName info
          /\ OpenAIResponsesRequest.Model responses <> EmptyString).
Proof.
  assert (Hne : forall s, negb (nonempty s) = false -> s <> EmptyString).
  { intros s H ->. discriminate H. }
  split; [|split; [|split]].
  - destruct (OpenaiResponses.ChatCompletionsToResponsesRequest _ _ _) as [r|] eqn:H;
      [|exact I]. cbn [if_ok].
    unfold OpenaiResponses.ChatCompletionsToResponsesRequest in H.
    destruct (negb (nonempty _)) eqn:E in H; [discriminate|].
    open_binds H. injection H as <-. split; [reflexivity | now apply Hne].
  - destruct (OpenaiResponses.ClaudeMessagesToResponsesRequest _ _) as [r|] eqn:H;
      [|exact I]. cbn [if_ok].
    unfold OpenaiResponses.ClaudeMessagesToResponsesRequest in H.
    destruct (negb (nonempty _)) eqn:E in H; [discriminate|].
    open_binds H. injection H as <-. split; [reflexivity | now apply Hne].
  - destruct (Claude.ClaudeMessagesToResponsesRequest _ _) as [r|] eqn:H;
      [|exact I]. cbn [if_ok].
    unfold Claude.ClaudeMessagesToResponsesRequest in H.
    destruct (negb (nonempty _)) eqn:E in H; [discriminate|].
    open_binds H. injection H as <-. split; [reflexivity | now apply Hne].
  - unfold OpenaiResponses.ConvertOpenAIResponsesRequest.
    destruct (negb (nonempty _)) eqn:E; [exact I|].
    cbn [if_ok]. split; [reflexivity | now apply Hne].
Qed.

End ChatInstructions.

(** A system message that is the JSON number 42: it becomes the
    instructions as it is. *)
Lemma X9_chat_instructions_witness :
  let req :=
    GeneralOpenAIRequest.mk "gpt-4o" [Message.mk "system" (AString "42")] false
      0 0 EmptyString None 0%float [] ANil None EmptyString in
  let info :=
    RelayInfo.mk "gpt-5" "gpt-4o" 0 RelayModeChatCompletions false EmptyString None in
  let r :=
    OpenAIResponsesRequest.mk "gpt-5" None (Some "42") 0 None None None false
      0%float None None 0%float EmptyString in
  @OpenaiResponses.ChatCompletionsToResponsesRequest (refusing string)
    (refusing any) (refusing (list Input.t)) (refusing (list any))
    (refusing bool) (fun s => String.eqb s "42") (Some req) info = Ok r
  /\ @OpenaiResponses.extractSystemMessage (refusing any)
       (GeneralOpenAIRequest.Messages req) <> EmptyString.
Proof.
  cbv zeta.
  assert (H : @OpenaiResponses.ChatCompletionsToResponsesRequest (refusing string)
                (refusing any) (refusing (list Input.t)) (refusing (list any))
                (refusing bool) (fun s => String.eqb s "42")
                (Some (GeneralOpenAIRequest.mk "gpt-4o"
                         [Message.mk "system" (AString "42")] false
                         0 0 EmptyString None 0%float [] ANil None EmptyString))
                (RelayInfo.mk "gpt-5" "gpt-4o" 0 RelayModeChatCompletions false
                   EmptyString None)
              = Ok (OpenAIResponsesRequest.mk "gpt-5" None (Some "42") 0 None None
                      None false 0%float None None 0%float EmptyString))
    by (vm_compute; reflexivity).
  split; [exact H|].
  exact (proj1 (X9_chat_instructions _ _ _ _ H)).
Defined.

(** ** The stream handlers *)

Lemma concat_app_one (l : list string) (x : string) :
  String.concat EmptyString (l ++ [x]) = String.concat EmptyString l +:+ x.
Proof. rewrite concat_nil_app. cbn [String.concat]. reflexivity. Qed.

Lemma client_text_app {frame : Type} (text : frame -> string)
  (l1 l2 : list frame) :
  client_text text (l1 ++ l2) = client_text text l1 +:+ client_text text l2.
Proof. unfold client_text. rewrite List.map_app. apply concat_nil_app. Qed.

Lemma client_text_snoc {frame : Type} (text : frame -> string)
  (frames : list frame) (x : frame) :
  client_text text (frames ++ [x]) = client_text text frames +:+ text x.
Proof.
  unfold client_text. rewrite List.map_app. cbn [map]. apply concat_app_one.
Qed.

(** A fold whose step does not look at a part of the state, and leaves the
    rest as it is at the elements that [ok] rejects, gives the same rest
    with these elements left out. *)
Lemma fold_left_core {A B C : Type} (f : A -> B -> A) (core : A -> C) :
  (forall a a' b, core a = core a' -> core (f a b) = core (f a' b)) ->
  forall l a a', core a = core a' -> core (fold_left f l a) = core (fold_left f l a').
Proof.
  intros Hf l. induction l as [|b l IH]; intros a a' H; [exact H|].
  cbn [fold_left]. apply IH, Hf, H.
Qed.

Lemma fold_left_inert {A B C : Type} (f : A -> B -> A) (core : A -> C)
  (ok : B -> bool) :
  (forall a a' b, core a = core a' -> core (f a b) = core (f a' b)) ->
  (forall a b, ok b = false -> core (f a b) = core a) ->
  forall l a, core (fold_left f l a) = core (fold_left f (List.filter ok l) a).
Proof.
  intros Hf Hskip l. induction l as [|b l IH]; intros a; [reflexivity|].
  cbn [fold_left List.filter]. destruct (ok b) eqn:E.
  - cbn [fold_left]. apply IH.
  - rewrite IH. apply fold_left_core; [exact Hf | now apply Hskip].
Qed.

(** *** The callback of the Chat-style handler *)

Section ChatStreamProperties.

Variables ItemDone WebSearchCall WebSearchPreview : string.

Local Abbreviation callback :=
  (OpenaiResponses.chatStreamCallback ItemDone WebSearchCall WebSearchPreview).

Import OpenaiResponses.

Lemma chat_full (info : RelayInfo.t) (lines : list Line.t) (st : ChatStream.t) :
  ChatStream.fullStreamResponse (fold_left (callback info) lines st)
  = ChatStream.fullStreamResponse st +:+ recorded (List.filter has_data lines).
Proof.
  revert st. induction lines as [|l lines IH]; intros st.
  - cbn. now rewrite append_nil_r.
  - cbn [fold_left List.filter]. rewrite IH.
    assert (E : ChatStream.fullStreamResponse (callback info st l)
                = if has_data l
                  then ChatStream.fullStreamResponse st +:+ Line.data l +:+ newline
                  else ChatStream.fullStreamResponse st).
    { unfold OpenaiResponses.chatStreamCallback, has_data.
      destruct (Line.parsed l); [|reflexivity].
      repeat match goal with
      | |- context [if ?b then ChatStream.mk _ _ _ _ _ _ else _] => destruct b
      end; reflexivity. }
    rewrite E. destruct (has_data l); [|reflexivity].
    unfold recorded. cbn [map]. rewrite concat_nil_cons.
    now rewrite !append_assoc.
Qed.

Lemma chat_core_step (info : RelayInfo.t) (a a' : ChatStream.t) (l : Line.t) :
  chat_core a = chat_core a' ->
  chat_core (callback info a l) = chat_core (callback info a' l).
Proof.
  destruct a as [u t f i tl w], a' as [u' t' f' i' tl' w'].
  unfold chat_core. cbn. intros [= -> -> -> -> ->].
  unfold OpenaiResponses.chatStreamCallback. cbn.
  destruct (Line.parsed l); [|reflexivity].
  repeat match goal with
  | |- context [if ?b then ChatStream.mk _ _ _ _ _ _ else _] => destruct b
  end; reflexivity.
Qed.

Lemma chat_core_skip (info : RelayInfo.t) (a : ChatStream.t) (l : Line.t) :
  parses l = false -> chat_core (callback info a l) = chat_core a.
Proof.
  unfold parses, OpenaiResponses.chatStreamCallback.
  destruct (Line.parsed l); [discriminate | reflexivity].
Qed.

(** The text collected for the fallback count is the text of the chunks
    written. *)
Lemma chat_text (info : RelayInfo.t) (lines : list Line.t) (st : ChatStream.t) :
  ChatStream.responseTextBuilder st = client_text chunk_text (ChatStream.written st) ->
  let st' := fold_left (callback info) lines st in
  ChatStream.responseTextBuilder st' = client_text chunk_text (ChatStream.written st').
Proof.
  cbv zeta. revert lines st.
  apply (fold_left_invariant (callback info)
           (fun st => ChatStream.responseTextBuilder st
                      = client_text chunk_text (ChatStream.written st))).
  intros st l Hst.
  unfold OpenaiResponses.chatStreamCallback.
  destruct (Line.parsed l) as [e|]; [|exact Hst].
  unfold OpenaiResponses.ConvertResponsesStreamToChatStream.
  destruct e as [ty response delta item].
  cbn [ResponsesStreamResponse.Type_ ResponsesStreamResponse.Response
       ResponsesStreamResponse.Delta ResponsesStreamResponse.Item].
  destruct (ty =? "response.output_text.delta")%string eqn:Ed.
  - assert (ty = "response.output_text.delta") as -> by now apply String.eqb_eq.
    change ("response.output_text.delta" =? "response.completed")%string with false.
    cbv iota. cbn [ChatStream.responseTextBuilder ChatStream.written].
    destruct (nonempty delta) eqn:Hne.
    + rewrite client_text_snoc, <- Hst.
      unfold chunk_text. cbn. now rewrite ?append_nil_r.
    + apply nonempty_false in Hne. subst delta. now rewrite append_nil_r.
  - destruct (ty =? "response.output_item.added")%string eqn:Ea.
    + assert (ty = "response.output_item.added") as -> by now apply String.eqb_eq.
      change ("response.output_item.added" =? "response.completed")%string with false.
      cbv iota.
      assert (Hw : forall w,
        client_text chunk_text w = ChatStream.responseTextBuilder st ->
        forall x, chunk_text x = EmptyString ->
        client_text chunk_text (w ++ [x]) = ChatStream.responseTextBuilder st).
      { intros w Hw x Hx. rewrite client_text_snoc, Hx.
        rewrite append_nil_r. exact Hw. }
      destruct item as [it|];
        [destruct (ResponsesOutput.Role it =? "assistant")%string|];
        destruct ("response.output_item.added" =? ItemDone)%string;
        cbn [ChatStream.responseTextBuilder ChatStream.written];
        try (symmetry; apply Hw; [now symmetry | reflexivity]);
        exact Hst.
    + destruct (ty =? "response.done")%string eqn:Edone.
      * assert (ty = "response.done") as -> by now apply String.eqb_eq.
        change ("response.done" =? "response.completed")%string with false.
        cbv iota.
        destruct response as [resp|];
          destruct ("response.done" =? ItemDone)%string;
          cbn [ChatStream.responseTextBuilder ChatStream.written];
          try exact Hst;
          rewrite client_text_snoc, <- Hst;
          unfold chunk_text; cbn; now rewrite ?append_nil_r.
      * destruct (ty =? "response.completed")%string;
          [|destruct (ty =? ItemDone)%string];
          cbn [ChatStream.responseTextBuilder ChatStream.written]; exact Hst.
Qed.

Lemma chat_usage_kept (info : RelayInfo.t) (lines : list Line.t)
  (st : ChatStream.t) :
  Forall (fun l => is_event "response.completed" l = false) lines ->
  ChatStream.usage (fold_left (callback info) lines st) = ChatStream.usage st.
Proof.
  intros H. revert st. induction H as [|l lines Hl _ IH]; intros st; [reflexivity|].
  cbn [fold_left]. rewrite IH. clear IH.
  unfold is_event in Hl. unfold OpenaiResponses.chatStreamCallback.
  destruct (Line.parsed l) as [e|]; [|reflexivity].
  rewrite Hl.
  repeat match goal with
  | |- context [if ?b then ChatStream.mk _ _ _ _ _ _ else _] => destruct b
  end; reflexivity.
Qed.

Lemma chat_tools_step (info : RelayInfo.t) (st : ChatStream.t) (l : Line.t) :
  ItemDone <> "response.completed" ->
  ItemDone <> "response.output_text.delta" ->
  ChatStream.tools (callback info st l)
  = if is_web_search_done ItemDone WebSearchCall l
    then match ChatStream.tools st with
         | Some m =>
             match m !! WebSearchPreview with
             | Some (Some callCount) =>
                 Some (<[WebSearchPreview := Some (int_add callCount 1)]> m)
             | _ => Some m
             end
         | None => None
         end
    else ChatStream.tools st.
Proof.
  intros ItemDone_completed ItemDone_delta.
  unfold OpenaiResponses.chatStreamCallback, is_web_search_done.
  destruct (Line.parsed l) as [e|]; [|reflexivity].
  destruct (ResponsesStreamResponse.Type_ e =? ItemDone)%string eqn:E.
  - apply String.eqb_eq in E. rewrite E.
    apply String.eqb_neq in ItemDone_completed, ItemDone_delta.
    rewrite ItemDone_completed, ItemDone_delta, ?String.eqb_refl.
    cbn [ChatStream.tools andb]. unfold countWebSearchCall.
    destruct (ResponsesStreamResponse.Item e) as [it|]; [|reflexivity].
    destruct (ResponsesOutput.Type_ it =? WebSearchCall)%string; [|reflexivity].
    destruct (ChatStream.tools st) as [m|]; [|reflexivity].
    destruct (m !! WebSearchPreview) as [[n|]|]; reflexivity.
  - cbn [andb].
    repeat match goal with
    | |- context [if ?b then ChatStream.mk _ _ _ _ _ _ else _] => destruct b
    end; reflexivity.
Qed.

Lemma chat_tools (info : RelayInfo.t) (lines : list Line.t) (st : ChatStream.t) :
  ItemDone <> "response.completed" ->
  ItemDone <> "response.output_text.delta" ->
  ChatStream.tools (fold_left (callback info) lines st)
  = match ChatStream.tools st with
    | Some m =>
        match m !! WebSearchPreview with
        | Some (Some callCount) =>
            Some (<[WebSearchPreview :=
                      Some (incremented
                              (length (List.filter
                                         (is_web_search_done ItemDone WebSearchCall)
                                         lines))
                              callCount)]> m)
        | _ => Some m
        end
    | None => None
    end.
Proof.
  intros H1 H2. unfold incremented.
  revert st. induction lines as [|l lines IH]; intros st.
  - cbn. destruct (ChatStream.tools st) as [m|]; [|reflexivity].
    destruct (m !! WebSearchPreview) as [[n|]|] eqn:E; try reflexivity.
    now rewrite insert_id.
  - cbn [fold_left List.filter]. rewrite IH, (chat_tools_step _ _ _ H1 H2). clear IH.
    destruct (is_web_search_done ItemDone WebSearchCall l); [|reflexivity].
    destruct (ChatStream.tools st) as [m|]; [|reflexivity].
    destruct (m !! WebSearchPreview) as [[n|]|] eqn:E; rewrite ?E; try reflexivity.
    rewrite lookup_insert_eq, insert_insert_eq. cbn [length].
    now rewrite Nat.iter_succ_r.
Qed.

End ChatStreamProperties.

(** *** The callback of the Messages-style handler of package
        [openai_responses] *)

Section ClaudeStreamProperties.

Import OpenaiResponses.

Local Abbreviation callback := OpenaiResponses.claudeStreamCallback.

(** What one call of the callback does to the events written, to the
    start flag, to the accumulated text, to the usage and to the
    identifier. *)
Lemma claude_step (info : RelayInfo.t) (st : ClaudeStream.t) (l : Line.t) :
  let st' := callback info st l in
  match Line.parsed l with
  | Err _ =>
      ClaudeStream.written st' = ClaudeStream.written st
      /\ ClaudeStream.messageStartSent st' = ClaudeStream.messageStartSent st
      /\ ClaudeStream.responseTextBuilder st' = ClaudeStream.responseTextBuilder st
      /\ ClaudeStream.usage st' = ClaudeStream.usage st
  | Ok e =>
      let start :=
        negb (ClaudeStream.messageStartSent st)
        && nonempty (ClaudeStream.responseID st') in
      let isDelta :=
        (ResponsesStreamResponse.Type_ e =? "response.output_text.delta")%string
        && nonempty (ResponsesStreamResponse.Delta e) in
      let done :=
        match (ResponsesStreamResponse.Type_ e =? "response.done")%string,
              ResponsesStreamResponse.Response e with
        | true, Some resp => Some resp
        | _, _ => None
        end in
      ClaudeStream.written st'
        = ClaudeStream.written st
          ++ (if start
              then [sendClaudeMessageStart (ClaudeStream.responseID st')
                      (RelayInfo.UpstreamModelName info);
                    sendClaudeContentBlockStart 0]
              else [])
          ++ (if isDelta
              then [sendClaudeContentBlockDelta 0 (ResponsesStreamResponse.Delta e)]
              else [])
          ++ match done with
             | Some resp =>
                 [sendClaudeContentBlockStop 0;
                  sendClaudeMessageDelta "end_turn"
                    (OpenAIResponsesResponse.Usage resp);
                  sendClaudeMessageStop]
             | None => []
             end
      /\ ClaudeStream.messageStartSent st'
         = (if start then true else ClaudeStream.messageStartSent st)
      /\ ClaudeStream.responseTextBuilder st'
         = (if isDelta
            then ClaudeStream.responseTextBuilder st
                 +:+ ResponsesStreamResponse.Delta e
            else ClaudeStream.responseTextBuilder st)
      /\ (done = None -> ClaudeStream.usage st' = ClaudeStream.usage st)
      /\ nonempty (ClaudeStream.responseID st')
         = carries_id e || nonempty (ClaudeStream.responseID st)
  end.
Proof.
  cbv zeta. unfold OpenaiResponses.claudeStreamCallback.
  destruct (Line.parsed l) as [e|]; [|repeat split].
  unfold carries_id.
  destruct (ResponsesStreamResponse.Response e) as [resp|];
    destruct (ResponsesStreamResponse.Type_ e =? "response.done")%string;
    cbn [ClaudeStream.written ClaudeStream.messageStartSent
         ClaudeStream.responseTextBuilder ClaudeStream.responseID
         ClaudeStream.usage];
    repeat match goal with
    | |- context [if ?b then _ else _] => destruct b eqn:?
    end;
    rewrite <- ?app_assoc, ?app_nil_r; repeat split;
    try discriminate; try reflexivity;
    repeat match goal with
    | H : nonempty _ = _ |- _ => rewrite H
    end; reflexivity.
Qed.

Lemma claude_inv_step (info : RelayInfo.t) (st : ClaudeStream.t) (l : Line.t) :
  claude_inv st -> claude_inv (callback info st l).
Proof.
  intros (Ht & Hn & Hs & Hr & Hm). unfold claude_inv.
  pose proof (claude_step info st l) as H. cbv zeta in H.
  destruct (Line.parsed l) as [e|] eqn:E.
  2:{ clear H. unfold OpenaiResponses.claudeStreamCallback. rewrite E.
      cbn [ClaudeStream.written ClaudeStream.messageStartSent
           ClaudeStream.responseTextBuilder ClaudeStream.responseID].
      repeat split; assumption. }
  destruct H as (Hw & Hsent & Htext & _ & Hid).
  rewrite Hw, Hsent, Htext.
  set (start := negb (ClaudeStream.messageStartSent st)
                && nonempty (ClaudeStream.responseID (callback info st l))) in *.
  set (isDelta := (ResponsesStreamResponse.Type_ e =? "response.output_text.delta")%string
                  && nonempty (ResponsesStreamResponse.Delta e)) in *.
  set (done := match (ResponsesStreamResponse.Type_ e =? "response.done")%string,
                     ResponsesStreamResponse.Response e with
               | true, Some resp => Some resp
               | _, _ => None
               end) in *.
  split; [|split; [|split; [|split]]].
  - rewrite !client_text_app, <- Ht.
    destruct start, isDelta, done; cbn; now rewrite ?append_nil_r.
  - rewrite !List.filter_app, !length_app, Hn.
    assert (Hd : forall (b : bool) d,
      length (List.filter (is_type "message_start")
                (if b then [sendClaudeContentBlockDelta 0 d] else [])) = 0%nat)
      by (intros [] d; reflexivity).
    rewrite Hd.
    assert (Hdone :
      length (List.filter (is_type "message_start")
                match done with
                | Some resp =>
                    [sendClaudeContentBlockStop 0;
                     sendClaudeMessageDelta "end_turn"
                       (OpenAIResponsesResponse.Usage resp);
                     sendClaudeMessageStop]
                | None => []
                end) = 0%nat) by (destruct done; reflexivity).
    rewrite Hdone. subst start.
    destruct (ClaudeStream.messageStartSent st); cbn [negb andb]; [reflexivity|].
    destruct (nonempty (ClaudeStream.responseID (callback info st l)));
      reflexivity.
  - subst start. rewrite Hid, Hs.
    now destruct (nonempty (ClaudeStream.responseID st)), (carries_id e).
  - rewrite !List.Forall_app.
    destruct start, isDelta, done; repeat split; try exact Hr;
      repeat (apply List.Forall_cons;
              [first [left; reflexivity | right; reflexivity]|]);
      constructor.
  - rewrite !List.Forall_app. unfold anonymous_start.
    destruct start, isDelta, done; repeat split; try exact Hm;
      repeat (apply List.Forall_cons;
              [first [discriminate | intros _; split; [reflexivity | eauto]]|]);
      constructor.
Qed.

Lemma claude_inv_fold (info : RelayInfo.t) (lines : list Line.t) :
  claude_inv (fold_left (callback info) lines ClaudeStream.init).
Proof.
  apply fold_left_invariant; [apply claude_inv_step|].
  repeat split; constructor.
Qed.

Lemma claude_id_seen (info : RelayInfo.t) (lines : list Line.t)
  (st : ClaudeStream.t) :
  nonempty (ClaudeStream.responseID (fold_left (callback info) lines st))
  = existsb line_carries_id lines || nonempty (ClaudeStream.responseID st).
Proof.
  revert st. induction lines as [|l lines IH]; intros st; [reflexivity|].
  cbn [fold_left existsb]. rewrite IH. clear IH.
  pose proof (claude_step info st l) as H. cbv zeta in H.
  unfold line_carries_id.
  destruct (Line.parsed l) as [e|] eqn:E.
  - destruct H as (_ & _ & _ & _ & ->).
    now destruct (carries_id e), (existsb _ lines),
      (nonempty (ClaudeStream.responseID st)).
  - unfold OpenaiResponses.claudeStreamCallback. rewrite E.
    cbn [ClaudeStream.responseID]. now destruct (existsb _ lines).
Qed.

Lemma claude_usage_kept (info : RelayInfo.t) (lines : list Line.t)
  (st : ClaudeStream.t) :
  Forall (fun l => is_event "response.done" l = false) lines ->
  ClaudeStream.usage (fold_left (callback info) lines st) = ClaudeStream.usage st.
Proof.
  intros H. revert st. induction H as [|l lines Hl _ IH]; intros st; [reflexivity|].
  cbn [fold_left]. rewrite IH. clear IH.
  pose proof (claude_step info st l) as H. cbv zeta in H.
  unfold is_event in Hl.
  destruct (Line.parsed l) as [e|]; [|apply H].
  destruct H as (_ & _ & _ & H & _). apply H. now rewrite Hl.
Qed.

Lemma claude_full (info : RelayInfo.t) (lines : list Line.t) (st : ClaudeStream.t) :
  ClaudeStream.fullStreamResponse (fold_left (callback info) lines st)
  = ClaudeStream.fullStreamResponse st +:+ recorded lines.
Proof.
  revert st. induction lines as [|l lines IH]; intros st.
  - cbn. now rewrite append_nil_r.
  - cbn [fold_left]. rewrite IH.
    assert (E : ClaudeStream.fullStreamResponse (callback info st l)
                = ClaudeStream.fullStreamResponse st +:+ Line.data l +:+ newline).
    { unfold OpenaiResponses.claudeStreamCallback.
      destruct (Line.parsed l) as [e|]; [|reflexivity].
      destruct (ResponsesStreamResponse.Type_ e =? "response.done")%string,
        (ResponsesStreamResponse.Response e); reflexivity. }
    rewrite E. unfold recorded. cbn [map]. rewrite concat_nil_cons.
    now rewrite !append_assoc.
Qed.

Lemma claude_core_step (info : RelayInfo.t) (a a' : ClaudeStream.t) (l : Line.t) :
  claude_core a = claude_core a' ->
  claude_core (callback info a l) = claude_core (callback info a' l).
Proof.
  destruct a as [u t f i m w], a' as [u' t' f' i' m' w'].
  unfold claude_core. cbn. intros [= -> -> -> -> ->].
  unfold OpenaiResponses.claudeStreamCallback. cbn.
  destruct (Line.parsed l) as [e|]; [|reflexivity].
  destruct (ResponsesStreamResponse.Type_ e =? "response.done")%string,
    (ResponsesStreamResponse.Response e); reflexivity.
Qed.

Lemma claude_core_skip (info : RelayInfo.t) (a : ClaudeStream.t) (l : Line.t) :
  parses l = false -> claude_core (callback info a l) = claude_core a.
Proof.
  unfold parses, OpenaiResponses.claudeStreamCallback.
  destruct (Line.parsed l); [discriminate | reflexivity].
Qed.

End ClaudeStreamProperties.

(** *** The callback of the handler of package [claude] *)

Section PackageStreamProperties.

Import Claude.

Local Abbreviation callback := Claude.claudeStreamCallback.

Lemma package_full (info : RelayInfo.t) (lines : list Line.t) (st : ClaudeStream.t) :
  ClaudeStream.fullStreamResponse (fold_left (callback info) lines st)
  = ClaudeStream.fullStreamResponse st +:+ recorded (List.filter has_data lines).
Proof.
  revert st. induction lines as [|l lines IH]; intros st.
  - cbn. now rewrite append_nil_r.
  - cbn [fold_left List.filter]. rewrite IH.
    assert (E : ClaudeStream.fullStreamResponse (callback info st l)
                = if has_data l
                  then ClaudeStream.fullStreamResponse st +:+ Line.data l +:+ newline
                  else ClaudeStream.fullStreamResponse st).
    { unfold Claude.claudeStreamCallback, has_data.
      destruct (Line.parsed l); [|reflexivity].
      repeat match goal with
      | |- context [if ?b then ClaudeStream.mk _ _ _ _ _ else _] => destruct b
      end; reflexivity. }
    rewrite E. destruct (has_data l); [|reflexivity].
    unfold recorded. cbn [map]. rewrite concat_nil_cons.
    now rewrite !append_assoc.
Qed.

Lemma package_core_step (info : RelayInfo.t) (a a' : ClaudeStream.t) (l : Line.t) :
  package_core a = package_core a' ->
  package_core (callback info a l) = package_core (callback info a' l).
Proof.
  destruct a as [i t u f w], a' as [i' t' u' f' w'].
  unfold package_core. cbn. intros [= -> -> -> ->].
  unfold Claude.claudeStreamCallback. cbn.
  destruct (Line.parsed l) as [e|]; [|reflexivity].
  repeat match goal with
  | |- context [if ?b then ClaudeStream.mk _ _ _ _ _ else _] => destruct b
  end; reflexivity.
Qed.

Lemma package_core_skip (info : RelayInfo.t) (a : ClaudeStream.t) (l : Line.t) :
  parses l = false -> package_core (callback info a l) = package_core a.
Proof.
  unfold parses, Claude.claudeStreamCallback.
  destruct (Line.parsed l); [discriminate | reflexivity].
Qed.

(** What the callback has written after a list of lines: what the
    converter gives for each line that parses. *)
Lemma package_written (info : RelayInfo.t) (lines : list Line.t)
  (st : ClaudeStream.t) :
  ClaudeStream.written (fold_left (callback info) lines st)
  = ClaudeStream.written st
    ++ flat_map (fun l =>
         match Line.parsed l with
         | Ok e =>
             match ConvertResponsesStreamToClaudeStream e EmptyString EmptyString with
             | Some r => [r]
             | None => []
             end
         | Err _ => []
         end) lines.
Proof.
  revert st. induction lines as [|l lines IH]; intros st.
  - cbn. now rewrite app_nil_r.
  - cbn [fold_left flat_map]. rewrite IH. rewrite app_assoc. f_equal.
    unfold Claude.claudeStreamCallback.
    destruct (Line.parsed l) as [e|]; [|now rewrite app_nil_r].
    change (ConvertResponsesStreamToClaudeStream e (ClaudeStream.ResponseId st)
              (RelayInfo.UpstreamModelName info))
      with (ConvertResponsesStreamToClaudeStream e EmptyString EmptyString).
    destruct (ConvertResponsesStreamToClaudeStream e EmptyString EmptyString);
      repeat match goal with
      | |- context [if ?b then ClaudeStream.mk _ _ _ _ _ else _] => destruct b
      end; cbn [ClaudeStream.written]; now rewrite ?app_nil_r.
Qed.

Lemma converter_types (e : ResponsesStreamResponse.t) (id model : string)
  (r : ClaudeResponse.t) :
  ConvertResponsesStreamToClaudeStream e id model = Some r ->
  is_type "message_stop" r = false.
Proof.
  unfold ConvertResponsesStreamToClaudeStream.
  repeat match goal with
  | |- context [if ?b then _ else _] => destruct b
  | |- context [match ?o with Some _ => _ | None => _ end] => destruct o
  end; intros [= <-]; reflexivity.
Qed.

End PackageStreamProperties.

(** *** What the stream handlers leave behind *)

Section StreamHandlerProperties.

Variable CountTextToken : string -> string -> Z.
Variables ItemDone WebSearchCall WebSearchPreview : string.

Local Abbreviation chatHandler :=
  (OpenaiResponses.ResponsesToChatStreamHandler CountTextToken ItemDone
     WebSearchCall WebSearchPreview).
Local Abbreviation claudeHandler :=
  (OpenaiResponses.ResponsesToClaudeStreamHandler CountTextToken).
Local Abbreviation packageHandler :=
  (Claude.ResponsesToClaudeStreamHandler CountTextToken).

(** X11: the response body that a stream handler records in the relay
    info is the data lines it was given, each followed by a line feed, in
    order, whether or not a line parses.  The Chat-style handler and the
    handler of package [claude] leave out the empty lines; the
    Messages-style handler of package [openai_responses] records them
    too. *)
Theorem X11_stream_response_body (c : gmap string ctxValue) (responseId : string)
  (lines : list Line.t) (info : RelayInfo.t) :
  c !! "converted_from_claude" = Some (CtxBool true) ->
  when_ok (chatHandler info (Some lines))
    (fun h =>
       RelayInfo.ResponseBody (info_after h) = recorded (List.filter has_data lines))
  /\ when_ok (claudeHandler info (Some lines))
       (fun h => RelayInfo.ResponseBody (info_after h) = recorded lines)
  /\ when_handled (packageHandler c responseId lines info)
       (fun h =>
          RelayInfo.ResponseBody (info_after h)
          = recorded (List.filter has_data lines)).
Proof.
  intros Hc. split; [|split].
  - cbn [when_ok OpenaiResponses.ResponsesToChatStreamHandler info_after
         RelayInfo.set_BuiltInTools RelayInfo.set_ResponseBody
         RelayInfo.ResponseBody].
    now rewrite chat_full.
  - cbn [when_ok OpenaiResponses.ResponsesToClaudeStreamHandler info_after
         RelayInfo.set_ResponseBody RelayInfo.ResponseBody].
    now rewrite claude_full.
  - unfold Claude.ResponsesToClaudeStreamHandler. rewrite Hc.
    cbn [when_handled info_after RelayInfo.set_ResponseBody RelayInfo.ResponseBody].
    now rewrite package_full.
Qed.

(** X12: a data line that does not parse changes nothing but the recorded
    response body: each of the three stream handlers writes the same
    events and returns the same usage (and the Chat-style handler leaves
    the same tool counters) as it does for the lines that parse alone. *)
Theorem X12_unparseable_lines_inert (c : gmap string ctxValue)
  (responseId : string) (lines : list Line.t) (info : RelayInfo.t) :
  c !! "converted_from_claude" = Some (CtxBool true) ->
  let parsed := List.filter parses lines in
  when_ok (chatHandler info (Some lines))
    (fun h =>
       when_ok (chatHandler info (Some parsed))
         (fun h' =>
            sent h = sent h' /\ returned h = returned h'
            /\ RelayInfo.BuiltInTools (info_after h)
               = RelayInfo.BuiltInTools (info_after h')))
  /\ when_ok (claudeHandler info (Some lines))
       (fun h =>
          when_ok (claudeHandler info (Some parsed))
            (fun h' => sent h = sent h' /\ returned h = returned h'))
  /\ when_handled (packageHandler c responseId lines info)
       (fun h =>
          when_handled (packageHandler c responseId parsed info)
            (fun h' => sent h = sent h' /\ returned h = returned h')).
Proof.
  intros Hc. cbv zeta. split; [|split].
  - cbn [when_ok OpenaiResponses.ResponsesToChatStreamHandler sent returned
         info_after RelayInfo.set_BuiltInTools RelayInfo.BuiltInTools].
    pose proof (fold_left_inert
                  (OpenaiResponses.chatStreamCallback ItemDone WebSearchCall
                     WebSearchPreview info)
                  chat_core parses
                  (chat_core_step ItemDone WebSearchCall WebSearchPreview info)
                  (chat_core_skip ItemDone WebSearchCall WebSearchPreview info)
                  lines (OpenaiResponses.ChatStream.init info)) as H.
    unfold chat_core in H. injection H as Hu Ht Hi Htl Hw.
    rewrite Hu, Ht, Htl, Hw. repeat split.
  - cbn [when_ok OpenaiResponses.ResponsesToClaudeStreamHandler sent returned].
    pose proof (fold_left_inert (OpenaiResponses.claudeStreamCallback info)
                  claude_core parses (claude_core_step info)
                  (claude_core_skip info)
                  lines OpenaiResponses.ClaudeStream.init) as H.
    unfold claude_core in H. injection H as Hu Ht Hi Hm Hw.
    rewrite Hu, Ht, Hw. repeat split.
  - unfold Claude.ResponsesToClaudeStreamHandler. rewrite Hc.
    cbn [when_handled sent returned].
    pose proof (fold_left_inert (Claude.claudeStreamCallback info)
                  package_core parses (package_core_step info)
                  (package_core_skip info) lines
                  (Claude.ClaudeStream.mk responseId EmptyString Usage.zero
                     EmptyString [])) as H.
    unfold package_core in H. injection H as Hi Ht Hu Hw.
    rewrite Ht, Hu, Hw. repeat split.
Qed.

(** X13: when no line of the stream is a [response.completed] event, the
    usage that the Chat-style stream handler returns is the reconciliation
    of an empty usage with the text of the chunks it has written: the text
    that the tokenizer counts is the text that the client has received. *)
Theorem X13_chat_stream_counts_client_text (info : RelayInfo.t)
  (lines : list Line.t) :
  Forall (fun l => is_event "response.completed" l = false) lines ->
  when_ok (chatHandler info (Some lines))
    (fun h =>
       returned h
       = OpenaiResponses.reconcileUsage CountTextToken info
           (client_text chunk_text (sent h)) Usage.zero).
Proof.
  intros H.
  cbn [when_ok OpenaiResponses.ResponsesToChatStreamHandler sent returned].
  rewrite <- (chat_text ItemDone WebSearchCall WebSearchPreview info lines
                (OpenaiResponses.ChatStream.init info) eq_refl).
  rewrite (chat_usage_kept ItemDone WebSearchCall WebSearchPreview info lines _ H).
  reflexivity.
Qed.

(** X14: the Chat-style stream handler changes no tool counter but the
    one of the web-search preview tool, and only if that counter exists
    and is not [nil]: it is then incremented once for every line that
    parses to an item-done event whose item is a web-search call.  A relay
    info without tool counters is left without. *)
Theorem X14_chat_stream_tool_counters (info : RelayInfo.t) (lines : list Line.t) :
  ItemDone <> "response.completed" ->
  ItemDone <> "response.output_text.delta" ->
  let calls :=
    length (List.filter (is_web_search_done ItemDone WebSearchCall) lines) in
  when_ok (chatHandler info (Some lines))
    (fun h =>
       match RelayInfo.BuiltInTools info with
       | Some m =>
           exists m', RelayInfo.BuiltInTools (info_after h) = Some m'
           /\ (forall k, k <> WebSearchPreview -> m' !! k = m !! k)
           /\ m' !! WebSearchPreview
              = match m !! WebSearchPreview with
                | Some (Some callCount) => Some (Some (incremented calls callCount))
                | other => other
                end
       | None => RelayInfo.BuiltInTools (info_after h) = None
       end).
Proof.
  intros H1 H2. cbv zeta.
  cbn [when_ok OpenaiResponses.ResponsesToChatStreamHandler info_after
       RelayInfo.set_BuiltInTools RelayInfo.BuiltInTools].
  rewrite (chat_tools _ _ _ _ _ _ H1 H2).
  cbn [OpenaiResponses.ChatStream.init OpenaiResponses.ChatStream.tools].
  destruct (RelayInfo.BuiltInTools info) as [m|]; [|reflexivity].
  destruct (m !! WebSearchPreview) as [[n|]|] eqn:E.
  - eexists. split; [reflexivity|]. split.
    + intros k Hk. now rewrite lookup_insert_ne.
    + now rewrite lookup_insert_eq.
  - exists m. repeat split. exact E.
  - exists m. repeat split. exact E.
Qed.

(** X15: the Messages-style stream handler of package [openai_responses]
    writes [message_start] once if some line parses to an event that
    carries a response identifier, and not at all otherwise; the event it
    writes carries no identifier, neither its own nor in its message. *)
Theorem X15_claude_stream_message_start (info : RelayInfo.t) (lines : list Line.t) :
  when_ok (claudeHandler info (Some lines))
    (fun h =>
       length (List.filter (is_type "message_start") (sent h))
       = (if existsb line_carries_id lines then 1 else 0)%nat
       /\ Forall (fun r => is_type "message_start" r = true -> anonymous_start r)
            (sent h)).
Proof.
  cbn [when_ok OpenaiResponses.ResponsesToClaudeStreamHandler sent].
  destruct (claude_inv_fold info lines) as (_ & Hn & Hs & _ & Hm).
  split; [|exact Hm].
  rewrite Hn, Hs, claude_id_seen.
  cbn [OpenaiResponses.ClaudeStream.init OpenaiResponses.ClaudeStream.responseID].
  change (nonempty EmptyString) with false. now rewrite orb_false_r.
Qed.

(** X16: no event that the Messages-style stream handler of package
    [openai_responses] writes carries a stop reason other than
    [end_turn], whatever the status of the terminal events. *)
Theorem X16_claude_stream_stop_reason (info : RelayInfo.t) (lines : list Line.t) :
  when_ok (claudeHandler info (Some lines))
    (fun h =>
       Forall (fun r => frame_stop_reason r = None
                        \/ frame_stop_reason r = Some "end_turn")
         (sent h)).
Proof.
  cbn [when_ok OpenaiResponses.ResponsesToClaudeStreamHandler sent].
  apply (claude_inv_fold info lines).
Qed.

(** X17: when no line of the stream is a [response.done] event, the usage
    that the Messages-style stream handler of package [openai_responses]
    returns is the reconciliation of an empty usage with the text of the
    deltas it has written. *)
Theorem X17_claude_stream_counts_client_text (info : RelayInfo.t)
  (lines : list Line.t) :
  Forall (fun l => is_event "response.done" l = false) lines ->
  when_ok (claudeHandler info (Some lines))
    (fun h =>
       returned h
       = OpenaiResponses.reconcileUsage CountTextToken info
           (client_text frame_text (sent h)) Usage.zero).
Proof.
  intros H.
  cbn [when_ok OpenaiResponses.ResponsesToClaudeStreamHandler sent returned].
  destruct (claude_inv_fold info lines) as (<- & _).
  rewrite (claude_usage_kept info lines _ H).
  reflexivity.
Qed.

(** X18: the stream handler of package [claude] never writes
    [message_stop]; it writes at most one event for each line that parses;
    and the events it writes depend neither on the response identifier of
    the gateway nor on the relay info. *)
Theorem X18_package_stream_frames (c : gmap string ctxValue) (responseId : string)
  (lines : list Line.t) (info : RelayInfo.t) :
  c !! "converted_from_claude" = Some (CtxBool true) ->
  when_handled (packageHandler c responseId lines info)
    (fun h =>
       Forall (fun r => is_type "message_stop" r = false) (sent h)
       /\ (length (sent h) <= length (List.filter parses lines))%nat
       /\ forall responseId' info',
            when_handled (packageHandler c responseId' lines info')
              (fun h' => sent h' = sent h)).
Proof.
  intros Hc. unfold Claude.ResponsesToClaudeStreamHandler. rewrite Hc.
  cbn [when_handled sent]. rewrite package_written.
  cbn [Claude.ClaudeStream.written app].
  split; [|split].
  - apply List.Forall_forall. intros r Hr. apply in_flat_map in Hr as (l & _ & Hr).
    destruct (Line.parsed l) as [e|]; [|contradiction].
    destruct (Claude.ConvertResponsesStreamToClaudeStream e EmptyString EmptyString)
      eqn:E; [|contradiction].
    destruct Hr as [<- | []]. eapply converter_types, E.
  - clear. induction lines as [|l lines IH]; [reflexivity|].
    cbn [flat_map List.filter]. rewrite length_app.
    assert (Hp : parses l = match Line.parsed l with Ok _ => true | Err _ => false end)
      by reflexivity.
    rewrite Hp. clear Hp.
    destruct (Line.parsed l) as [e|];
      [destruct (Claude.ConvertResponsesStreamToClaudeStream e EmptyString EmptyString)|];
      cbn [length]; lia.
  - intros responseId' info'. now rewrite package_written.
Qed.

End StreamHandlerProperties.

Lemma X11_stream_response_body_witness :
  converted_from_claude !! "converted_from_claude" = Some (CtxBool true)
  /\ when_ok
       (OpenaiResponses.ResponsesToClaudeStreamHandler count_bytes example_info
          (Some example_lines))
       (fun h => RelayInfo.ResponseBody (info_after h) = recorded example_lines).
Proof.
  assert (Hc : converted_from_claude !! "converted_from_claude" = Some (CtxBool true))
    by reflexivity.
  split; [exact Hc|].
  exact (proj1 (proj2 (X11_stream_response_body count_bytes
                         "response.output_item.done" "web_search_call"
                         "web_search_preview" converted_from_claude "chatcmpl-1"
                         example_lines example_info Hc))).
Defined.

Lemma X12_unparseable_lines_inert_witness :
  converted_from_claude !! "converted_from_claude" = Some (CtxBool true)
  /\ when_ok
       (OpenaiResponses.ResponsesToClaudeStreamHandler count_bytes example_info
          (Some example_lines))
       (fun h =>
          when_ok
            (OpenaiResponses.ResponsesToClaudeStreamHandler count_bytes
               example_info (Some (List.filter parses example_lines)))
            (fun h' => sent h = sent h' /\ returned h = returned h')).
Proof.
  assert (Hc : converted_from_claude !! "converted_from_claude" = Some (CtxBool true))
    by reflexivity.
  split; [exact Hc|].
  exact (proj1 (proj2 (X12_unparseable_lines_inert count_bytes
                         "response.output_item.done" "web_search_call"
                         "web_search_preview" converted_from_claude "chatcmpl-1"
                         example_lines example_info Hc))).
Defined.

Lemma X13_chat_stream_counts_client_text_witness :
  Forall (fun l => is_event "response.completed" l = false) example_lines
  /\ when_ok
       (OpenaiResponses.ResponsesToChatStreamHandler count_bytes
          "response.output_item.done" "web_search_call" "web_search_preview"
          example_info (Some example_lines))
       (fun h =>
          returned h
          = OpenaiResponses.reconcileUsage count_bytes example_info
              (client_text chunk_text (sent h)) Usage.zero).
Proof.
  assert (H : Forall (fun l => is_event "response.completed" l = false) example_lines)
    by (repeat constructor).
  split; [exact H|].
  exact (X13_chat_stream_counts_client_text count_bytes "response.output_item.done"
           "web_search_call" "web_search_preview" example_info example_lines H).
Defined.

(** Two web-search calls on a stream, for a counter that stands at 3. *)
Lemma X14_chat_stream_tool_counters_witness :
  let item := ResponsesOutput.mk "web_search_call" EmptyString [] in
  let done :=
    Line.mk "{}"
      (Ok (ResponsesStreamResponse.mk "response.output_item.done" None EmptyString
             (Some item))) in
  let info :=
    RelayInfo.set_BuiltInTools (Some (<["web_search_preview" := Some 3]> ∅))
      example_info in
  "response.output_item.done" <> "response.completed"
  /\ "response.output_item.done" <> "response.output_text.delta"
  /\ when_ok
       (OpenaiResponses.ResponsesToChatStreamHandler count_bytes
          "response.output_item.done" "web_search_call" "web_search_preview"
          info (Some [done; done]))
       (fun h =>
          exists m', RelayInfo.BuiltInTools (info_after h) = Some m'
                     /\ m' !! "web_search_preview" = Some (Some 5)).
Proof.
  cbv zeta.
  assert (H1 : "response.output_item.done" <> "response.completed")
    by discriminate.
  assert (H2 : "response.output_item.done" <> "response.output_text.delta")
    by discriminate.
  split; [exact H1|]. split; [exact H2|].
  pose proof (X14_chat_stream_tool_counters count_bytes "response.output_item.done"
                "web_search_call" "web_search_preview"
                (RelayInfo.set_BuiltInTools
                   (Some (<["web_search_preview" := Some 3]> ∅)) example_info)
                [Line.mk "{}"
                   (Ok (ResponsesStreamResponse.mk "response.output_item.done" None
                          EmptyString
                          (Some (ResponsesOutput.mk "web_search_call" EmptyString []))));
                 Line.mk "{}"
                   (Ok (ResponsesStreamResponse.mk "response.output_item.done" None
                          EmptyString
                          (Some (ResponsesOutput.mk "web_search_call" EmptyString []))))]
                H1 H2) as H.
  cbv zeta in H.
  cbn [when_ok OpenaiResponses.ResponsesToChatStreamHandler] in H |- *.
  cbn [RelayInfo.BuiltInTools RelayInfo.set_BuiltInTools example_info] in H.
  destruct H as (m' & Hm & _ & Hk). exists m'. split; [exact Hm|].
  rewrite Hk. reflexivity.
Defined.

Lemma X17_claude_stream_counts_client_text_witness :
  Forall (fun l => is_event "response.done" l = false) example_lines
  /\ when_ok
       (OpenaiResponses.ResponsesToClaudeStreamHandler count_bytes example_info
          (Some example_lines))
       (fun h =>
          returned h
          = OpenaiResponses.reconcileUsage count_bytes example_info
              (client_text frame_text (sent h)) Usage.zero).
Proof.
  assert (H : Forall (fun l => is_event "response.done" l = false) example_lines)
    by (repeat constructor).
  split; [exact H|].
  exact (X17_claude_stream_counts_client_text count_bytes example_info
           example_lines H).
Defined.

Lemma X18_package_stream_frames_witness :
  converted_from_claude !! "converted_from_claude" = Some (CtxBool true)
  /\ when_handled
       (Claude.ResponsesToClaudeStreamHandler count_bytes converted_from_claude
          "chatcmpl-1" example_lines example_info)
       (fun h => Forall (fun r => is_type "message_stop" r = false) (sent h)).
Proof.
  assert (Hc : converted_from_claude !! "converted_from_claude" = Some (CtxBool true))
    by reflexivity.
  split; [exact Hc|].
  pose proof (X18_package_stream_frames count_bytes converted_from_claude
                "chatcmpl-1" example_lines example_info Hc) as H.
  unfold Claude.ResponsesToClaudeStreamHandler in H |- *.
  rewrite Hc in H |- *. cbn [when_handled] in H |- *. exact (proj1 H).
Defined.

(** *** What the non-streaming handlers leave behind *)

Lemma tools_after_body (v : string) (i : RelayInfo.t) :
  RelayInfo.BuiltInTools (RelayInfo.set_ResponseBody v i) = RelayInfo.BuiltInTools i.
Proof. reflexivity. Qed.

(** Runs a handler along every path: the tests are decided innermost
    first, and the two sanitizing steps are rewritten to [ToValidUTF8]. *)
Ltac run_handler :=
  unfold OpenaiResponses.isValidUTF8Bytes, OpenaiResponses.cleanInvalidUTF8Bytes,
    Claude.isValidUTF8Bytes, Claude.cleanInvalidUTF8Bytes;
  repeat (cbn [body_written answer info_left];
          rewrite ?sanitized_bytes, ?tools_after_body;
          match goal with
          | |- context [match ?x with _ => _ end] =>
              lazymatch x with
              | context [match _ with _ => _ end] => fail
              | negb _ => fail
              | _ => destruct x eqn:?
              end
          end);
  cbn [body_written answer info_left];
  rewrite ?sanitized_bytes, ?tools_after_body.

Section NonStreamingProperties.

Context {marshal_claude : Marshaler ClaudeResponse.t}.
Context {marshal_text : Marshaler OpenAITextResponse.t}.
Variable Unmarshal : string -> result ResponsesBody.t.
Variable GetOpenAIError : ResponsesBody.t -> option OpenAIError.t.
Variable Interface2String : any -> string.

Local Abbreviation claudeHandler :=
  (OpenaiResponses.ResponsesToClaudeHandler Unmarshal GetOpenAIError).
Local Abbreviation chatHandler :=
  (OpenaiResponses.ResponsesToChatHandler Unmarshal GetOpenAIError Interface2String).
Local Abbreviation packageHandler :=
  (Claude.ResponsesToClaudeHandler Unmarshal GetOpenAIError).

(** X19: once the body of the upstream response has been read, the two
    handlers of package [openai_responses] record it in the relay info if
    the request context holds the original request with the right type,
    and leave the relay info as it was otherwise; the handler of package
    [claude] records it in any case, before it looks at the context.  The
    Messages-style handlers record the body with the bytes that are not
    part of a well-formed encoding removed; the Chat-style handler records
    it as it was read. *)
Theorem X19_handlers_record_body (c : gmap string ctxValue) (info : RelayInfo.t)
  (resp : HttpResponse.t) (body : string) :
  HttpResponse.ReadAll resp = Ok body ->
  (match c !! "original_claude_request" with
   | Some (CtxClaudeRequest _) =>
       RelayInfo.ResponseBody (info_left (claudeHandler c info resp))
       = ToValidUTF8 body
   | _ => info_left (claudeHandler c info resp) = info
   end)
  /\ (match c !! "original_chat_request" with
      | Some (CtxChatRequest _) =>
          RelayInfo.ResponseBody (info_left (chatHandler c info resp)) = body
      | _ => info_left (chatHandler c info resp) = info
      end)
  /\ RelayInfo.ResponseBody (info_left (packageHandler c resp info))
     = ToValidUTF8 body.
Proof.
  intros Hread. split; [|split].
  - unfold OpenaiResponses.ResponsesToClaudeHandler. rewrite Hread, sanitized_bytes.
    destruct (c !! "original_claude_request") as [[]|]; try reflexivity.
    run_handler; reflexivity.
  - unfold OpenaiResponses.ResponsesToChatHandler. rewrite Hread.
    destruct (c !! "original_chat_request") as [[]|]; try reflexivity.
    run_handler; reflexivity.
  - unfold Claude.ResponsesToClaudeHandler. rewrite Hread, sanitized_bytes.
    run_handler; reflexivity.
Qed.

(** X20: a non-streaming handler writes a body to the client exactly when
    it returns a usage, and it returns an error exactly when it has
    written nothing; the body that a Messages-style handler writes is
    accepted by [utf8.Valid]. *)
Theorem X20_handlers_write_with_usage (c : gmap string ctxValue)
  (info : RelayInfo.t) (resp : HttpResponse.t) :
  (match body_written (claudeHandler c info resp) with
   | Some jsonData =>
       Valid jsonData = true
       /\ exists usage, answer (claudeHandler c info resp) = inr usage
   | None => exists err, answer (claudeHandler c info resp) = inl err
   end)
  /\ (match body_written (chatHandler c info resp) with
      | Some jsonData => exists usage, answer (chatHandler c info resp) = inr usage
      | None => exists err, answer (chatHandler c info resp) = inl err
      end)
  /\ (match body_written (packageHandler c resp info) with
      | Some jsonData =>
          Valid jsonData = true
          /\ exists usage, answer (packageHandler c resp info) = inr usage
      | None => exists err, answer (packageHandler c resp info) = inl err
      end).
Proof.
  split; [|split].
  - unfold OpenaiResponses.ResponsesToClaudeHandler. run_handler;
      cbn [body_written answer]; eauto.
    all: split; [apply ToValidUTF8_accepted | eauto].
  - unfold OpenaiResponses.ResponsesToChatHandler. run_handler;
      cbn [body_written answer]; eauto.
  - unfold Claude.ResponsesToClaudeHandler. run_handler;
      cbn [body_written answer]; eauto.
    all: split; [apply ToValidUTF8_accepted | eauto].
Qed.

(** X21: the usage that a non-streaming handler returns is taken from the
    usage of the decoded upstream response, and is empty when the
    response has none.  The handlers of package [openai_responses] copy
    the input, output and total tokens into the prompt, completion and
    total tokens (the Chat-style one also the cached tokens) and set
    nothing else; the handler of package [claude] returns the upstream
    usage as it is, and an empty usage when the response holds an
    error. *)
Theorem X21_nonstream_usage (c : gmap string ctxValue) (info : RelayInfo.t)
  (resp : HttpResponse.t) :
  (match answer (claudeHandler c info resp) with
   | inr usage =>
       exists body responsesResponse,
         HttpResponse.ReadAll resp = Ok body
         /\ Unmarshal (ToValidUTF8 body) = Ok responsesResponse
         /\ usage
            = usage_or_zero usage_of_backend
                (OpenAIResponsesResponse.Usage
                   (ResponsesBody.Response responsesResponse))
   | inl _ => True
   end)
  /\ (match answer (chatHandler c info resp) with
      | inr usage =>
          exists body responsesResponse,
            HttpResponse.ReadAll resp = Ok body
            /\ Unmarshal body = Ok responsesResponse
            /\ usage
               = usage_or_zero chat_usage_of_backend
                   (OpenAIResponsesResponse.Usage
                      (ResponsesBody.Response responsesResponse))
      | inl _ => True
      end)
  /\ (match answer (packageHandler c resp info) with
      | inr usage =>
          exists body responsesResponse,
            HttpResponse.ReadAll resp = Ok body
            /\ Unmarshal (ToValidUTF8 body) = Ok responsesResponse
            /\ usage
               = if is_nil (ResponsesBody.Error responsesResponse)
                 then usage_or_zero (fun ru => ru)
                        (OpenAIResponsesResponse.Usage
                           (ResponsesBody.Response responsesResponse))
                 else Usage.zero
      | inl _ => True
      end).
Proof.
  split; [|split].
  - unfold OpenaiResponses.ResponsesToClaudeHandler. run_handler; try exact I;
      do 2 eexists; (split; [reflexivity|]);
      (split; [eassumption|]); unfold usage_or_zero;
      match goal with Hu : OpenAIResponsesResponse.Usage _ = _ |- _ => rewrite Hu end;
      reflexivity.
  - unfold OpenaiResponses.ResponsesToChatHandler. run_handler; try exact I;
      do 2 eexists; (split; [reflexivity|]);
      (split; [eassumption|]); unfold usage_or_zero, chat_usage_of_backend;
      match goal with Hu : OpenAIResponsesResponse.Usage _ = _ |- _ => rewrite Hu end;
      try match goal with Hd : Usage.InputTokensDetails _ = _ |- _ => rewrite Hd end;
      reflexivity.
  - unfold Claude.ResponsesToClaudeHandler, Claude.ResponsesToClaudeMessagesResponse.
    run_handler; try exact I;
      do 2 eexists; (split; [reflexivity|]);
      (split; [eassumption|]); unfold usage_or_zero;
      repeat match goal with
      | Hu : OpenAIResponsesResponse.Usage _ = _ |- _ => rewrite Hu; clear Hu
      | He : ResponsesBody.Error _ = _ |- _ => rewrite He; clear He
      | Hm : Ok _ = Ok _ |- _ => injection Hm as <-
      end;
      reflexivity.
Qed.

Lemma countTool_fold (tools : list (gmap string any))
  (m : gmap string (option Z)) (k : string) :
  fold_left (OpenaiResponses.countTool Interface2String) tools m !! k
  = match m !! k with
    | Some (Some callCount) =>
        Some (Some (incremented
                      (length (List.filter (tool_of_type Interface2String k) tools))
                      callCount))
    | other => other
    end.
Proof.
  unfold incremented.
  revert m. induction tools as [|tool tools IH]; intros m.
  - cbn. now destruct (m !! k) as [[|]|].
  - cbn [fold_left List.filter]. rewrite IH. clear IH.
    unfold OpenaiResponses.countTool, tool_of_type.
    set (key := Interface2String (default ANil (tool !! "type"))).
    destruct (key =? k)%string eqn:E.
    + apply String.eqb_eq in E. subst k.
      destruct (m !! key) as [[n|]|] eqn:Hm; rewrite ?Hm; try reflexivity.
      rewrite lookup_insert_eq. cbn [length]. now rewrite Nat.iter_succ_r.
    + apply String.eqb_neq in E.
      destruct (m !! key) as [[n|]|] eqn:Hm; try reflexivity.
      now rewrite lookup_insert_ne.
Qed.

(** X22: when the non-streaming Chat-style handler returns a usage, every
    tool counter of the relay info that exists and is not [nil] has been
    incremented once for each tool of the decoded response whose type is
    the key of the counter, and no counter has been added or removed;
    when the handler returns an error the counters are as they were. *)
Theorem X22_chat_handler_tool_counters (c : gmap string ctxValue)
  (info : RelayInfo.t) (resp : HttpResponse.t) :
  match answer (chatHandler c info resp) with
  | inr _ =>
      exists body responsesResponse,
        HttpResponse.ReadAll resp = Ok body
        /\ Unmarshal body = Ok responsesResponse
        /\ match RelayInfo.BuiltInTools info with
           | Some m =>
               exists m',
                 RelayInfo.BuiltInTools (info_left (chatHandler c info resp))
                 = Some m'
                 /\ forall k,
                      m' !! k
                      = match m !! k with
                        | Some (Some callCount) =>
                            Some (Some (incremented
                                          (length
                                             (List.filter
                                                (tool_of_type Interface2String k)
                                                (ResponsesBody.Tools
                                                   responsesResponse)))
                                          callCount))
                        | other => other
                        end
           | None =>
               RelayInfo.BuiltInTools (info_left (chatHandler c info resp)) = None
           end
  | inl _ =>
      RelayInfo.BuiltInTools (info_left (chatHandler c info resp))
      = RelayInfo.BuiltInTools info
  end.
Proof.
  unfold OpenaiResponses.ResponsesToChatHandler. run_handler; try reflexivity;
    do 2 eexists; (split; [reflexivity|]); (split; [eassumption|]);
    cbn [RelayInfo.set_BuiltInTools RelayInfo.BuiltInTools];
    rewrite ?tools_after_body; try assumption;
    eexists; (split; [reflexivity|]); intros k; apply countTool_fold.
Qed.

End NonStreamingProperties.

Lemma X19_handlers_record_body_witness :
  HttpResponse.ReadAll example_response = Ok "{}"
  /\ RelayInfo.ResponseBody
       (info_left
          (@Claude.ResponsesToClaudeHandler (refusing OpenAITextResponse.t)
             (fun _ => Err "unexpected end of JSON input") (fun _ => None)
             ∅ example_response example_info))
     = ToValidUTF8 "{}".
Proof.
  assert (H : HttpResponse.ReadAll example_response = Ok "{}") by reflexivity.
  split; [exact H|].
  exact (proj2 (proj2 (@X19_handlers_record_body (refusing ClaudeResponse.t)
                         (refusing OpenAITextResponse.t)
                         (fun _ => Err "unexpected end of JSON input")
                         (fun _ => None) (fun _ => EmptyString)
                         ∅ example_info example_response "{}" H))).
Defined.

(** *** From the converted request to the handled response *)

Section RoundTrips.

Context {marshal_string : Marshaler string}.
Context {marshal_any : Marshaler any}.
Context {marshal_inputs : Marshaler (list Input.t)}.
Context {marshal_tools : Marshaler (list any)}.
Context {marshal_bool : Marshaler bool}.
Context {marshal_claude : Marshaler ClaudeResponse.t}.
Context {marshal_text : Marshaler OpenAITextResponse.t}.
Variable json_Valid : string -> bool.
Variable Unmarshal : string -> result ResponsesBody.t.
Variable GetOpenAIError : ResponsesBody.t -> option OpenAIError.t.
Variable Interface2String : any -> string.
Variable CountTextToken : string -> string -> Z.
Variables ItemDone WebSearchCall WebSearchPreview : string.

Local Abbreviation DoResponse :=
  (OpenaiResponses.DoResponse Unmarshal GetOpenAIError Interface2String
     CountTextToken ItemDone WebSearchCall WebSearchPreview).

(** X23: a Chat Completions request that [Adaptor.ConvertOpenAIRequest]
    of package [openai_responses] has converted is complete for the rest
    of the relay.  [GetRequestURL], which refuses the relay info as it was
    before the conversion, returns the [/v1/responses] URL for the relay
    info as the conversion leaves it; [DoResponse] hands the response to
    the Chat-style handler, streaming or not as the relay info says; and
    the handler finds the original request in the context, whatever the
    context held before. *)
Theorem X23_chat_round_trip (c : gmap string ctxValue) (info : RelayInfo.t)
  (req : GeneralOpenAIRequest.t) (v : OpenaiResponses.converted)
  (target : RequestTarget.t) (resp : HttpResponse.t) :
  let r := OpenaiResponses.ConvertOpenAIRequest json_Valid c info (Some req) in
  RelayInfo.RelayMode_ info = RelayModeChatCompletions ->
  outcome r = Ok v ->
  OpenaiResponses.GetRequestURL info target
    = Err ("OpenAI Responses 渠道仅支持 /v1/responses 接口，当前请求: "
           +:+ RequestTarget.RequestURLPath target)
  /\ OpenaiResponses.GetRequestURL (relay_after r) target
     = Ok (RequestTarget.ChannelBaseUrl target +:+ "/v1/responses")
  /\ DoResponse (context_after r) resp (relay_after r)
     = (if RelayInfo.IsStream info
        then OpenaiResponses.ChatStreamHandled
               (OpenaiResponses.ResponsesToChatStreamHandler CountTextToken
                  ItemDone WebSearchCall WebSearchPreview (relay_after r)
                  (Some (HttpResponse.Lines resp)))
        else OpenaiResponses.ChatHandled
               (OpenaiResponses.ResponsesToChatHandler Unmarshal GetOpenAIError
                  Interface2String (context_after r) (relay_after r) resp))
  /\ context_after r !! "original_chat_request" = Some (CtxChatRequest req).
Proof.
  cbv zeta. intros Hmode. unfold OpenaiResponses.ConvertOpenAIRequest.
  rewrite Hmode.
  destruct (OpenaiResponses.ChatCompletionsToResponsesRequest _ _ _) as [rr|e];
    cbn [outcome context_after relay_after]; [intros _ | discriminate].
  unfold OpenaiResponses.GetRequestURL, OpenaiResponses.DoResponse. rewrite Hmode.
  cbn [RelayInfo.set_RelayMode RelayInfo.RelayMode_ RelayInfo.IsStream].
  rewrite lookup_insert_eq.
  rewrite lookup_insert_ne by discriminate. rewrite lookup_insert_eq.
  cbn [OpenaiResponses.isTrue]. repeat split.
Qed.

(** X24: a Messages request that [Adaptor.ConvertClaudeRequest] has
    converted gets the [/v1/responses] URL, and its response goes to the
    Messages-style handler, which finds the original request in the
    context, provided that the context does not mark the request as
    converted from Chat Completions: [DoResponse] looks for that mark
    first. *)
Theorem X24_claude_round_trip (c : gmap string ctxValue) (info : RelayInfo.t)
  (req : ClaudeRequest.t) (responsesReq : OpenAIResponsesRequest.t)
  (target : RequestTarget.t) (resp : HttpResponse.t) :
  let r := OpenaiResponses.ConvertClaudeRequest c info (Some req) in
  OpenaiResponses.isTrue (c !! "converted_from_chat") = false ->
  outcome r = Ok responsesReq ->
  OpenaiResponses.GetRequestURL (relay_after r) target
    = Ok (RequestTarget.ChannelBaseUrl target +:+ "/v1/responses")
  /\ DoResponse (context_after r) resp (relay_after r)
     = (if RelayInfo.IsStream info
        then OpenaiResponses.ClaudeStreamHandled
               (OpenaiResponses.ResponsesToClaudeStreamHandler CountTextToken
                  (relay_after r) (Some (HttpResponse.Lines resp)))
        else OpenaiResponses.ClaudeHandled
               (OpenaiResponses.ResponsesToClaudeHandler Unmarshal GetOpenAIError
                  (context_after r) (relay_after r) resp))
  /\ context_after r !! "original_claude_request" = Some (CtxClaudeRequest req).
Proof.
  cbv zeta. intros Hchat. unfold OpenaiResponses.ConvertClaudeRequest.
  destruct (negb (nonempty (ClaudeRequest.Model req)));
    cbn [outcome]; [discriminate|].
  destruct (OpenaiResponses.ClaudeMessagesToResponsesRequest _ _) as [rr|e];
    cbn [outcome context_after relay_after]; [intros _ | discriminate].
  unfold OpenaiResponses.GetRequestURL, OpenaiResponses.DoResponse.
  cbn [RelayInfo.set_RelayMode RelayInfo.RelayMode_ RelayInfo.IsStream].
  rewrite lookup_insert_eq.
  rewrite !(lookup_insert_ne _ _ "converted_from_chat") by discriminate.
  rewrite Hchat.
  rewrite lookup_insert_ne by discriminate. rewrite lookup_insert_eq.
  cbn [OpenaiResponses.isTrue]. repeat split.
Qed.

(** X25: in package [claude], for a model name that
    [shouldRouteToResponses] accepts, the response of every request that
    [Adaptor.ConvertOpenAIRequest] has seen goes to the handlers of the
    Responses dialect, also when the translation has failed and the
    request was converted by the native converter, and the handler finds
    the original request in the context.  The request itself is sent to
    an endpoint of the Claude API, [/v1/messages] or [/v1/complete] as
    [Init] decides from the upstream model name: [GetRequestURL] looks
    neither at the context nor at the relay mode. *)
Theorem X25_package_round_trip (a : Claude.Adaptor) (c : gmap string ctxValue)
  (info : RelayInfo.t) (req : GeneralOpenAIRequest.t) (responseId : string)
  (target : RequestTarget.t) (resp : HttpResponse.t) :
  let a := Claude.Init a info in
  let r := Claude.ConvertOpenAIRequest a c info (Some req) in
  let model := RelayInfo.UpstreamModelName info in
  let completion :=
    String.prefix "claude-2" model || String.prefix "claude-instant" model in
  Claude.shouldRouteToResponses (RelayInfo.OriginModelName info) = true ->
  Claude.DoResponse Unmarshal GetOpenAIError CountTextToken a (context_after r)
    responseId resp (relay_after r)
  = (if RelayInfo.IsStream info
     then Claude.ResponsesStream
            (Claude.ResponsesToClaudeStreamHandler CountTextToken (context_after r)
               responseId (HttpResponse.Lines resp) (relay_after r))
     else Claude.ResponsesAnswered
            (Claude.ResponsesToClaudeHandler Unmarshal GetOpenAIError
               (context_after r) resp (relay_after r)))
  /\ context_after r !! "original_claude_request" = Some (CtxChatRequest req)
  /\ Claude.GetRequestURL a target
     = Ok (RequestTarget.ChannelBaseUrl target
           +:+ (if completion then "/v1/complete" else "/v1/messages")
           +:+ (if RequestTarget.IsClaudeBetaQuery target then "?beta=true"
                else EmptyString)).
Proof.
  cbv zeta. intros Hroute. unfold Claude.ConvertOpenAIRequest. rewrite Hroute.
  assert (Hmark :
    (<["original_claude_request" := CtxChatRequest req]>
       (<["converted_from_claude" := CtxBool true]> c) : gmap string ctxValue)
      !! "converted_from_claude" = Some (CtxBool true)).
  { rewrite lookup_insert_ne by discriminate. apply lookup_insert_eq. }
  split; [|split].
  - destruct (Claude.ClaudeMessagesToResponsesRequest (Some req) info);
      cbn [context_after relay_after]; unfold Claude.DoResponse; rewrite Hmark;
      cbn [RelayInfo.set_RelayMode RelayInfo.IsStream]; reflexivity.
  - destruct (Claude.ClaudeMessagesToResponsesRequest (Some req) info);
      cbn [context_after relay_after]; apply lookup_insert_eq.
  - unfold Claude.Init, Claude.GetRequestURL.
    destruct (String.prefix "claude-2" _ || String.prefix "claude-instant" _);
      cbn [Claude.RequestMode];
      destruct (RequestTarget.IsClaudeBetaQuery target); cbn;
      now rewrite ?append_nil_r, ?append_assoc.
Qed.

End RoundTrips.

(** A Chat Completions request without messages, not streamed. *)
Lemma X23_chat_round_trip_witness :
  let req :=
    GeneralOpenAIRequest.mk "gpt-4o" [] false 0 0 EmptyString None 0%float
      [] ANil None EmptyString in
  let info :=
    RelayInfo.mk "gpt-5" "gpt-4o" 0 RelayModeChatCompletions false EmptyString None in
  let target := RequestTarget.mk "https://api.openai.com" "/v1/chat/completions" false in
  let r :=
    @OpenaiResponses.ConvertOpenAIRequest (refusing string) (refusing any)
      (refusing (list Input.t)) (refusing (list any)) (refusing bool)
      (fun _ => false) ∅ info (Some req) in
  RelayInfo.RelayMode_ info = RelayModeChatCompletions
  /\ (exists v, outcome r = Ok v)
  /\ OpenaiResponses.GetRequestURL (relay_after r) target
     = Ok "https://api.openai.com/v1/responses".
Proof.
  cbv zeta.
  assert (H : outcome
                (@OpenaiResponses.ConvertOpenAIRequest (refusing string)
                   (refusing any) (refusing (list Input.t)) (refusing (list any))
                   (refusing bool) (fun _ => false) ∅
                   (RelayInfo.mk "gpt-5" "gpt-4o" 0 RelayModeChatCompletions false
                      EmptyString None)
                   (Some (GeneralOpenAIRequest.mk "gpt-4o" [] false 0 0 EmptyString
                            None 0%float [] ANil None EmptyString)))
              = Ok (OpenaiResponses.ConvertedToResponses
                      (OpenAIResponsesRequest.mk "gpt-5" None None 0 None None None
                         false 0%float None None 0%float EmptyString)))
    by (vm_compute; reflexivity).
  split; [reflexivity|]. split; [eexists; exact H|].
  exact (proj1 (proj2 (@X23_chat_round_trip (refusing string) (refusing any)
                         (refusing (list Input.t)) (refusing (list any))
                         (refusing bool) (refusing ClaudeResponse.t)
                         (refusing OpenAITextResponse.t) (fun _ => false)
                         (fun _ => Err "unexpected end of JSON input")
                         (fun _ => None) (fun _ => EmptyString) count_bytes
                         "response.output_item.done" "web_search_call"
                         "web_search_preview" ∅
                         (RelayInfo.mk "gpt-5" "gpt-4o" 0 RelayModeChatCompletions
                            false EmptyString None)
                         _ _
                         (RequestTarget.mk "https://api.openai.com"
                            "/v1/chat/completions" false)
                         example_response eq_refl H))).
Defined.

(** A Messages request without messages, in an empty context. *)
Lemma X24_claude_round_trip_witness :
  let req :=
    ClaudeRequest.mk "claude-3-opus" ANil [] 0 0 [] None 0%float 0 false ANil ANil
      None in
  let info :=
    RelayInfo.mk "gpt-5" "claude-3-opus" 0 (RelayModeOther 0) false EmptyString None in
  let r :=
    @OpenaiResponses.ConvertClaudeRequest (refusing string) (refusing any)
      (refusing (list Input.t)) ∅ info (Some req) in
  OpenaiResponses.isTrue ((∅ : gmap string ctxValue) !! "converted_from_chat") = false
  /\ (exists responsesReq, outcome r = Ok responsesReq)
  /\ context_after r !! "original_claude_request" = Some (CtxClaudeRequest req).
Proof.
  cbv zeta.
  assert (H : outcome
                (@OpenaiResponses.ConvertClaudeRequest (refusing string)
                   (refusing any) (refusing (list Input.t)) ∅
                   (RelayInfo.mk "gpt-5" "claude-3-opus" 0 (RelayModeOther 0) false
                      EmptyString None)
                   (Some (ClaudeRequest.mk "claude-3-opus" ANil [] 0 0 [] None
                            0%float 0 false ANil ANil None)))
              = Ok (OpenAIResponsesRequest.mk "gpt-5" None None 0 None None None
                      false 0%float None None 0%float EmptyString))
    by (vm_compute; reflexivity).
  assert (Hc : OpenaiResponses.isTrue
                 ((∅ : gmap string ctxValue) !! "converted_from_chat") = false)
    by reflexivity.
  split; [exact Hc|]. split; [eexists; exact H|].
  exact (proj2 (proj2 (@X24_claude_round_trip (refusing string) (refusing any)
                         (refusing (list Input.t)) (refusing ClaudeResponse.t)
                         (refusing OpenAITextResponse.t)
                         (fun _ => Err "unexpected end of JSON input")
                         (fun _ => None) (fun _ => EmptyString) count_bytes
                         "response.output_item.done" "web_search_call"
                         "web_search_preview" ∅ _ _ _
                         (RequestTarget.mk "https://api.openai.com" "/v1/messages"
                            false)
                         example_response Hc H))).
Defined.

(** A request without a model, for a model name that is routed: the
    translation fails, and the response is still handled as a response of
    the Responses dialect. *)
Lemma X25_package_round_trip_witness :
  let a := Claude.mkAdaptor Claude.RequestModeCompletion in
  let info :=
    RelayInfo.mk "claude-3-opus" "claude-3-opus" 0 (RelayModeOther 0) false
      EmptyString None in
  let req :=
    GeneralOpenAIRequest.mk EmptyString [] false 0 0 EmptyString None 0%float
      [] ANil None EmptyString in
  let target := RequestTarget.mk "https://api.anthropic.com" "/v1/messages" false in
  Claude.shouldRouteToResponses (RelayInfo.OriginModelName info) = true
  /\ Claude.GetRequestURL (Claude.Init a info) target
     = Ok "https://api.anthropic.com/v1/messages".
Proof.
  cbv zeta.
  assert (H : Claude.shouldRouteToResponses
                (RelayInfo.OriginModelName
                   (RelayInfo.mk "claude-3-opus" "claude-3-opus" 0 (RelayModeOther 0)
                      false EmptyString None)) = true)
    by reflexivity.
  split; [exact H|].
  exact (proj2 (proj2 (@X25_package_round_trip (refusing string) (refusing any)
                         (refusing (list Input.t)) (refusing (list any))
                         (refusing bool) (refusing OpenAITextResponse.t)
                         (fun _ => Err "unexpected end of JSON input")
                         (fun _ => None) count_bytes
                         (Claude.mkAdaptor Claude.RequestModeCompletion)
                         ∅ _
                         (GeneralOpenAIRequest.mk EmptyString [] false 0 0
                            EmptyString None 0%float [] ANil None EmptyString)
                         "chatcmpl-1"
                         (RequestTarget.mk "https://api.anthropic.com"
                            "/v1/messages" false)
                         example_response H))).
Defined.
